(** * The data engine of the Bitcoin price tracker (src/src/App.jsx)

    A shallow embedding of the classes [BTCDatabase] and [CryptoService]:
    the daily roll-up of the bundled CSV archive, the IndexedDB store of
    fetched days, the CoinGecko fetcher, the reconciliation of the two
    sources ([fetchCombinedData]) and the re-bucketing of a series
    ([aggregateData]).

    Modelling conventions.
    - A timestamp is an integer number of milliseconds since the epoch ([Z]).
      Invalid dates (NaN time values) are outside the model.
    - A price or a volume is a JavaScript number; finite values are modelled
      by rationals ([Q]).  [Math.max], [Math.min] and comparisons are exact
      on such values.  [+] stands for the addition of the code, applied in
      the order in which the code applies it: it is written as the exact
      sum, and no theorem rests on a law of addition (the code adds in
      binary64, which is not associative).
    - The methods of the runtime's [Date] object depend on the time zone of
      the host.  They are taken as an interface ([DateEnv]); a concrete
      instance for a zone with a constant offset is given in
      [FixedOffsetDate].
    - A JavaScript [Map] keeps its entries in insertion order: it is an
      association list.  [Array.prototype.sort] is stable.
    - [async] functions are run to completion one after the other: there is
      no interleaving of two calls. *)

From Stdlib Require Import String ZArith QArith Qminmax List Bool Lia.
From Stdlib Require Import Sorting.Sorted Sorting.Permutation Lqa.
Import ListNotations.

Set Implicit Arguments.
Local Open Scope Z_scope.

(* ================================================================== *)
(** ** Records *)

(** One OHLC record, [{ timestamp, open, high, low, close, volume }]. *)
Record DailyRecord : Type := mkRecord {
  timestamp : Z;
  open : Q;
  high : Q;
  low : Q;
  close : Q;
  volume : Q
}.

(** [Math.max(a, b)] and [Math.min(a, b)] on two finite numbers. *)
Definition Math_max (a b : Q) : Q := Qmax a b.
Definition Math_min (a b : Q) : Q := Qmin a b.

(** [24 * 60 * 60 * 1000] *)
Definition oneDayMs : Z := 24 * 60 * 60 * 1000.

(* ================================================================== *)
(** ** The [Date] interface of the runtime *)

(** Each operation takes the time value of the [Date] object it is called
    on and returns what the JavaScript method returns.  The setters return
    the new time value. *)
Class DateEnv : Type := {
  (** [new Date(t).getFullYear()] *)
  getFullYear : Z -> Z;
  (** [new Date(t).getMonth()], 0 for January *)
  getMonth : Z -> Z;
  (** [new Date(t).getDate()], the day of the month *)
  getDate : Z -> Z;
  (** [new Date(t).getDay()], 0 for Sunday *)
  getDay : Z -> Z;
  (** [new Date(t).setMinutes(min, sec, ms)] *)
  setMinutes : Z -> Z -> Z -> Z -> Z;
  (** [new Date(t).setHours(h, min, sec, ms)] *)
  setHours : Z -> Z -> Z -> Z -> Z -> Z;
  (** [new Date(t).setDate(d)] *)
  setDate : Z -> Z -> Z;
  (** [new Date(year, month, day).getTime()] *)
  newDate : Z -> Z -> Z -> Z
}.

(** The runtime's [Date] for a zone whose offset from UTC never changes,
    after the abstract operations of ECMA-262 (Day, TimeWithinDay,
    YearFromTime, MakeDay, MakeTime, MakeDate, LocalTime, UTC). *)
Module FixedOffsetDate.

Definition msPerDay : Z := 86400000.
Definition msPerHour : Z := 3600000.
Definition msPerMinute : Z := 60000.
Definition msPerSecond : Z := 1000.

Definition Day (t : Z) : Z := t / msPerDay.
Definition TimeWithinDay (t : Z) : Z := t mod msPerDay.
Definition HourFromTime (t : Z) : Z := (t / msPerHour) mod 24.
Definition WeekDay (t : Z) : Z := (Day t + 4) mod 7.

(** Year, month (0 to 11) and day of the month of a day number counted
    from 1 January 1970, in the proleptic Gregorian calendar. *)
Definition civilFromDays (days : Z) : Z * Z * Z :=
  let z := days + 719468 in
  let era := z / 146097 in
  let doe := z - era * 146097 in
  let yoe := (doe - doe / 1460 + doe / 36524 - doe / 146096) / 365 in
  let doy := doe - (365 * yoe + yoe / 4 - yoe / 100) in
  let mp := (5 * doy + 2) / 153 in
  let d := doy - (153 * mp + 2) / 5 + 1 in
  let m := if mp <? 10 then mp + 2 else mp - 10 in
  let y := yoe + era * 400 + (if m <=? 1 then 1 else 0) in
  (y, m, d).

(** The day number of the first day of month [m] (0 to 11) of year [y]. *)
Definition daysFromCivil (y m : Z) : Z :=
  let y' := if m <=? 1 then y - 1 else y in
  let era := y' / 400 in
  let yoe := y' - era * 400 in
  let doy := (153 * (if 1 <? m then m - 2 else m + 10) + 2) / 5 in
  let doe := yoe * 365 + yoe / 4 - yoe / 100 + doy in
  era * 146097 + doe - 719468.

Definition YearFromTime (t : Z) : Z := fst (fst (civilFromDays (Day t))).
Definition MonthFromTime (t : Z) : Z := snd (fst (civilFromDays (Day t))).
Definition DateFromTime (t : Z) : Z := snd (civilFromDays (Day t)).

Definition MakeDay (year month date : Z) : Z :=
  daysFromCivil (year + month / 12) (month mod 12) + date - 1.
Definition MakeTime (h m s ms : Z) : Z :=
  h * msPerHour + m * msPerMinute + s * msPerSecond + ms.
Definition MakeDate (day time : Z) : Z := day * msPerDay + time.

Section Zone.
(** The offset of local time from UTC, in milliseconds. *)
Variable LocalTZA : Z.

Definition LocalTime (t : Z) : Z := t + LocalTZA.
Definition UTC (t : Z) : Z := t - LocalTZA.

Definition zone : DateEnv := {|
  getFullYear t := YearFromTime (LocalTime t);
  getMonth t := MonthFromTime (LocalTime t);
  getDate t := DateFromTime (LocalTime t);
  getDay t := WeekDay (LocalTime t);
  setMinutes t m s ms :=
    let lt := LocalTime t in
    UTC (MakeDate (Day lt) (MakeTime (HourFromTime lt) m s ms));
  setHours t h m s ms :=
    UTC (MakeDate (Day (LocalTime t)) (MakeTime h m s ms));
  setDate t dt :=
    let lt := LocalTime t in
    UTC (MakeDate (MakeDay (YearFromTime lt) (MonthFromTime lt) dt)
                  (TimeWithinDay lt));
  newDate y m d :=
    let yr := if (0 <=? y) && (y <=? 99) then 1900 + y else y in
    UTC (MakeDate (MakeDay yr m d) 0)
|}.
End Zone.

(** The zone of UTC itself. *)
Definition utc : DateEnv := zone 0.

End FixedOffsetDate.

(* ================================================================== *)
(** ** JavaScript containers *)

Section JsMap.
Variable V : Type.

(** A [Map] with number keys, in insertion order. *)
Definition JsMap : Type := list (Z * V).

Fixpoint Map_get (key : Z) (m : JsMap) : option V :=
  match m with
  | [] => None
  | (k, v) :: m' => if k =? key then Some v else Map_get key m'
  end.

Definition Map_has (key : Z) (m : JsMap) : bool :=
  match Map_get key m with Some _ => true | None => false end.

(** [m.set(key, v)]: a present key keeps its place, a new key goes last.
    Assigning to the fields of the object that [m.get(key)] returned is
    the same update of the entry, the object being shared with the map. *)
Fixpoint Map_set (key : Z) (v : V) (m : JsMap) : JsMap :=
  match m with
  | [] => [(key, v)]
  | (k, v') :: m' =>
      if k =? key then (k, v) :: m' else (k, v') :: Map_set key v m'
  end.

(** [Array.from(m.values())] *)
Definition Map_values (m : JsMap) : list V := map snd m.

Definition Map_keys (m : JsMap) : list Z := map fst m.
End JsMap.

(** [new Set(xs).has(x)] on numbers. *)
Definition Set_has (x : Z) (xs : list Z) : bool := existsb (Z.eqb x) xs.

(** [arr.sort((a, b) => a.timestamp - b.timestamp)]: a stable sort by
    ascending timestamp. *)
Fixpoint insertByTimestamp (a : DailyRecord) (sorted : list DailyRecord)
  : list DailyRecord :=
  match sorted with
  | [] => [a]
  | b :: rest =>
      if timestamp a <=? timestamp b then a :: b :: rest
      else b :: insertByTimestamp a rest
  end.

Fixpoint sortByTimestamp (arr : list DailyRecord) : list DailyRecord :=
  match arr with
  | [] => []
  | a :: rest => insertByTimestamp a (sortByTimestamp rest)
  end.

(** The order the sort establishes, and the strict order of a series
    without two records of one timestamp. *)
Definition byTimestamp (a b : DailyRecord) : Prop := timestamp a <= timestamp b.
Definition ascending (series : list DailyRecord) : Prop :=
  StronglySorted (fun a b => timestamp a < timestamp b) series.

(** The loop shared by the three roll-ups of the program: the entry of the
    element's key is created from the first element of the key and updated
    with each later one. *)
Definition groupInto (X V : Type) (keyOf : X -> Z) (create : Z -> X -> V)
    (update : V -> X -> V) (m : JsMap V) (x : X) : JsMap V :=
  let key := keyOf x in
  if negb (Map_has key m) then Map_set key (create key x) m
  else match Map_get key m with
       | Some g => Map_set key (update g x) m
       | None => m
       end.

(** The map after the loop over [xs]. *)
Definition groupAll (X V : Type) (keyOf : X -> Z) (create : Z -> X -> V)
    (update : V -> X -> V) (xs : list X) : JsMap V :=
  fold_left (groupInto keyOf create update) xs [].

(** The elements of a key, in their order, and what the loop makes of
    them. *)
Definition bucket (X : Type) (keyOf : X -> Z) (key : Z) (xs : list X) : list X :=
  filter (fun x => keyOf x =? key) xs.

Definition rollup (X V : Type) (keyOf : X -> Z) (create : Z -> X -> V)
    (update : V -> X -> V) (key : Z) (xs : list X) : option V :=
  match bucket keyOf key xs with
  | [] => None
  | x :: rest => Some (fold_left update rest (create key x))
  end.

(* ================================================================== *)
(** ** Inputs of the data service *)

Inductive Interval : Type := Hour | Day | Week | Month.

(** One line of the CSV file after [split(',').map(v => parseFloat(v))]:
    the first field is a number of seconds or NaN ([None]); the price
    fields are taken as finite numbers. *)
Record CsvRow : Type := mkRow {
  row_timestamp : option Q;
  row_open : Q;
  row_high : Q;
  row_low : Q;
  row_close : Q;
  row_volume : Q
}.

(** A line of the file: blank after [trim()], or a row. *)
Inductive CsvLine : Type :=
| BlankLine
| DataLine (row : CsvRow).

(** The time value of [new Date(v)] for a finite number [v]: the integer
    part of [v]. *)
Definition timeValue (v : Q) : Z := Z.quot (Qnum v) (Zpos (Qden v)).

(** The message of a caught error. *)
Inductive Message : Type :=
| ApiErrorMessage (status : Z)
    (** [`API Error: ${response.status}`] *)
| UndefinedTimestampMessage
    (** of the TypeError raised by reading [timestamp] of [undefined] *)
| RuntimeMessage (text : string)
    (** of an error raised by [fetch] or by IndexedDB *).

Inductive Result (E A : Type) : Type :=
| Ok (a : A)
| Err (e : E).
Arguments Ok {E A} a.
Arguments Err {E A} e.

(** What [fetch] of the price API does: it rejects, or it resolves to a
    response with a status and a body whose [prices] field is a list of
    [[epochMs, price]] pairs. *)
Inductive ApiOutcome : Type :=
| ApiRejected (e : Message)
| ApiResponse (status : Z) (prices : list (Z * Q)).

(** [response.ok] *)
Definition response_ok (status : Z) : bool := (200 <=? status) && (status <=? 299).

(** The object store [daily_prices], keyed by [timestamp]: its records in
    ascending key order, as [getAll()] returns them. *)
Definition Store : Type := list DailyRecord.

(** [store.put(data)] with [keyPath: 'timestamp'] *)
Fixpoint store_put (data : DailyRecord) (s : Store) : Store :=
  match s with
  | [] => [data]
  | r :: s' =>
      if timestamp data <? timestamp r then data :: r :: s'
      else if timestamp data =? timestamp r then data :: s'
      else r :: store_put data s'
  end.

(** The store after a sequence of [put]s on an empty store. *)
Definition store_of (puts : list DailyRecord) : Store :=
  fold_left (fun s data => store_put data s) puts [].

(** What a call finds outside the program. *)
Record Env : Type := mkEnv {
  (** [Date.now()] *)
  now : Z;
  (** [fetch('/data/btcusd_1-min_data.csv')] and the lines of its text *)
  csvResponse : Result Message (list CsvLine);
  (** the error of [indexedDB.open], if it fails *)
  dbError : option Message;
  (** the price API, from its [from] and [to] parameters *)
  api : Z -> Z -> ApiOutcome
}.

(** What the program keeps between calls: the two static fields of
    [CryptoService], the content of the database, and two logs, of the
    batches written to the database and of the requests sent to the API. *)
Record State : Type := mkState {
  static_csvData : option (list DailyRecord);
  static_loadingPromise : option (Result Message (list DailyRecord));
  db : Store;
  dbWrites : list (list DailyRecord);
  apiCalls : list (Z * Z)
}.

Inductive Source : Type := CSV_ONLY | CSV_AND_CACHE | LIVE_API | FETCHING | ERROR.

(** What [fetchCombinedData] returns ([lastUpdate], the clock reading at
    the return, is left out). *)
Record FetchResult : Type := mkFetchResult {
  data : list DailyRecord;
  source : Source;
  error : option Message;
  missingDays : Z
}.

(** A computation that reads and changes the state and returns or throws.
    A state change made before a throw stays. *)
Definition M (E A : Type) : Type := State -> Result E A * State.

Definition ret (E A : Type) (a : A) : M E A := fun st => (Ok a, st).
Definition throw (E A : Type) (e : E) : M E A := fun st => (Err e, st).
Definition bind (E A B : Type) (c : M E A) (k : A -> M E B) : M E B :=
  fun st =>
    match c st with
    | (Ok a, st') => k a st'
    | (Err e, st') => (Err e, st')
    end.

(** [c], remembering for the handler the value [d] that the local variable
    [missingDays] has while [c] runs. *)
Definition withMissingDays (E A : Type) (d : Z) (c : M E A) : M (E * Z) A :=
  fun st =>
    match c st with
    | (Ok a, st') => (Ok a, st')
    | (Err e, st') => (Err (e, d), st')
    end.

Declare Scope js_scope.
Delimit Scope js_scope with js.
Notation "x <- c ;; k" := (bind c (fun x => k))
  (at level 61, c at next level, right associativity) : js_scope.

(* ================================================================== *)
(** ** The data service *)

Section Service.
Context {date : DateEnv}.
Local Open Scope js_scope.

(** The key that [aggregateData] computes from [point.timestamp]. *)
Definition bucketKey (intervalType : Interval) (t : Z) : Z :=
  match intervalType with
  | Hour => setMinutes t 0 0 0
  | Day => setHours t 0 0 0 0
  | Week =>
      let day := getDay t in
      let diff := getDate t - day + (if day =? 0 then -6 else 1) in
      setHours (setDate t diff) 0 0 0 0
  | Month => newDate (getFullYear t) (getMonth t) 1
  end.

(** The key of a point under an interval type. *)
Definition pointKey (intervalType : Interval) (point : DailyRecord) : Z :=
  bucketKey intervalType (timestamp point).

(** [{ ...point, timestamp: key }] *)
Definition withTimestamp (point : DailyRecord) (key : Z) : DailyRecord :=
  {| timestamp := key; open := open point; high := high point;
     low := low point; close := close point; volume := volume point |}.

(** The assignments to [group] in [aggregateData]. *)
Definition mergePoint (group point : DailyRecord) : DailyRecord :=
  {| timestamp := timestamp group;
     open := open group;
     high := Math_max (high group) (high point);
     low := Math_min (low group) (low point);
     close := close point;
     volume := (volume group + volume point)%Q |}.

(** The body of [data.forEach] in [aggregateData]. *)
Definition aggregateStep (intervalType : Interval)
    (grouped : JsMap DailyRecord) (point : DailyRecord) : JsMap DailyRecord :=
  let key := bucketKey intervalType (timestamp point) in
  if negb (Map_has key grouped) then
    Map_set key (withTimestamp point key) grouped
  else
    match Map_get key grouped with
    | Some group => Map_set key (mergePoint group point) grouped
    | None => grouped
    end.

(** [CryptoService.aggregateData(data, intervalType)]; [None] is a [data]
    that is [null] or [undefined]. *)
Definition aggregateData (data : option (list DailyRecord))
    (intervalType : Interval) : list DailyRecord :=
  match data with
  | None => []
  | Some [] => []
  | Some points =>
      let grouped := fold_left (aggregateStep intervalType) points [] in
      sortByTimestamp (Map_values grouped)
  end.

(** [new Date(y, m, d).getTime()] of the local date of [t]. *)
Definition dayKeyOf (t : Z) : Z :=
  newDate (getFullYear t) (getMonth t) (getDate t).

(** The rows that the loop of [loadCSVData] does not skip: those of the
    lines that are not blank and whose timestamp is a number. *)
Fixpoint numericRows (lines : list CsvLine) : list CsvRow :=
  match lines with
  | [] => []
  | BlankLine :: lines' => numericRows lines'
  | DataLine row :: lines' =>
      match row_timestamp row with
      | Some _ => row :: numericRows lines'
      | None => numericRows lines'
      end
  end.

(** The day key of a row, from its timestamp in seconds. *)
Definition rowDayKey (row : CsvRow) : Z :=
  match row_timestamp row with
  | Some ts => dayKeyOf (timeValue (ts * 1000)%Q)
  | None => 0
  end.

(** The day key of a sample of the API, from its timestamp in
    milliseconds. *)
Definition sampleDayKey (sample : Z * Q) : Z := dayKeyOf (fst sample).

(** The record that [loadCSVData] creates for the first row of a day. *)
Definition rowRecord (dayKey : Z) (row : CsvRow) : DailyRecord :=
  {| timestamp := dayKey; open := row_open row; high := row_high row;
     low := row_low row; close := row_close row; volume := row_volume row |}.

(** The assignments to [day] in [loadCSVData]. *)
Definition mergeRow (day : DailyRecord) (row : CsvRow) : DailyRecord :=
  {| timestamp := timestamp day;
     open := open day;
     high := Math_max (high day) (row_high row);
     low := Math_min (low day) (row_low row);
     close := row_close row;
     volume := (volume day + row_volume row)%Q |}.

(** The body of the loop over the lines in [loadCSVData]. *)
Definition csvStep (dailyData : JsMap DailyRecord) (line : CsvLine)
  : JsMap DailyRecord :=
  match line with
  | BlankLine => dailyData
  | DataLine row =>
      match row_timestamp row with
      | None => dailyData
      | Some ts =>
          let t := timeValue (ts * 1000)%Q in
          let dayKey := dayKeyOf t in
          if negb (Map_has dayKey dailyData) then
            Map_set dayKey (rowRecord dayKey row) dailyData
          else
            match Map_get dayKey dailyData with
            | Some day => Map_set dayKey (mergeRow day row) dailyData
            | None => dailyData
            end
      end
  end.

(** The parsing of the file in [loadCSVData]: the loop starts at the
    second line. *)
Definition parseCSV (lines : list CsvLine) : list DailyRecord :=
  let dailyData := fold_left csvStep (skipn 1 lines) [] in
  sortByTimestamp (Map_values dailyData).

(** [CryptoService.loadCSVData()] *)
Definition loadCSVData (env : Env) : M Message (list DailyRecord) :=
  fun st =>
    match static_csvData st with
    | Some csvData => (Ok csvData, st)
    | None =>
        match static_loadingPromise st with
        | Some promise => (promise, st)
        | None =>
            match csvResponse env with
            | Err e =>
                (Err e,
                 mkState None (Some (Err e)) (db st) (dbWrites st) (apiCalls st))
            | Ok lines =>
                let csvData := parseCSV lines in
                (Ok csvData,
                 mkState (Some csvData) (Some (Ok csvData))
                         (db st) (dbWrites st) (apiCalls st))
            end
        end
    end.

(** [BTCDatabase.getAllDailyPrices()] *)
Definition getAllDailyPrices (env : Env) : M Message (list DailyRecord) :=
  fun st =>
    match dbError env with
    | Some e => (Err e, st)
    | None => (Ok (db st), st)
    end.

(** [BTCDatabase.saveBulkDailyPrices(dataArray)] *)
Definition saveBulkDailyPrices (env : Env) (dataArray : list DailyRecord)
  : M Message unit :=
  fun st =>
    match dbError env with
    | Some e => (Err e, st)
    | None =>
        (Ok tt,
         mkState (static_csvData st) (static_loadingPromise st)
                 (fold_left (fun s data => store_put data s) dataArray (db st))
                 (dbWrites st ++ [dataArray]) (apiCalls st))
    end.

(** The record that [fetchMissingDataFromAPI] creates for the first
    sample of a day. *)
Definition priceRecord (dayKey : Z) (sample : Z * Q) : DailyRecord :=
  {| timestamp := dayKey; open := snd sample; high := snd sample;
     low := snd sample; close := snd sample; volume := 0%Q |}.

(** The assignments to [day] in [fetchMissingDataFromAPI]. *)
Definition mergePrice (day : DailyRecord) (sample : Z * Q) : DailyRecord :=
  {| timestamp := timestamp day;
     open := open day;
     high := Math_max (high day) (snd sample);
     low := Math_min (low day) (snd sample);
     close := snd sample;
     volume := volume day |}.

(** The body of [data.prices.forEach]. *)
Definition priceStep (dailyData : JsMap DailyRecord) (sample : Z * Q)
  : JsMap DailyRecord :=
  let dayKey := dayKeyOf (fst sample) in
  if negb (Map_has dayKey dailyData) then
    Map_set dayKey (priceRecord dayKey sample) dailyData
  else
    match Map_get dayKey dailyData with
    | Some day => Map_set dayKey (mergePrice day sample) dailyData
    | None => dailyData
    end.

(** The conversion of [data.prices] to daily records. *)
Definition dailyFromPrices (prices : list (Z * Q)) : list DailyRecord :=
  let dailyData := fold_left priceStep prices [] in
  sortByTimestamp (Map_values dailyData).

(** The request to the API, logged. *)
Definition fetchApi (env : Env) (startDate endDate : Z) : M Message ApiOutcome :=
  fun st =>
    (Ok (api env startDate endDate),
     mkState (static_csvData st) (static_loadingPromise st) (db st)
             (dbWrites st) (apiCalls st ++ [(startDate, endDate)])).

(** [CryptoService.fetchMissingDataFromAPI(fromTimestamp, toTimestamp)] *)
Definition fetchMissingDataFromAPI (env : Env) (fromTimestamp toTimestamp : Z)
  : M Message (list DailyRecord) :=
  let startDate := fromTimestamp / 1000 in
  let endDate := toTimestamp / 1000 in
  response <- fetchApi env startDate endDate ;;
  match response with
  | ApiRejected e => throw _ e
  | ApiResponse status prices =>
      if negb (response_ok status) then throw _ (ApiErrorMessage status)
      else
        let result := dailyFromPrices prices in
        _ <- saveBulkDailyPrices env result ;;
        ret _ result
  end.

(** [csvData[csvData.length - 1]], whose [timestamp] is read next: a
    TypeError on an empty array. *)
Definition lastRecord (csvData : list DailyRecord) : M Message DailyRecord :=
  match csvData with
  | [] => throw _ UndefinedTimestampMessage
  | r :: rest => ret _ (last rest r)
  end.

(** [cachedData.length > 0 ? Math.max(...cachedData.map(d => d.timestamp))
    : lastCSVTimestamp] *)
Definition lastCachedTimestampOf (cachedData : list DailyRecord)
    (lastCSVTimestamp : Z) : Z :=
  match map timestamp cachedData with
  | [] => lastCSVTimestamp
  | t :: ts => fold_left Z.max ts t
  end.

(** [Math.max(lastCSVTimestamp, lastCachedTimestamp)] *)
Definition lastTimestampOf (lastCSV : DailyRecord) (cachedData : list DailyRecord)
  : Z :=
  Z.max (timestamp lastCSV) (lastCachedTimestampOf cachedData (timestamp lastCSV)).

(** [Math.floor((now - lastTimestamp) / oneDayMs)] *)
Definition daysSince (now' lastTimestamp : Z) : Z :=
  (now' - lastTimestamp) / oneDayMs.

(** The merge of the archive and of the cached records: [allData] after
    its first sort. *)
Definition mergeCached (csvData cachedData : list DailyRecord)
  : list DailyRecord :=
  let csvTimestamps := map timestamp csvData in
  let allData :=
    csvData ++
    filter (fun cached => negb (Set_has (timestamp cached) csvTimestamps))
           cachedData in
  sortByTimestamp allData.

(** The merge of the fetched records: [allData] after its second sort. *)
Definition mergeNew (allData newData : list DailyRecord) : list DailyRecord :=
  let newTimestamps := map timestamp allData in
  sortByTimestamp
    (allData ++
     filter (fun d => negb (Set_has (timestamp d) newTimestamps)) newData).

(** The [try] block of [fetchCombinedData]. *)
Definition fetchCombinedTry (env : Env) (forceFetch : bool)
  : M (Message * Z) FetchResult :=
  csvData <- withMissingDays 0 (loadCSVData env) ;;
  cachedData <- withMissingDays 0 (getAllDailyPrices env) ;;
  lastCSV <- withMissingDays 0 (lastRecord csvData) ;;
  let lastTimestamp := lastTimestampOf lastCSV cachedData in
  let daysSinceLastData := daysSince (now env) lastTimestamp in
  let allData := mergeCached csvData cachedData in
  if (0 <? daysSinceLastData) || forceFetch then
    newData <- withMissingDays daysSinceLastData
                 (fetchMissingDataFromAPI env (lastTimestamp + oneDayMs) (now env)) ;;
    if (0 <? length newData)%nat then
      ret _ {| data := mergeNew allData newData; source := LIVE_API;
               error := None; missingDays := 0 |}
    else
      ret _ {| data := allData; source := FETCHING;
               error := None; missingDays := daysSinceLastData |}
  else
    ret _ {| data := allData;
             source := if (length csvData <? length cachedData)%nat
                       then CSV_AND_CACHE else CSV_ONLY;
             error := None; missingDays := daysSinceLastData |}.

(** [CryptoService.fetchCombinedData(forceFetch)] *)
Definition fetchCombinedData (env : Env) (forceFetch : bool) (st : State)
  : FetchResult * State :=
  match fetchCombinedTry env forceFetch st with
  | (Ok result, st') => (result, st')
  | (Err (e, missingDays'), st') =>
      match loadCSVData env st' with
      | (Ok csvData, st'') =>
          ({| data := csvData; source := CSV_ONLY; error := Some e;
              missingDays := missingDays' |}, st'')
      | (Err csvError, st'') =>
          ({| data := []; source := ERROR; error := Some csvError;
              missingDays := 0 |}, st'')
      end
  end.

End Service.

(* ================================================================== *)
(** ** The calendar buckets *)

(** The buckets that the grouping is meant to follow, on the clock of a
    zone that is [LocalTZA] milliseconds ahead of UTC.  They are counted
    on the time value itself, not with the methods of [Date] from which
    the service forms its keys.  [localCalendarDay] numbers the local
    calendar days, day 0 being 1 January 1970. *)
Definition localCalendarDay (LocalTZA t : Z) : Z := (t + LocalTZA) / 86400000.

(** The instant at which the local calendar day of [t] starts. *)
Definition startOfDay (LocalTZA t : Z) : Z :=
  localCalendarDay LocalTZA t * 86400000 - LocalTZA.

(** The number of days from the last Monday to the local calendar day of
    [t]; day 0 is a Thursday. *)
Definition daysSinceMonday (LocalTZA t : Z) : Z :=
  (localCalendarDay LocalTZA t + 3) mod 7.

(** The day of the month, from 1, of the local calendar day of [t]. *)
Definition dayOfMonth (LocalTZA t : Z) : Z :=
  snd (FixedOffsetDate.civilFromDays (localCalendarDay LocalTZA t)).

(** The start of the bucket of [t]: the start of its hour; the start of its
    calendar day; the start of the most recent Monday; the start of day 1
    of its month. *)
Definition bucketStart (LocalTZA : Z) (intervalType : Interval) (t : Z) : Z :=
  match intervalType with
  | Hour => (t + LocalTZA) / 3600000 * 3600000 - LocalTZA
  | Day => startOfDay LocalTZA t
  | Week => startOfDay LocalTZA t - daysSinceMonday LocalTZA t * 86400000
  | Month => startOfDay LocalTZA t - (dayOfMonth LocalTZA t - 1) * 86400000
  end.

(** The instant of a row of the archive, [new Date(ts * 1000)] for its
    timestamp [ts] in seconds; 0 stands for the rows that are skipped. *)
Definition rowTime (row : CsvRow) : Z :=
  match row_timestamp row with
  | Some ts => timeValue (ts * 1000)%Q
  | None => 0
  end.

(* ================================================================== *)
(** ** Sample inputs *)

(** A run in the zone of UTC: an archive of two rows of 1 January 2024
    under a header line, and a store that holds 2 January 2024. *)
Module Samples.

(** 2024-01-01T00:00:00Z *)
Definition day1 : Z := 1704067200000.
Definition day2 : Z := day1 + oneDayMs.

Definition csvLines : list CsvLine :=
  [ DataLine (mkRow None 0 0 0 0 0);
    DataLine (mkRow (Some (1704067200 # 1)) 95 101 94 99 2);
    DataLine (mkRow (Some (1704067260 # 1)) 99 102 98 100 3) ].

Definition archiveDay : DailyRecord := mkRecord day1 95 102 94 100 5.
Definition storeDay : DailyRecord := mkRecord day2 105 105 105 105 0.

(** Nothing loaded yet, no record fetched yet. *)
Definition freshState : State := mkState None None [] [] [].
(** Nothing loaded yet, the second day in the store. *)
Definition cachedState : State := mkState None None [storeDay] [] [].

(** An API that answers every request with status 500. *)
Definition failingApi (startDate endDate : Z) : ApiOutcome := ApiResponse 500 [].
(** An API that has no sample for any range. *)
Definition silentApi (startDate endDate : Z) : ApiOutcome := ApiResponse 200 [].

(** One hour into the second day. *)
Definition secondDay (a : Z -> Z -> ApiOutcome) : Env :=
  mkEnv (day2 + 3600000) (Ok csvLines) None a.
(** Two days after the second day. *)
Definition fourthDay (a : Z -> Z -> ApiOutcome) : Env :=
  mkEnv (day2 + 2 * oneDayMs) (Ok csvLines) None a.
(** An archive file with a header and no row. *)
Definition emptyArchive : Env :=
  mkEnv (day2 + 3600000) (Ok [DataLine (mkRow None 0 0 0 0 0)]) None silentApi.

End Samples.

(* ================================================================== *)
(** ** The rest of the database class and the views *)

(** [BTCDatabase.saveDailyPrice(data)]: one [put] in a transaction of its
    own. *)
Definition saveDailyPrice (env : Env) (data : DailyRecord) : M Message unit :=
  fun st =>
    match dbError env with
    | Some e => (Err e, st)
    | None =>
        (Ok tt,
         mkState (static_csvData st) (static_loadingPromise st)
                 (store_put data (db st))
                 (dbWrites st ++ [[data]]) (apiCalls st))
    end.

(** [BTCDatabase.clearAllData()]; the log of written batches is left as it
    is. *)
Definition clearAllData (env : Env) : M Message unit :=
  fun st =>
    match dbError env with
    | Some e => (Err e, st)
    | None =>
        (Ok tt,
         mkState (static_csvData st) (static_loadingPromise st)
                 [] (dbWrites st) (apiCalls st))
    end.

(** What [getDataStats] returns; a date is the time value that
    [toISOString()] prints, [None] is [null]. *)
Record DataStats : Type := mkDataStats {
  count : nat;
  firstDate : option Z;
  lastDate : option Z
}.

(** The statistics of the records that [getAllDailyPrices] returned. *)
Definition statsOf (data : list DailyRecord) : DataStats :=
  match data with
  | [] => {| count := 0; firstDate := None; lastDate := None |}
  | d :: _ =>
      let sorted := sortByTimestamp data in
      {| count := length data;
         firstDate := Some (timestamp (hd d sorted));
         lastDate := Some (timestamp (last sorted d)) |}
  end.


(** [BTCDatabase.getDataStats()] *)
Definition getDataStats (env : Env) : M Message DataStats :=
  bind (getAllDailyPrices env) (fun data => ret _ (statsOf data)).

(** An entry of [LOG_DURATIONS]. *)
Record LogDuration : Type := mkLogDuration {
  duration_id : string;
  duration_label : string;
  duration_ms : Z
}.

Definition LOG_DURATIONS : list LogDuration :=
  [ mkLogDuration "1D" "Last 24 Hours" (24 * 60 * 60 * 1000);
    mkLogDuration "1W" "Last 7 Days" (7 * 24 * 60 * 60 * 1000);
    mkLogDuration "1M" "Last 30 Days" (30 * 24 * 60 * 60 * 1000) ].

(** [filteredData] of the component [DataLog]; [None] is a [data] that is
    [null] or [undefined]. *)
Definition filteredData (data : option (list DailyRecord)) (durationId : string)
  : list DailyRecord :=
  match data with
  | None => []
  | Some [] => []
  | Some (first :: rest) =>
      match find (fun d => String.eqb (duration_id d) durationId) LOG_DURATIONS with
      | None => []
      | Some duration =>
          let cutoff := timestamp (last rest first) - duration_ms duration in
          rev (filter (fun d => cutoff <=? timestamp d) (first :: rest))
      end
  end.

(** The keys of [TIME_RANGES]. *)
Inductive TimeRange : Type :=
| Range1D | Range1W | Range1M | Range6M | Range1Y | Range5Y | RangeALL.

(** An entry of [TIME_RANGES]. *)
Record RangeConfig : Type := mkRangeConfig {
  range_label : string;
  range_days : Z;
  range_points : Z;
  range_interval : Interval
}.

Definition TIME_RANGES (range : TimeRange) : RangeConfig :=
  match range with
  | Range1D => mkRangeConfig "1D" 1 24 Hour
  | Range1W => mkRangeConfig "1W" 7 7 Day
  | Range1M => mkRangeConfig "1M" 30 30 Day
  | Range6M => mkRangeConfig "6M" 180 60 Day
  | Range1Y => mkRangeConfig "1Y" 365 52 Week
  | Range5Y => mkRangeConfig "5Y" 1825 60 Month
  | RangeALL => mkRangeConfig "ALL" 5000 100 Month
  end.

(** [allData.length > 0 ? allData[allData.length - 1] : null] *)
Definition currentData (allData : list DailyRecord) : option DailyRecord :=
  match allData with
  | [] => None
  | first :: rest => Some (last rest first)
  end.

(** [previousData] of the component [BitcoinTracker]; [None] is [null] or
    [undefined]. *)
Definition previousData (allData : list DailyRecord) : option DailyRecord :=
  match currentData allData with
  | None => None
  | Some current =>
      let oneDayAgo := timestamp current - 24 * 60 * 60 * 1000 in
      match find (fun d => oneDayAgo <=? timestamp d) allData with
      | Some d => Some d
      | None => hd_error allData
      end
  end.

(** What the component [StatusBadge] renders. *)
Inductive Badge : Type :=
| UpToDateBadge
| FetchingBadge
| CurrentBadge
| BehindBadge (missingDays : Z)
| HistoricalBadge.

(** [StatusBadge({ source, missingDays })]; the source [None] is the
    ['LOADING'] of the first render. *)
Definition StatusBadge (source' : option Source) (missingDays' : Z) : Badge :=
  match source' with
  | Some LIVE_API => UpToDateBadge
  | Some FETCHING => FetchingBadge
  | Some CSV_AND_CACHE => CurrentBadge
  | _ => if 0 <? missingDays' then BehindBadge missingDays' else HistoricalBadge
  end.

(** The state [fetchStatus] of [BitcoinTracker]. *)
Record FetchStatus : Type := mkFetchStatus {
  status_source : option Source;
  status_error : option Message;
  status_missingDays : Z
}.

(** [useState({ source: 'LOADING', error: null, missingDays: 0 })] *)
Definition initialStatus : FetchStatus := mkFetchStatus None None 0.

(** The argument of [setFetchStatus] in [loadData]; [result.missingDays
    || 0] is [result.missingDays] for every integer. *)
Definition statusOf (result : FetchResult) : FetchStatus :=
  {| status_source := Some (source result);
     status_error := error result;
     status_missingDays := missingDays result |}.

(** What the component [PriceCard] renders of the status: the badge, and
    the button "Update Missing N Days", [None] when the button is not
    rendered, else whether it is disabled. *)
Record CardView : Type := mkCardView {
  card_badge : Badge;
  card_button : option bool
}.

(** [PriceCard({ currentData, loading, fetchStatus, ... })]: [None] is the
    [null] of [if (!currentData) return null], when neither the badge nor
    the button is rendered.  The badge is given
    [missingDays={fetchStatus.missingDays || 0}], which is
    [fetchStatus.missingDays] for every integer; the button is rendered
    when [fetchStatus.missingDays > 0] and disabled when
    [loading || fetchStatus.source === 'FETCHING']. *)
Definition PriceCard (currentData' : option DailyRecord) (loading : bool)
    (fetchStatus : FetchStatus) : option CardView :=
  match currentData' with
  | None => None
  | Some _ =>
      Some {| card_badge :=
                StatusBadge (status_source fetchStatus)
                            (status_missingDays fetchStatus);
              card_button :=
                if 0 <? status_missingDays fetchStatus then
                  Some (loading ||
                        match status_source fetchStatus with
                        | Some FETCHING => true
                        | _ => false
                        end)
                else None |}
  end.

Section Views.
Context {date : DateEnv}.

(** [chartData] of the component [ChartSection], without the label
    [dateStr] that is added to each point. *)
Definition chartData (data : option (list DailyRecord)) (range : TimeRange)
  : list DailyRecord :=
  match data with
  | None => []
  | Some [] => []
  | Some (first :: rest) =>
      let now' := timestamp (last rest first) in
      let rangeConfig := TIME_RANGES range in
      let cutoff := now' - range_days rangeConfig * 24 * 60 * 60 * 1000 in
      let filtered := filter (fun d => cutoff <=? timestamp d) (first :: rest) in
      aggregateData (Some filtered) (range_interval rangeConfig)
  end.

(** [loadData(forceFetch)] of [BitcoinTracker]: the series and the status
    that it sets, and the state of the service after it. *)
Definition loadData (env : Env) (forceFetch : bool) (st : State)
  : list DailyRecord * FetchStatus * State :=
  let (result, st') := fetchCombinedData env forceFetch st in
  (data result, statusOf result, st').

End Views.

(** The record of a timestamp in a series, if there is one. *)
Definition recordAt (key : Z) (series : list DailyRecord) : option DailyRecord :=
  find (fun r => timestamp r =? key) series.

(** [MAX_HISTORY_POINTS] of the price hook. *)
Definition MAX_HISTORY_POINTS : nat := 20.

(** [arr.slice(-n)] for a positive [n]: the last [n] elements, or all of
    them when there are fewer. *)
Definition slice_last (A : Type) (n : nat) (arr : list A) : list A :=
  skipn (length arr - n) arr.

(** The update of [historicalData] in [fetchPrice]:
    [[...prev, newPoint].slice(-MAX_HISTORY_POINTS)]. *)
Definition updateHistory (A : Type) (prev : list A) (newPoint : A) : list A :=
  let updated := prev ++ [newPoint] in
  slice_last MAX_HISTORY_POINTS updated.

(** More sample inputs: a store that cannot be opened, an archive file
    that cannot be fetched, an API with two samples of 3 January 2024. *)
Module MoreSamples.
Import Samples.

Definition day3 : Z := day2 + oneDayMs.

Definition brokenStore : Env :=
  mkEnv (day2 + 3600000) (Ok csvLines) (Some (RuntimeMessage "blocked")) silentApi.

Definition missingFile : Env :=
  mkEnv (day2 + 3600000) (Err (RuntimeMessage "Failed to fetch")) None silentApi.

Definition liveApi (startDate endDate : Z) : ApiOutcome :=
  ApiResponse 200 [(day3 + 60000, 107%Q); (day3 + 120000, 109%Q)].

Definition fetchedDay : DailyRecord := mkRecord day3 107 109 107 109 0.

Definition oneDay : LogDuration :=
  mkLogDuration "1D" "Last 24 Hours" (24 * 60 * 60 * 1000).

End MoreSamples.

(* ================================================================== *)
(** ** Facts about the sort *)

Lemma insertByTimestamp_perm (a : DailyRecord) (l : list DailyRecord) :
  Permutation (insertByTimestamp a l) (a :: l).
Proof.
  induction l as [|b l IH]; simpl.
  - apply Permutation_refl.
  - destruct (timestamp a <=? timestamp b).
    + apply Permutation_refl.
    + eapply perm_trans; [apply perm_skip, IH | apply perm_swap].
Qed.

Lemma sortByTimestamp_perm (l : list DailyRecord) :
  Permutation (sortByTimestamp l) l.
Proof.
  induction l as [|a l IH]; simpl.
  - apply perm_nil.
  - eapply perm_trans; [apply insertByTimestamp_perm | apply perm_skip, IH].
Qed.

Lemma sortByTimestamp_In (l : list DailyRecord) (r : DailyRecord) :
  In r (sortByTimestamp l) <-> In r l.
Proof.
  split; apply Permutation_in;
    [apply sortByTimestamp_perm | apply Permutation_sym, sortByTimestamp_perm].
Qed.

Lemma insertByTimestamp_sorted (a : DailyRecord) (l : list DailyRecord) :
  StronglySorted byTimestamp l -> StronglySorted byTimestamp (insertByTimestamp a l).
Proof.
  induction 1 as [|b l Hs IH Hb]; simpl.
  - constructor; [constructor | constructor].
  - destruct (Z.leb_spec (timestamp a) (timestamp b)) as [Hle|Hgt].
    + constructor; [constructor; assumption|].
      constructor; [exact Hle|].
      eapply Forall_impl; [|exact Hb].
      unfold byTimestamp; intros c Hc; lia.
    + constructor; [exact IH|].
      apply Forall_forall; intros c Hc.
      apply (Permutation_in _ (insertByTimestamp_perm a l)) in Hc.
      destruct Hc as [<-|Hc].
      * unfold byTimestamp; lia.
      * rewrite Forall_forall in Hb; apply Hb, Hc.
Qed.

Lemma sortByTimestamp_sorted (l : list DailyRecord) :
  StronglySorted byTimestamp (sortByTimestamp l).
Proof.
  induction l as [|a l IH]; simpl.
  - constructor.
  - apply insertByTimestamp_sorted, IH.
Qed.

Lemma ascending_sorted (l : list DailyRecord) :
  ascending l -> StronglySorted byTimestamp l.
Proof.
  induction 1 as [|a l Hs IH Ha]; constructor; [exact IH|].
  eapply Forall_impl; [|exact Ha]. unfold byTimestamp; intros; lia.
Qed.

Lemma ascending_NoDup (l : list DailyRecord) :
  ascending l -> NoDup (map timestamp l).
Proof.
  induction 1 as [|a l Hs IH Ha]; simpl; constructor; [|exact IH].
  rewrite in_map_iff; intros [b [Hb Hin]].
  rewrite Forall_forall in Ha. specialize (Ha b Hin). lia.
Qed.

Lemma sorted_NoDup_ascending (l : list DailyRecord) :
  StronglySorted byTimestamp l -> NoDup (map timestamp l) -> ascending l.
Proof.
  induction 1 as [|a l Hs IH Ha]; simpl; intros Hnd.
  - constructor.
  - inversion Hnd as [|? ? Hnotin Hnd']; subst.
    constructor; [apply IH, Hnd'|].
    apply Forall_forall; intros b Hb.
    rewrite Forall_forall in Ha. specialize (Ha b Hb). unfold byTimestamp in Ha.
    assert (timestamp a <> timestamp b).
    { intros Heq. apply Hnotin. rewrite Heq. apply in_map, Hb. }
    lia.
Qed.

Lemma sortByTimestamp_ascending (l : list DailyRecord) :
  NoDup (map timestamp l) -> ascending (sortByTimestamp l).
Proof.
  intros Hnd. apply sorted_NoDup_ascending; [apply sortByTimestamp_sorted|].
  eapply Permutation_NoDup; [|exact Hnd].
  apply Permutation_map, Permutation_sym, sortByTimestamp_perm.
Qed.

Lemma sortByTimestamp_fixed (l : list DailyRecord) :
  StronglySorted byTimestamp l -> sortByTimestamp l = l.
Proof.
  induction 1 as [|a l Hs IH Ha]; simpl; [reflexivity|].
  rewrite IH. destruct l as [|b l']; simpl; [reflexivity|].
  inversion Ha as [|? ? Hab _]; subst. unfold byTimestamp in Hab.
  destruct (Z.leb_spec (timestamp a) (timestamp b)); [reflexivity | lia].
Qed.

Lemma ascending_unique (l : list DailyRecord) (a b : DailyRecord) :
  ascending l -> In a l -> In b l -> timestamp a = timestamp b -> a = b.
Proof.
  induction 1 as [|c l Hs IH Hc]; simpl; [tauto|].
  rewrite Forall_forall in Hc.
  intros [<-|Ha] [<-|Hb] Heq; auto.
  - specialize (Hc b Hb); lia.
  - specialize (Hc a Ha); lia.
Qed.

Lemma sortByTimestamp_timestamps (l : list DailyRecord) (k : Z) :
  In k (map timestamp (sortByTimestamp l)) <-> In k (map timestamp l).
Proof.
  rewrite !in_map_iff. split; intros [r [Hr Hin]]; exists r; split; auto;
    apply sortByTimestamp_In; assumption.
Qed.

(* ================================================================== *)
(** ** Facts about the map and about the grouping loop *)

Section MapFacts.
Variable V : Type.
Implicit Types (m : JsMap V) (k : Z) (v : V).

Lemma Map_get_set_same m k v : Map_get k (Map_set k v m) = Some v.
Proof.
  induction m as [|[k' v'] m IH]; simpl.
  - rewrite Z.eqb_refl; reflexivity.
  - destruct (k' =? k) eqn:E; simpl; rewrite E; [reflexivity | exact IH].
Qed.

Lemma Map_get_set_other m k k' v :
  k <> k' -> Map_get k' (Map_set k v m) = Map_get k' m.
Proof.
  intros Hne. induction m as [|[k0 v0] m IH]; simpl.
  - destruct (Z.eqb_spec k k'); [contradiction | reflexivity].
  - destruct (Z.eqb_spec k0 k) as [->|Hk]; simpl.
    + destruct (Z.eqb_spec k k'); [contradiction | reflexivity].
    + rewrite IH; reflexivity.
Qed.

Lemma Map_keys_set m k v k' :
  In k' (Map_keys (Map_set k v m)) <-> k' = k \/ In k' (Map_keys m).
Proof.
  unfold Map_keys. induction m as [|[k0 v0] m IH]; simpl.
  - intuition.
  - destruct (Z.eqb_spec k0 k) as [->|Hk]; simpl; [intuition|].
    rewrite IH; intuition.
Qed.

Lemma Map_keys_set_NoDup m k v :
  NoDup (Map_keys m) -> NoDup (Map_keys (Map_set k v m)).
Proof.
  unfold Map_keys. induction m as [|[k0 v0] m IH]; simpl; intros Hnd.
  - constructor; [simpl; tauto | constructor].
  - inversion Hnd as [|? ? Hnotin Hnd']; subst.
    destruct (Z.eqb_spec k0 k) as [->|Hk]; simpl.
    + constructor; assumption.
    + constructor; [|apply IH, Hnd'].
      intros Hin. apply (Map_keys_set m k v k0) in Hin.
      destruct Hin as [Heq|Hin]; [congruence | contradiction].
Qed.

Lemma Map_get_keys m k : Map_get k m <> None <-> In k (Map_keys m).
Proof.
  unfold Map_keys. induction m as [|[k0 v0] m IH]; simpl.
  - tauto.
  - destruct (Z.eqb_spec k0 k) as [->|Hk].
    + split; [auto | discriminate].
    + rewrite IH; intuition.
Qed.

Lemma Map_get_In m k v : Map_get k m = Some v -> In (k, v) m.
Proof.
  induction m as [|[k0 v0] m IH]; simpl; [discriminate|].
  destruct (Z.eqb_spec k0 k) as [->|Hk].
  - intros [= ->]; left; reflexivity.
  - intros H; right; apply IH, H.
Qed.

Lemma Map_In_get m k v :
  NoDup (Map_keys m) -> In (k, v) m -> Map_get k m = Some v.
Proof.
  unfold Map_keys. induction m as [|[k0 v0] m IH]; simpl; [tauto|].
  intros Hnd [Heq|Hin]; inversion Hnd as [|? ? Hnotin Hnd']; subst.
  - injection Heq as -> ->. rewrite Z.eqb_refl; reflexivity.
  - destruct (Z.eqb_spec k0 k) as [->|Hk]; [|apply IH; assumption].
    exfalso; apply Hnotin. change k with (fst (k, v)). apply in_map, Hin.
Qed.
End MapFacts.

Section GroupFacts.
Variables X V : Type.
Variable keyOf : X -> Z.
Variable create : Z -> X -> V.
Variable update : V -> X -> V.


Lemma bucket_snoc (k : Z) (xs : list X) (x : X) :
  bucket keyOf k (xs ++ [x]) =
  if keyOf x =? k then bucket keyOf k xs ++ [x] else bucket keyOf k xs.
Proof.
  unfold bucket. rewrite filter_app; simpl.
  destruct (keyOf x =? k); [reflexivity | apply app_nil_r].
Qed.

(** The entry of a key is the roll-up of the elements of the key. *)
Lemma grouped_get (xs : list X) (k : Z) :
  Map_get k (groupAll keyOf create update xs) = rollup keyOf create update k xs.
Proof.
  unfold groupAll. induction xs as [|x xs IH] using rev_ind; [reflexivity|].
  rewrite fold_left_app; simpl.
  unfold rollup in *. rewrite bucket_snoc.
  set (m := fold_left (groupInto keyOf create update) xs []) in *.
  unfold groupInto at 1. unfold Map_has.
  destruct (Z.eqb_spec (keyOf x) k) as [Hk|Hk].
  - rewrite Hk. rewrite IH.
    destruct (bucket keyOf k xs) as [|x0 rest]; simpl.
    + apply Map_get_set_same.
    + rewrite Map_get_set_same, fold_left_app. reflexivity.
  - destruct (Map_get (keyOf x) m); simpl;
      rewrite Map_get_set_other by exact Hk; exact IH.
Qed.

Lemma grouped_NoDup (xs : list X) : NoDup (Map_keys (groupAll keyOf create update xs)).
Proof.
  unfold groupAll. induction xs as [|x xs IH] using rev_ind; [constructor|].
  rewrite fold_left_app; simpl.
  unfold groupInto at 1. unfold Map_has.
  destruct (Map_get (keyOf x) _); simpl; apply Map_keys_set_NoDup, IH.
Qed.

Lemma rollup_Some_key (xs : list X) (k : Z) :
  rollup keyOf create update k xs <> None <-> In k (map keyOf xs).
Proof.
  unfold rollup, bucket. split.
  - destruct (filter _ xs) as [|x rest] eqn:E; [congruence|]. intros _.
    assert (Hin : In x (filter (fun x => keyOf x =? k) xs))
      by (rewrite E; left; reflexivity).
    apply filter_In in Hin. destruct Hin as [Hin Hk].
    apply Z.eqb_eq in Hk. subst k. apply in_map, Hin.
  - rewrite in_map_iff. intros [x [Hk Hin]].
    assert (Hf : In x (filter (fun x => keyOf x =? k) xs))
      by (apply filter_In; split; [exact Hin | apply Z.eqb_eq, Hk]).
    destruct (filter _ xs); [destruct Hf | discriminate].
Qed.

Lemma grouped_keys (xs : list X) (k : Z) :
  In k (Map_keys (groupAll keyOf create update xs)) <-> In k (map keyOf xs).
Proof.
  rewrite <- Map_get_keys, grouped_get. apply rollup_Some_key.
Qed.

Lemma grouped_entries (xs : list X) (k : Z) (v : V) :
  In (k, v) (groupAll keyOf create update xs) <-> rollup keyOf create update k xs = Some v.
Proof.
  rewrite <- grouped_get. split.
  - apply Map_In_get, grouped_NoDup.
  - apply Map_get_In.
Qed.

Lemma grouped_values (xs : list X) (v : V) :
  In v (Map_values (groupAll keyOf create update xs)) <->
  exists k, rollup keyOf create update k xs = Some v.
Proof.
  unfold Map_values. rewrite in_map_iff. split.
  - intros [[k v'] [Hv Hin]]; simpl in Hv; subst v'.
    exists k. apply grouped_entries, Hin.
  - intros [k Hk]. exists (k, v). split; [reflexivity|].
    apply grouped_entries, Hk.
Qed.

(** A property that the creation establishes and every update keeps
    holds of every roll-up. *)
Lemma rollup_invariant (P : V -> Prop) (Q : X -> Prop) (xs : list X) (k : Z) (v : V) :
  (forall x, Q x -> P (create k x)) ->
  (forall g x, P g -> Q x -> P (update g x)) ->
  Forall Q xs ->
  rollup keyOf create update k xs = Some v -> P v.
Proof.
  intros Hc Hu Hxs. unfold rollup.
  assert (Hb : Forall Q (bucket keyOf k xs)).
  { rewrite Forall_forall in *. intros x Hx. apply Hxs.
    unfold bucket in Hx. apply filter_In in Hx. tauto. }
  destruct (bucket keyOf k xs) as [|x rest]; [discriminate|].
  intros [= <-]. inversion Hb as [|? ? Hx Hrest]; subst.
  assert (Hg : P (create k x)) by auto.
  clear Hb. revert Hg. generalize (create k x).
  induction Hrest as [|y rest Hy Hrest IH]; simpl; intros g Hg; auto.
Qed.

(** With records for values, the timestamp of an entry is its key once
    the creation sets it and no update changes it. *)
Section Keyed.
Variable stamp : V -> Z.
Hypothesis create_stamp : forall k x, stamp (create k x) = k.
Hypothesis update_stamp : forall g x, stamp (update g x) = stamp g.

Lemma rollup_stamp (xs : list X) (k : Z) (v : V) :
  rollup keyOf create update k xs = Some v -> stamp v = k.
Proof.
  apply rollup_invariant with (P := fun v => stamp v = k) (Q := fun _ => True); auto.
  - intros g x Hg _. rewrite update_stamp. exact Hg.
  - apply Forall_forall; auto.
Qed.

Lemma grouped_stamps (xs : list X) :
  map stamp (Map_values (groupAll keyOf create update xs)) = Map_keys (groupAll keyOf create update xs).
Proof.
  unfold Map_values, Map_keys. rewrite map_map.
  apply map_ext_in. intros [k v] Hin; simpl.
  apply rollup_stamp with (xs := xs), grouped_entries, Hin.
Qed.
End Keyed.
End GroupFacts.

Section MapFresh.
Variable V : Type.

Lemma Map_set_fresh (m : JsMap V) (k : Z) (v : V) :
  ~ In k (Map_keys m) -> Map_set k v m = m ++ [(k, v)].
Proof.
  unfold Map_keys. induction m as [|[k0 v0] m IH]; simpl; intros Hk.
  - reflexivity.
  - destruct (Z.eqb_spec k0 k) as [->|Hne]; [tauto|].
    rewrite IH; [reflexivity | tauto].
Qed.
End MapFresh.

Section GroupDistinct.
Variables X V : Type.
Variable keyOf : X -> Z.
Variable create : Z -> X -> V.
Variable update : V -> X -> V.

(** Elements of pairwise distinct keys are only created, in their order. *)
Lemma groupAll_distinct (xs : list X) :
  NoDup (map keyOf xs) ->
  groupAll keyOf create update xs = map (fun x => (keyOf x, create (keyOf x) x)) xs.
Proof.
  unfold groupAll. induction xs as [|x xs IH] using rev_ind; intros Hnd.
  - reflexivity.
  - rewrite map_app in Hnd; simpl in Hnd.
    apply NoDup_remove in Hnd. rewrite app_nil_r in Hnd.
    destruct Hnd as [Hnd Hx].
    rewrite fold_left_app, map_app; simpl. rewrite (IH Hnd).
    unfold groupInto, Map_has.
    assert (Hkeys : ~ In (keyOf x)
              (Map_keys (map (fun x => (keyOf x, create (keyOf x) x)) xs))).
    { unfold Map_keys. rewrite map_map; simpl. exact Hx. }
    destruct (Map_get (keyOf x) _) eqn:E.
    + exfalso. apply Hkeys, Map_get_keys. rewrite E; discriminate.
    + simpl. apply Map_set_fresh, Hkeys.
Qed.
End GroupDistinct.

(** The series of a grouping loop whose records carry their key. *)
Section GroupedSeries.
Variable X : Type.
Variable keyOf : X -> Z.
Variable create : Z -> X -> DailyRecord.
Variable update : DailyRecord -> X -> DailyRecord.
Hypothesis create_timestamp : forall k x, timestamp (create k x) = k.
Hypothesis update_timestamp : forall g x, timestamp (update g x) = timestamp g.

Lemma groupedSeries_ascending (xs : list X) :
  ascending (sortByTimestamp (Map_values (groupAll keyOf create update xs))).
Proof.
  apply sortByTimestamp_ascending.
  rewrite (@grouped_stamps _ _ keyOf create update timestamp create_timestamp update_timestamp).
  apply grouped_NoDup.
Qed.

Lemma groupedSeries_In (xs : list X) (g : DailyRecord) :
  In g (sortByTimestamp (Map_values (groupAll keyOf create update xs))) <->
  rollup keyOf create update (timestamp g) xs = Some g.
Proof.
  rewrite sortByTimestamp_In, grouped_values. split.
  - intros [k Hk].
    rewrite (@rollup_stamp _ _ keyOf create update timestamp create_timestamp update_timestamp xs k g Hk).
    exact Hk.
  - intros H. exists (timestamp g). exact H.
Qed.

Lemma groupedSeries_timestamps (xs : list X) (k : Z) :
  In k (map timestamp (sortByTimestamp (Map_values (groupAll keyOf create update xs))))
  <-> In k (map keyOf xs).
Proof.
  rewrite sortByTimestamp_timestamps.
  rewrite (@grouped_stamps _ _ keyOf create update timestamp create_timestamp update_timestamp).
  apply grouped_keys.
Qed.
End GroupedSeries.

Lemma last_cons (A : Type) (a d : A) (l : list A) : last (a :: l) d = last l a.
Proof.
  revert a d. induction l as [|b l IH]; intros a d; [reflexivity|].
  change (last (a :: b :: l) d) with (last (b :: l) d).
  rewrite !IH. reflexivity.
Qed.

(* ================================================================== *)
(** ** The aggregator *)

Section AggregatorFacts.
Context {date : DateEnv}.

Lemma aggregateData_grouped (points : list DailyRecord) (intervalType : Interval) :
  aggregateData (Some points) intervalType =
  sortByTimestamp
    (Map_values (groupAll (pointKey intervalType)
                          (fun key point => withTimestamp point key)
                          mergePoint points)).
Proof. destruct points; reflexivity. Qed.

Lemma aggregateData_ascending (points : list DailyRecord) (intervalType : Interval) :
  ascending (aggregateData (Some points) intervalType).
Proof.
  rewrite aggregateData_grouped. apply groupedSeries_ascending; reflexivity.
Qed.

Lemma aggregateData_timestamps (points : list DailyRecord)
    (intervalType : Interval) (key : Z) :
  In key (map timestamp (aggregateData (Some points) intervalType)) <->
  In key (map (pointKey intervalType) points).
Proof.
  rewrite aggregateData_grouped. apply groupedSeries_timestamps; reflexivity.
Qed.

Lemma mergePoint_range (group point : DailyRecord) :
  (low group <= high group)%Q -> (low point <= high point)%Q ->
  (low (mergePoint group point) <= high (mergePoint group point))%Q.
Proof.
  intros Hg Hp. simpl. unfold Math_min, Math_max.
  apply Qle_trans with (low group); [apply Q.le_min_l|].
  apply Qle_trans with (high group); [exact Hg | apply Q.le_max_l].
Qed.

(** C10: whatever the interval type, [aggregateData] returns the empty
    series, and raises nothing, on a series that is [null] or [undefined]
    and on the empty series. *)
Theorem aggregateData_absent_or_empty (intervalType : Interval) :
  aggregateData None intervalType = [] /\
  aggregateData (Some []) intervalType = [].
Proof. split; reflexivity. Qed.

(** On a series whose records have [low <= high], whatever the zone, the
    timestamps of the output of [aggregateData] increase strictly, the
    output has one record, and only one, for each key of an input record,
    no record for another key, and every output record has
    [low <= high]. *)
Lemma aggregateData_keys (points : list DailyRecord) (intervalType : Interval) :
  Forall (fun r => (low r <= high r)%Q) points ->
  let out := aggregateData (Some points) intervalType in
  ascending out /\
  (forall key, In key (map (pointKey intervalType) points) ->
     exists g, In g out /\ timestamp g = key /\
               forall g', In g' out -> timestamp g' = key -> g' = g) /\
  (forall g, In g out -> In (timestamp g) (map (pointKey intervalType) points)) /\
  Forall (fun r => (low r <= high r)%Q) out.
Proof.
  intros Hrange out. unfold out. rewrite aggregateData_grouped.
  set (create := fun (key : Z) (point : DailyRecord) => withTimestamp point key).
  assert (Hc : forall k x, timestamp (create k x) = k) by reflexivity.
  assert (Hu : forall g x, timestamp (mergePoint g x) = timestamp g) by reflexivity.
  pose proof (groupedSeries_ascending (pointKey intervalType) create mergePoint
                Hc Hu points) as Hasc.
  split; [exact Hasc|]. split; [|split].
  - intros key Hkey.
    apply (groupedSeries_timestamps (pointKey intervalType) create mergePoint
             Hc Hu points) in Hkey.
    apply in_map_iff in Hkey. destruct Hkey as [g [Hg Hin]].
    exists g. split; [exact Hin|]. split; [exact Hg|].
    intros g' Hin' Hg'. apply (@ascending_unique _ g' g Hasc Hin' Hin). congruence.
  - intros g Hin.
    apply (groupedSeries_timestamps (pointKey intervalType) create mergePoint
             Hc Hu points).
    apply in_map, Hin.
  - apply Forall_forall. intros g Hin.
    apply (groupedSeries_In (pointKey intervalType) create mergePoint Hc Hu) in Hin.
    revert Hin.
    apply rollup_invariant
      with (P := fun r => (low r <= high r)%Q) (Q := fun r => (low r <= high r)%Q).
    + intros x Hx; exact Hx.
    + intros g0 x; apply mergePoint_range.
    + exact Hrange.
Qed.

Lemma withTimestamp_same (point : DailyRecord) :
  withTimestamp point (timestamp point) = point.
Proof. destruct point; reflexivity. Qed.

(** A daily series is its own aggregation by day. *)
Lemma aggregateData_daily (series : list DailyRecord) :
  Forall (fun r => setHours (timestamp r) 0 0 0 0 = timestamp r) series ->
  ascending series ->
  aggregateData (Some series) Day = series.
Proof.
  intros Hdaily Hasc. rewrite aggregateData_grouped.
  rewrite Forall_forall in Hdaily.
  assert (Hkeys : map (pointKey Day) series = map timestamp series).
  { apply map_ext_in. intros r Hr. apply Hdaily, Hr. }
  rewrite groupAll_distinct by (rewrite Hkeys; apply ascending_NoDup, Hasc).
  unfold Map_values. rewrite map_map; simpl.
  rewrite map_ext_in with (g := fun r => r).
  - rewrite map_id. apply sortByTimestamp_fixed, ascending_sorted, Hasc.
  - intros r Hr. unfold pointKey; simpl. rewrite (Hdaily r Hr).
    apply withTimestamp_same.
Qed.

(** C7: on a series that is already daily, every timestamp at the start
    of its day and the timestamps increasing strictly, aggregating by day
    twice gives what aggregating by day once gives. *)
Theorem aggregateData_day_idempotent (series : list DailyRecord) :
  Forall (fun r => setHours (timestamp r) 0 0 0 0 = timestamp r) series ->
  ascending series ->
  aggregateData (Some (aggregateData (Some series) Day)) Day =
  aggregateData (Some series) Day.
Proof.
  intros Hdaily Hasc.
  rewrite (aggregateData_daily Hdaily Hasc).
  apply aggregateData_daily; assumption.
Qed.

End AggregatorFacts.

(** In a zone with a constant offset, the start of the day of a start of
    day is itself, so that the output of an aggregation by day is daily,
    and aggregating by day is idempotent on every series. *)
Section FixedZoneFacts.
Variable LocalTZA : Z.

Lemma fixed_zone_setHours (t : Z) :
  @setHours (FixedOffsetDate.zone LocalTZA) t 0 0 0 0 =
  (t + LocalTZA) / 86400000 * 86400000 - LocalTZA.
Proof.
  cbn [setHours FixedOffsetDate.zone].
  unfold FixedOffsetDate.UTC, FixedOffsetDate.MakeDate, FixedOffsetDate.MakeTime,
    FixedOffsetDate.Day, FixedOffsetDate.LocalTime, FixedOffsetDate.msPerDay.
  lia.
Qed.

Lemma fixed_zone_setHours_idempotent (t : Z) :
  @setHours (FixedOffsetDate.zone LocalTZA)
    (@setHours (FixedOffsetDate.zone LocalTZA) t 0 0 0 0) 0 0 0 0 =
  @setHours (FixedOffsetDate.zone LocalTZA) t 0 0 0 0.
Proof.
  rewrite !fixed_zone_setHours.
  replace ((t + LocalTZA) / 86400000 * 86400000 - LocalTZA + LocalTZA)
    with ((t + LocalTZA) / 86400000 * 86400000) by lia.
  rewrite Z.div_mul by lia. reflexivity.
Qed.

Lemma fixed_zone_day_idempotent (series : list DailyRecord) :
  @aggregateData (FixedOffsetDate.zone LocalTZA)
    (Some (@aggregateData (FixedOffsetDate.zone LocalTZA) (Some series) Day)) Day =
  @aggregateData (FixedOffsetDate.zone LocalTZA) (Some series) Day.
Proof.
  apply aggregateData_daily; [|apply aggregateData_ascending].
  apply Forall_forall. intros g Hg.
  apply (in_map timestamp) in Hg. apply aggregateData_timestamps in Hg.
  apply in_map_iff in Hg. destruct Hg as [point [Hkey _]].
  rewrite <- Hkey. unfold pointKey, bucketKey.
  apply fixed_zone_setHours_idempotent.
Qed.

End FixedZoneFacts.

(* ================================================================== *)
(** ** The two daily roll-ups: archive rows and API samples *)

Section RollupFacts.
Context {date : DateEnv}.

Lemma numericRows_In (lines : list CsvLine) (row : CsvRow) :
  In row (numericRows lines) <->
  In (DataLine row) lines /\ row_timestamp row <> None.
Proof.
  induction lines as [|[|row'] lines IH]; simpl.
  - tauto.
  - rewrite IH. intuition discriminate.
  - destruct (row_timestamp row') eqn:E; simpl; rewrite IH.
    + split.
      * intros [->|[H1 H2]]; [rewrite E; split; [auto | discriminate] | auto].
      * intros [[[= ->]|H1] H2]; auto.
    + split.
      * intros [H1 H2]; auto.
      * intros [[[= ->]|H1] H2]; [congruence | auto].
Qed.

Lemma csvStep_grouped (lines : list CsvLine) (m : JsMap DailyRecord) :
  fold_left csvStep lines m =
  fold_left (groupInto rowDayKey rowRecord mergeRow) (numericRows lines) m.
Proof.
  revert m. induction lines as [|[|row] lines IH]; intros m; simpl.
  - reflexivity.
  - apply IH.
  - destruct (row_timestamp row) eqn:E; simpl; rewrite IH; [|reflexivity].
    f_equal. unfold groupInto, rowDayKey. rewrite E. reflexivity.
Qed.

Lemma parseCSV_grouped (header : CsvLine) (body : list CsvLine) :
  parseCSV (header :: body) =
  sortByTimestamp
    (Map_values (groupAll rowDayKey rowRecord mergeRow (numericRows body))).
Proof. unfold parseCSV; simpl. rewrite csvStep_grouped. reflexivity. Qed.

Lemma fold_mergeRow (rest : list CsvRow) (day : DailyRecord) :
  fold_left mergeRow rest day =
  {| timestamp := timestamp day;
     open := open day;
     high := fold_left Math_max (map row_high rest) (high day);
     low := fold_left Math_min (map row_low rest) (low day);
     close := last (map row_close rest) (close day);
     volume := fold_left Qplus (map row_volume rest) (volume day) |}.
Proof.
  revert day. induction rest as [|row rest IH]; intros day.
  - destruct day; reflexivity.
  - cbn [fold_left map]. rewrite IH, last_cons. reflexivity.
Qed.

Lemma fold_mergePrice (rest : list (Z * Q)) (day : DailyRecord) :
  fold_left mergePrice rest day =
  {| timestamp := timestamp day;
     open := open day;
     high := fold_left Math_max (map snd rest) (high day);
     low := fold_left Math_min (map snd rest) (low day);
     close := last (map snd rest) (close day);
     volume := volume day |}.
Proof.
  revert day. induction rest as [|sample rest IH]; intros day.
  - destruct day; reflexivity.
  - cbn [fold_left map]. rewrite IH, last_cons. reflexivity.
Qed.

Lemma dailyFromPrices_grouped (prices : list (Z * Q)) :
  dailyFromPrices prices =
  sortByTimestamp
    (Map_values (groupAll sampleDayKey priceRecord mergePrice prices)).
Proof. reflexivity. Qed.

Lemma dailyFromPrices_ascending (prices : list (Z * Q)) :
  ascending (dailyFromPrices prices).
Proof.
  rewrite dailyFromPrices_grouped. apply groupedSeries_ascending; reflexivity.
Qed.

(** Whatever the zone, the archive loader skips the rows whose timestamp
    is not a number and rolls the others up by their day key: the output
    is in ascending order of day key, with one record for each key of a
    row, whose [open] is that of the first row of the key, [high] the
    running maximum of the highs, [low] the running minimum of the lows,
    [close] that of the last row and [volume] the volumes added up from
    the first. *)
Lemma parseCSV_rollup (header : CsvLine) (body : list CsvLine) :
  let rows := numericRows body in
  let out := parseCSV (header :: body) in
  (forall row, In row rows <->
               In (DataLine row) body /\ row_timestamp row <> None) /\
  ascending out /\
  (forall key, In key (map timestamp out) <-> In key (map rowDayKey rows)) /\
  (forall g, In g out ->
     exists first rest,
       bucket rowDayKey (timestamp g) rows = first :: rest /\
       open g = row_open first /\
       high g = fold_left Math_max (map row_high rest) (row_high first) /\
       low g = fold_left Math_min (map row_low rest) (row_low first) /\
       close g = last (map row_close rest) (row_close first) /\
       volume g = fold_left Qplus (map row_volume rest) (row_volume first)) /\
  (forall env st,
     static_csvData st = None -> static_loadingPromise st = None ->
     csvResponse env = Ok (header :: body) ->
     fst (loadCSVData env st) = Ok out).
Proof.
  intros rows out.
  assert (Hc : forall k x, timestamp (rowRecord k x) = k) by reflexivity.
  assert (Hu : forall g x, timestamp (mergeRow g x) = timestamp g) by reflexivity.
  split; [apply numericRows_In|].
  unfold out. rewrite parseCSV_grouped. fold rows.
  split; [apply groupedSeries_ascending; assumption|].
  split; [apply groupedSeries_timestamps; assumption|].
  split.
  - intros g Hin.
    apply (groupedSeries_In rowDayKey rowRecord mergeRow Hc Hu) in Hin.
    unfold rollup in Hin.
    destruct (bucket rowDayKey (timestamp g) rows) as [|first rest];
      [discriminate|].
    exists first, rest. split; [reflexivity|].
    injection Hin as Hg. rewrite fold_mergeRow in Hg.
    rewrite <- Hg; simpl. repeat split; reflexivity.
  - intros env st Hcsv Hpromise Hresp. unfold loadCSVData.
    rewrite Hcsv, Hpromise, Hresp. simpl. rewrite parseCSV_grouped. reflexivity.
Qed.

(** Whatever the zone, the fetcher rolls the samples of the API up by
    their day key: the output is in ascending order of day key, with one
    record for each key of a sample, whose [open] is the price of the first
    sample of the key, [close] the price of the last, [high] the running
    maximum, [low] the running minimum and [volume] 0; it is what a
    successful fetch returns. *)
Lemma dailyFromPrices_rollup (prices : list (Z * Q)) :
  let out := dailyFromPrices prices in
  ascending out /\
  (forall key, In key (map timestamp out) <-> In key (map sampleDayKey prices)) /\
  (forall g, In g out ->
     exists first rest,
       bucket sampleDayKey (timestamp g) prices = first :: rest /\
       open g = snd first /\
       high g = fold_left Math_max (map snd rest) (snd first) /\
       low g = fold_left Math_min (map snd rest) (snd first) /\
       close g = last (map snd rest) (snd first) /\
       volume g = 0%Q) /\
  (forall env st fromTimestamp toTimestamp status,
     api env (fromTimestamp / 1000) (toTimestamp / 1000) = ApiResponse status prices ->
     response_ok status = true -> dbError env = None ->
     fst (fetchMissingDataFromAPI env fromTimestamp toTimestamp st) = Ok out) /\
  (forall t1 t2,
     dayKeyOf t1 = dayKeyOf t2 ->
     dailyFromPrices [(t1, 100%Q); (t2, 110%Q)] =
     [ {| timestamp := dayKeyOf t1; open := 100; high := 110; low := 100;
          close := 110; volume := 0 |} ]).
Proof.
  intros out.
  assert (Hc : forall k x, timestamp (priceRecord k x) = k) by reflexivity.
  assert (Hu : forall g x, timestamp (mergePrice g x) = timestamp g) by reflexivity.
  unfold out. rewrite dailyFromPrices_grouped.
  split; [apply groupedSeries_ascending; assumption|].
  split; [apply groupedSeries_timestamps; assumption|].
  split; [|split].
  - intros g Hin.
    apply (groupedSeries_In sampleDayKey priceRecord mergePrice Hc Hu) in Hin.
    unfold rollup in Hin.
    destruct (bucket sampleDayKey (timestamp g) prices) as [|first rest];
      [discriminate|].
    exists first, rest. split; [reflexivity|].
    injection Hin as Hg. rewrite fold_mergePrice in Hg.
    rewrite <- Hg; simpl. repeat split; reflexivity.
  - intros env st fromTimestamp toTimestamp status Hapi Hok Hdb.
    unfold fetchMissingDataFromAPI, bind, fetchApi, saveBulkDailyPrices, ret.
    rewrite Hapi, Hok, Hdb. reflexivity.
  - intros t1 t2 Hday.
    unfold dailyFromPrices, priceStep; simpl. rewrite <- Hday.
    unfold Map_has; simpl. rewrite Z.eqb_refl; simpl.
    reflexivity.
Qed.

End RollupFacts.

(* ================================================================== *)
(** ** The store and the merge *)

Lemma store_put_In (data r : DailyRecord) (s : Store) :
  In r (store_put data s) -> r = data \/ In r s.
Proof.
  induction s as [|r0 s IH]; simpl.
  - intuition.
  - destruct (timestamp data <? timestamp r0); [simpl; intuition|].
    destruct (timestamp data =? timestamp r0); simpl; intuition.
Qed.

Lemma store_put_ascending (data : DailyRecord) (s : Store) :
  ascending s -> ascending (store_put data s).
Proof.
  unfold ascending. induction 1 as [|r0 s Hs IH Hr0]; simpl.
  - constructor; constructor.
  - rewrite Forall_forall in Hr0.
    destruct (Z.ltb_spec (timestamp data) (timestamp r0)) as [Hlt|Hge].
    + constructor; [constructor; [exact Hs | apply Forall_forall, Hr0]|].
      constructor; [exact Hlt|].
      apply Forall_forall. intros r Hr. specialize (Hr0 r Hr). lia.
    + destruct (Z.eqb_spec (timestamp data) (timestamp r0)) as [Heq|Hne].
      * constructor; [exact Hs|].
        apply Forall_forall. intros r Hr. specialize (Hr0 r Hr). lia.
      * constructor; [exact IH|].
        apply Forall_forall. intros r Hr.
        apply store_put_In in Hr. destruct Hr as [->|Hr]; [lia | apply Hr0, Hr].
Qed.

(** The keys of the object store are unique, whatever was put in it. *)
Lemma store_of_ascending (puts : list DailyRecord) : ascending (store_of puts).
Proof.
  unfold store_of.
  assert (H : forall s, ascending s ->
            ascending (fold_left (fun s data => store_put data s) puts s)).
  { induction puts as [|data puts IH]; intros s Hs; simpl; [exact Hs|].
    apply IH, store_put_ascending, Hs. }
  apply H. constructor.
Qed.

Lemma Set_has_In (x : Z) (xs : list Z) : Set_has x xs = true <-> In x xs.
Proof.
  unfold Set_has. rewrite existsb_exists. split.
  - intros [y [Hy Heq]]. apply Z.eqb_eq in Heq. subst y. exact Hy.
  - intros H. exists x. split; [exact H | apply Z.eqb_refl].
Qed.

Lemma Set_has_not_In (x : Z) (xs : list Z) :
  negb (Set_has x xs) = true <-> ~ In x xs.
Proof.
  rewrite negb_true_iff, <- Set_has_In. destruct (Set_has x xs); intuition congruence.
Qed.

(** Appending the records of [extra] whose timestamp [base] lacks, the
    step of both merges of [fetchCombinedData]. *)
Lemma merge_In (base extra : list DailyRecord) (r : DailyRecord) :
  In r (sortByTimestamp
          (base ++ filter (fun d => negb (Set_has (timestamp d) (map timestamp base)))
                          extra)) <->
  In r base \/ (In r extra /\ ~ In (timestamp r) (map timestamp base)).
Proof.
  rewrite sortByTimestamp_In, in_app_iff, filter_In, Set_has_not_In. tauto.
Qed.

Lemma merge_ascending (base extra : list DailyRecord) :
  NoDup (map timestamp base) -> NoDup (map timestamp extra) ->
  ascending (sortByTimestamp
               (base ++ filter (fun d => negb (Set_has (timestamp d) (map timestamp base)))
                               extra)).
Proof.
  intros Hb He. apply sortByTimestamp_ascending. rewrite map_app.
  apply NoDup_app.
  - exact Hb.
  - rewrite <- filter_map_swap with (f := fun t => negb (Set_has t (map timestamp base))).
    apply NoDup_filter, He.
  - intros t Ht Hin. apply in_map_iff in Hin. destruct Hin as [r [Hr Hin]].
    apply filter_In in Hin. destruct Hin as [_ Hin].
    apply Set_has_not_In in Hin. apply Hin. rewrite Hr. exact Ht.
Qed.

(* ================================================================== *)
(** ** The reconciliation *)

Section ReconcileFacts.
Context {date : DateEnv}.

(** Loading the archive touches neither the database nor the logs. *)
Lemma loadCSVData_logs (env : Env) (st st1 : State)
    (r : Result Message (list DailyRecord)) :
  loadCSVData env st = (r, st1) ->
  db st1 = db st /\ dbWrites st1 = dbWrites st /\ apiCalls st1 = apiCalls st.
Proof.
  unfold loadCSVData.
  destruct (static_csvData st); [intros [= _ <-]; auto|].
  destruct (static_loadingPromise st); [intros [= _ <-]; auto|].
  destruct (csvResponse env); intros [= _ <-]; auto.
Qed.

(** Once loaded, the archive is what every later load returns. *)
Lemma loadCSVData_again (env env' : Env) (st st1 st2 : State)
    (csvData : list DailyRecord) :
  loadCSVData env st = (Ok csvData, st1) ->
  static_csvData st2 = static_csvData st1 ->
  static_loadingPromise st2 = static_loadingPromise st1 ->
  loadCSVData env' st2 = (Ok csvData, st2).
Proof.
  unfold loadCSVData. intros Hload Hc Hp. rewrite Hc, Hp. revert Hload.
  destruct (static_csvData st) as [d|] eqn:Ed.
  { intros [= -> <-]. rewrite Ed. reflexivity. }
  destruct (static_loadingPromise st) as [p|] eqn:Ep.
  { intros [= -> <-]. rewrite Ed, Ep. reflexivity. }
  destruct (csvResponse env); [|discriminate].
  intros [= <- <-]. reflexivity.
Qed.

(** What [fetchCombinedData] returns, and the state it leaves, when the
    archive loads, is not empty, and the database can be read. *)
Lemma fetchCombinedData_loaded (env : Env) (forceFetch : bool) (st st1 : State)
    (first : DailyRecord) (rest : list DailyRecord) :
  loadCSVData env st = (Ok (first :: rest), st1) ->
  dbError env = None ->
  let csvData := first :: rest in
  let cachedData := db st1 in
  let lastTimestamp := lastTimestampOf (last rest first) cachedData in
  let d := daysSince (now env) lastTimestamp in
  let allData := mergeCached csvData cachedData in
  let startDate := (lastTimestamp + oneDayMs) / 1000 in
  let endDate := now env / 1000 in
  let asked := mkState (static_csvData st1) (static_loadingPromise st1)
                       (db st1) (dbWrites st1)
                       (apiCalls st1 ++ [(startDate, endDate)]) in
  fetchCombinedData env forceFetch st =
    if (0 <? d) || forceFetch then
      match api env startDate endDate with
      | ApiRejected e =>
          ({| data := csvData; source := CSV_ONLY; error := Some e;
              missingDays := d |}, asked)
      | ApiResponse status prices =>
          if response_ok status then
            let newData := dailyFromPrices prices in
            (if (0 <? length newData)%nat
             then {| data := mergeNew allData newData; source := LIVE_API;
                     error := None; missingDays := 0 |}
             else {| data := allData; source := FETCHING;
                     error := None; missingDays := d |},
             mkState (static_csvData st1) (static_loadingPromise st1)
                     (fold_left (fun s data => store_put data s) newData (db st1))
                     (dbWrites st1 ++ [newData])
                     (apiCalls st1 ++ [(startDate, endDate)]))
          else
            ({| data := csvData; source := CSV_ONLY;
                error := Some (ApiErrorMessage status);
                missingDays := d |}, asked)
      end
    else
      ({| data := allData;
          source := if (length csvData <? length cachedData)%nat
                    then CSV_AND_CACHE else CSV_ONLY;
          error := None; missingDays := d |}, st1).
Proof.
  intros Hload Hdb csvData cachedData lastTimestamp d allData startDate endDate asked.
  assert (Hasked : loadCSVData env asked = (Ok csvData, asked))
    by (eapply loadCSVData_again; [exact Hload | reflexivity | reflexivity]).
  unfold fetchCombinedData, fetchCombinedTry, bind, withMissingDays.
  rewrite Hload. unfold getAllDailyPrices. rewrite Hdb.
  cbn [lastRecord ret].
  fold cachedData lastTimestamp d allData.
  destruct ((0 <? d) || forceFetch); [|reflexivity].
  unfold fetchMissingDataFromAPI, bind, fetchApi.
  fold startDate endDate. fold asked.
  destruct (api env startDate endDate) as [e|status prices].
  - unfold throw. rewrite Hasked. reflexivity.
  - destruct (response_ok status); cbn [negb].
    + unfold saveBulkDailyPrices, ret. rewrite Hdb.
      destruct (0 <? length (dailyFromPrices prices))%nat; reflexivity.
    + unfold throw. rewrite Hasked. reflexivity.
Qed.

Lemma fold_max_bounds (ts : list Z) (t : Z) :
  t <= fold_left Z.max ts t /\
  Forall (fun x => x <= fold_left Z.max ts t) ts /\
  (fold_left Z.max ts t = t \/ In (fold_left Z.max ts t) ts).
Proof.
  revert t. induction ts as [|x ts IH]; intros t; simpl.
  - split; [lia|]. split; [constructor | left; reflexivity].
  - destruct (IH (Z.max t x)) as [H1 [H2 H3]].
    split; [lia|]. split; [constructor; [lia | exact H2]|].
    destruct H3 as [H3|H3]; [|right; right; exact H3].
    rewrite H3. destruct (Z.max_spec t x) as [[_ ->]|[_ ->]]; auto.
Qed.

(** [lastTimestamp] is the greatest of the last timestamp of the archive
    and of the timestamps of the store. *)
Lemma lastTimestampOf_max (lastCSV : DailyRecord) (cachedData : list DailyRecord) :
  let T := lastTimestampOf lastCSV cachedData in
  timestamp lastCSV <= T /\
  Forall (fun r => timestamp r <= T) cachedData /\
  (T = timestamp lastCSV \/ In T (map timestamp cachedData)) /\
  (cachedData = [] -> T = timestamp lastCSV).
Proof.
  unfold lastTimestampOf, lastCachedTimestampOf.
  destruct cachedData as [|c cs]; cbn [map].
  - rewrite Z.max_id. repeat split; auto; lia.
  - destruct (fold_max_bounds (map timestamp cs) (timestamp c)) as [H1 [H2 H3]].
    set (m := fold_left Z.max (map timestamp cs) (timestamp c)) in *.
    split; [lia|]. split; [|split; [|discriminate]].
    + constructor; [lia|]. rewrite Forall_map in H2.
      eapply Forall_impl; [|exact H2]. cbv beta; intros; lia.
    + destruct (Z.max_spec (timestamp lastCSV) m) as [[_ ->]|[_ ->]]; auto.
      right. destruct H3 as [->|H3]; [left; reflexivity | right; exact H3].
Qed.

(** Rewriting a call with [fetchCombinedData_loaded]. *)
Ltac run_loaded force Hload Hdb :=
  let Hrun := fresh "Hrun" in
  pose proof (fetchCombinedData_loaded _ force _ Hload Hdb) as Hrun;
  cbv zeta in Hrun; rewrite Hrun; clear Hrun.

Ltac cases_done :=
  cbn [fst snd source missingDays];
  split; intros; first [reflexivity | discriminate | congruence].

(** Without a fetch, the source is decided by the lengths of the store and
    of the archive. *)
Lemma fetchCombinedData_no_fetch (env : Env) (st st1 : State)
    (first : DailyRecord) (rest : list DailyRecord) :
  loadCSVData env st = (Ok (first :: rest), st1) ->
  dbError env = None ->
  daysSince (now env) (lastTimestampOf (last rest first) (db st)) <= 0 ->
  let result := fst (fetchCombinedData env false st) in
  data result = mergeCached (first :: rest) (db st) /\
  error result = None /\
  source result = if (length (first :: rest) <? length (db st))%nat
                  then CSV_AND_CACHE else CSV_ONLY.
Proof.
  intros Hload Hdb Hgap result.
  destruct (loadCSVData_logs _ _ Hload) as [Hdb1 _].
  unfold result. run_loaded false Hload Hdb. rewrite Hdb1.
  apply Z.ltb_ge in Hgap. rewrite Hgap. cbn. auto.
Qed.

(** C1, as the code has it: when the archive loads, the store is read
    and the fetch, attempted because days are missing or because it is
    forced, is answered by a status that is not a success, the call
    returns the archive alone, with source [CSV_ONLY], the message of the
    API error, the number of missing days that was computed, and writes
    nothing to the store. *)
Theorem fetchCombinedData_api_error (env : Env) (forceFetch : bool)
    (st st1 : State) (first : DailyRecord) (rest : list DailyRecord)
    (status : Z) (prices : list (Z * Q)) :
  loadCSVData env st = (Ok (first :: rest), st1) ->
  dbError env = None ->
  let lastTimestamp := lastTimestampOf (last rest first) (db st) in
  let d := daysSince (now env) lastTimestamp in
  0 < d \/ forceFetch = true ->
  api env ((lastTimestamp + oneDayMs) / 1000) (now env / 1000)
    = ApiResponse status prices ->
  response_ok status = false ->
  let result := fst (fetchCombinedData env forceFetch st) in
  let st' := snd (fetchCombinedData env forceFetch st) in
  data result = first :: rest /\
  source result = CSV_ONLY /\
  error result = Some (ApiErrorMessage status) /\
  missingDays result = d /\
  db st' = db st /\
  dbWrites st' = dbWrites st.
Proof.
  intros Hload Hdb lastTimestamp d Hfetch Hapi Hok result st'.
  destruct (loadCSVData_logs _ _ Hload) as [Hdb1 [Hw1 _]].
  unfold result, st'. run_loaded forceFetch Hload Hdb.
  rewrite Hdb1. fold lastTimestamp d.
  assert (Hcond : (0 <? d) || forceFetch = true).
  { destruct Hfetch as [Hd| ->]; [|apply orb_true_r].
    apply orb_true_iff; left. apply Z.ltb_lt, Hd. }
  rewrite Hcond, Hapi, Hok. cbn. repeat split; auto.
Qed.

(** C3: for an archive that is not empty and has no timestamp twice, and
    a store in any state that [put]s lead to, the merged series is in
    strictly ascending order of timestamp, holds every record of the
    archive as it is, and holds a record of the store exactly when the
    archive has no record of its timestamp; the series that a call
    returns is this one, with the records of new days when the API
    brings some; two calls in a row, while the API has no new data,
    return the same series. *)
Theorem mergeCached_canonical (csvData puts : list DailyRecord) :
  csvData <> [] ->
  NoDup (map timestamp csvData) ->
  let cachedData := store_of puts in
  let merged := mergeCached csvData cachedData in
  ascending merged /\
  (forall r, In r csvData -> In r merged) /\
  (forall r, In r merged ->
     In r csvData \/
     (In r cachedData /\ ~ In (timestamp r) (map timestamp csvData))) /\
  (forall r, In r cachedData ->
     ~ In (timestamp r) (map timestamp csvData) -> In r merged) /\
  (forall env forceFetch st st1,
     loadCSVData env st = (Ok csvData, st1) ->
     db st = cachedData ->
     dbError env = None ->
     (forall a b, exists status prices,
        api env a b = ApiResponse status prices /\ response_ok status = true) ->
     let series := data (fst (fetchCombinedData env forceFetch st)) in
     ascending series /\
     (forall r, In r merged -> In r series) /\
     (forall r, In r series ->
        In r merged \/ ~ In (timestamp r) (map timestamp merged))) /\
  (forall env1 env2 force1 force2 st st1,
     loadCSVData env1 st = (Ok csvData, st1) ->
     db st = cachedData ->
     dbError env1 = None -> dbError env2 = None ->
     (forall a b, exists status,
        api env1 a b = ApiResponse status [] /\ response_ok status = true) ->
     (forall a b, exists status,
        api env2 a b = ApiResponse status [] /\ response_ok status = true) ->
     let run1 := fetchCombinedData env1 force1 st in
     let run2 := fetchCombinedData env2 force2 (snd run1) in
     data (fst run1) = merged /\ data (fst run2) = merged /\
     db (snd run1) = db st).
Proof.
  intros Hne Hnd cachedData merged.
  assert (Hasc : ascending merged).
  { apply merge_ascending; [exact Hnd|].
    apply ascending_NoDup, store_of_ascending. }
  split; [exact Hasc|].
  split; [intros r Hr; apply merge_In; left; exact Hr|].
  split; [intros r Hr; apply merge_In, Hr|].
  split; [intros r Hr Hts; apply merge_In; right; split; assumption|].
  destruct csvData as [|first rest]; [contradiction|].
  split.
  - intros env forceFetch st st1 Hload Hst Hdb Hapi series.
    destruct (loadCSVData_logs _ _ Hload) as [Hdbst1 _].
    unfold series. run_loaded forceFetch Hload Hdb.
    rewrite Hdbst1, Hst. fold merged.
    destruct (_ || forceFetch); [|cbn [fst data]; auto].
    match goal with |- context [api env ?a ?b] =>
      destruct (Hapi a b) as [status [prices [-> ->]]] end.
    destruct (0 <? length (dailyFromPrices prices))%nat;
      cbn [fst data]; [|auto].
    unfold mergeNew. split; [|split].
    + apply merge_ascending; apply ascending_NoDup;
        [exact Hasc | apply dailyFromPrices_ascending].
    + intros r Hr. apply merge_In. left; exact Hr.
    + intros r Hr. apply merge_In in Hr. tauto.
  - intros env1 env2 force1 force2 st st1 Hload Hst Hdb1 Hdb2 Hapi1 Hapi2 run1 run2.
    destruct (loadCSVData_logs _ _ Hload) as [Hdbst1 _].
    assert (Hrun1 : data (fst run1) = merged /\ db (snd run1) = db st /\
                    static_csvData (snd run1) = static_csvData st1 /\
                    static_loadingPromise (snd run1) = static_loadingPromise st1).
    { unfold run1. run_loaded force1 Hload Hdb1.
      rewrite Hdbst1, Hst. fold merged.
      destruct (_ || force1).
      - match goal with |- context [api env1 ?a ?b] =>
          destruct (Hapi1 a b) as [status [-> ->]] end.
        cbn. repeat split; reflexivity.
      - cbn. rewrite ?Hdbst1, ?Hst. repeat split; reflexivity. }
    destruct Hrun1 as [Hd1 [Hs1 [Hc1 Hp1]]].
    split; [exact Hd1|]. split; [|exact Hs1].
    assert (Hload2 : loadCSVData env2 (snd run1) = (Ok (first :: rest), snd run1))
      by (eapply loadCSVData_again; [exact Hload | exact Hc1 | exact Hp1]).
    unfold run2. run_loaded force2 Hload2 Hdb2.
    rewrite Hs1, Hst. fold merged.
    destruct (_ || force2).
    + match goal with |- context [api env2 ?a ?b] =>
        destruct (Hapi2 a b) as [status [-> ->]] end.
      reflexivity.
    + reflexivity.
Qed.

(** C4: when the archive is not empty, the number of missing days is
    computed as the floor of [now - lastTimestamp] over the milliseconds
    of a day, [lastTimestamp] being the greatest of the last timestamp of
    the archive and of the timestamps of the store (the former when the
    store is empty): it is the [missingDays] returned, unless a fetch
    brought new records and reset it to 0.  For [now] 3 days and 2 hours
    after [lastTimestamp] it is 3. *)
Theorem fetchCombinedData_missingDays (env : Env) (forceFetch : bool)
    (st st1 : State) (first : DailyRecord) (rest : list DailyRecord) :
  loadCSVData env st = (Ok (first :: rest), st1) ->
  dbError env = None ->
  let lastArchive := timestamp (last rest first) in
  let T := lastTimestampOf (last rest first) (db st) in
  let result := fst (fetchCombinedData env forceFetch st) in
  (lastArchive <= T /\
   Forall (fun r => timestamp r <= T) (db st) /\
   (T = lastArchive \/ In T (map timestamp (db st))) /\
   (db st = [] -> T = lastArchive)) /\
  (source result <> LIVE_API ->
   missingDays result = (now env - T) / 86400000) /\
  (source result = LIVE_API -> missingDays result = 0) /\
  (now env = T + 3 * 86400000 + 2 * 3600000 ->
   daysSince (now env) T = 3 /\
   (source result <> LIVE_API -> missingDays result = 3)).
Proof.
  intros Hload Hdb lastArchive T result.
  split; [apply lastTimestampOf_max|].
  destruct (loadCSVData_logs _ _ Hload) as [Hdb1 _].
  assert (Hres : (source result <> LIVE_API ->
                  missingDays result = daysSince (now env) T) /\
                 (source result = LIVE_API -> missingDays result = 0)).
  { unfold result. run_loaded forceFetch Hload Hdb.
    rewrite Hdb1. fold T.
    destruct (_ || forceFetch).
    - destruct (api env _ _) as [e|status prices]; [cases_done|].
      destruct (response_ok status); [|cases_done].
      destruct (0 <? length (dailyFromPrices prices))%nat; cases_done.
    - destruct (length (first :: rest) <? length (db st))%nat; cases_done. }
  destruct Hres as [Hgap Hlive].
  split; [exact Hgap|]. split; [exact Hlive|].
  intros Hnow.
  assert (H3 : daysSince (now env) T = 3).
  { unfold daysSince, oneDayMs. rewrite Hnow.
    replace (T + 3 * 86400000 + 2 * 3600000 - T) with (3 * 86400000 + 7200000) by lia.
    reflexivity. }
  split; [exact H3|]. intros Hsrc. rewrite (Hgap Hsrc). exact H3.
Qed.

(** C8, as the code has it: when the archive and the store are both
    empty, the call returns the empty series with source [CSV_ONLY] and an
    error message; it computes no gap, sends no request, writes nothing,
    and returns 0 missing days. *)
Theorem fetchCombinedData_no_data (env : Env) (forceFetch : bool)
    (st st1 : State) :
  loadCSVData env st = (Ok [], st1) ->
  dbError env = None ->
  db st = [] ->
  let result := fst (fetchCombinedData env forceFetch st) in
  let st' := snd (fetchCombinedData env forceFetch st) in
  data result = [] /\
  source result = CSV_ONLY /\
  error result <> None /\
  missingDays result = 0 /\
  apiCalls st' = apiCalls st /\
  dbWrites st' = dbWrites st.
Proof.
  intros Hload Hdb _ result st'.
  destruct (loadCSVData_logs _ _ Hload) as [_ [Hw Ha]].
  assert (Hagain : loadCSVData env st1 = (Ok [], st1))
    by (eapply loadCSVData_again; [exact Hload | reflexivity | reflexivity]).
  assert (Hrun : fetchCombinedData env forceFetch st =
                 ({| data := []; source := CSV_ONLY;
                     error := Some UndefinedTimestampMessage;
                     missingDays := 0 |}, st1)).
  { unfold fetchCombinedData, fetchCombinedTry, bind, withMissingDays.
    rewrite Hload. unfold getAllDailyPrices. rewrite Hdb.
    cbn [lastRecord throw]. rewrite Hagain. reflexivity. }
  unfold result, st'. rewrite Hrun. cbn.
  repeat split; auto. discriminate.
Qed.

End ReconcileFacts.

(* ================================================================== *)
(** ** The claims on the sample inputs *)

Section SampleRuns.
Import Samples.
#[local] Existing Instance FixedOffsetDate.utc.

Lemma sample_archive :
  loadCSVData (fourthDay failingApi) cachedState =
  (Ok [archiveDay],
   mkState (Some [archiveDay]) (Some (Ok [archiveDay])) [storeDay] [] []).
Proof. reflexivity. Defined.

Lemma sample_range :
  Forall (fun r => (low r <= high r)%Q) [archiveDay; storeDay].
Proof. repeat constructor; unfold Qle; simpl; lia. Defined.

Lemma sample_daily :
  Forall (fun r => setHours (timestamp r) 0 0 0 0 = timestamp r)
         [archiveDay; storeDay].
Proof. repeat constructor. Defined.

Lemma sample_ascending : ascending [archiveDay; storeDay].
Proof. repeat constructor. Defined.

Lemma aggregateData_day_idempotent_witness :
  let series := [archiveDay; storeDay] in
  Forall (fun r => setHours (timestamp r) 0 0 0 0 = timestamp r) series /\
  ascending series /\
  aggregateData (Some (aggregateData (Some series) Day)) Day =
  aggregateData (Some series) Day.
Proof.
  exact (conj sample_daily
           (conj sample_ascending
              (@aggregateData_day_idempotent _ _ sample_daily sample_ascending))).
Defined.

Example utc_calendar :
  getFullYear day1 = 2024 /\ getMonth day1 = 0 /\ getDate day1 = 1 /\
  getDay day1 = 1 /\ newDate 2024 0 1 = day1 /\
  getMonth (day1 + 60 * oneDayMs - 1) = 1 /\
  getDate (day1 + 60 * oneDayMs - 1) = 29.
Proof. repeat split. Qed.

Example utc_bucket_keys :
  let t := day1 + 37 * oneDayMs + 13 * 3600000 + 125 in
  bucketKey Hour t = day1 + 37 * oneDayMs + 13 * 3600000 /\
  bucketKey Day t = day1 + 37 * oneDayMs /\
  bucketKey Week t = day1 + 35 * oneDayMs /\
  bucketKey Month t = day1 + 31 * oneDayMs.
Proof. repeat split. Qed.

Example utc_week_of_sunday :
  getDay (day1 + 6 * oneDayMs) = 0 /\
  bucketKey Week (day1 + 6 * oneDayMs + 5) = day1.
Proof. repeat split. Qed.

(** C1, the claim as it is written fails: two days after the last day of
    the store, with an API that answers 500, the call returns the archive
    without the record of the store, under the source [CSV_ONLY]. *)
Lemma fetchCombinedData_api_error_counterexample :
  let result := fst (fetchCombinedData (fourthDay failingApi) false cachedState) in
  error result = Some (ApiErrorMessage 500) /\
  mergeCached [archiveDay] [storeDay] = [archiveDay; storeDay] /\
  data result = [archiveDay] /\
  data result <> mergeCached [archiveDay] [storeDay] /\
  source result = CSV_ONLY /\
  source result <> FETCHING /\ source result <> ERROR.
Proof.
  vm_compute. repeat split; discriminate.
Qed.

Lemma fetchCombinedData_api_error_witness :
  let env := fourthDay failingApi in
  let st1 := mkState (Some [archiveDay]) (Some (Ok [archiveDay])) [storeDay] [] [] in
  let lastTimestamp := lastTimestampOf (last [] archiveDay) (db cachedState) in
  let d := daysSince (now env) lastTimestamp in
  loadCSVData env cachedState = (Ok [archiveDay], st1) /\
  dbError env = None /\
  (0 < d \/ false = true) /\
  api env ((lastTimestamp + oneDayMs) / 1000) (now env / 1000) = ApiResponse 500 [] /\
  response_ok 500 = false /\
  (let result := fst (fetchCombinedData env false cachedState) in
   let st' := snd (fetchCombinedData env false cachedState) in
   data result = [archiveDay] /\
   source result = CSV_ONLY /\
   error result = Some (ApiErrorMessage 500) /\
   missingDays result = d /\
   db st' = db cachedState /\
   dbWrites st' = dbWrites cachedState).
Proof.
  intros env st1 lastTimestamp d.
  assert (Hfetch : 0 < d \/ false = true) by (left; reflexivity).
  exact (conj sample_archive (conj eq_refl (conj Hfetch (conj eq_refl (conj eq_refl
           (@fetchCombinedData_api_error _ env false cachedState _ _ _ _ _
              sample_archive eq_refl Hfetch eq_refl eq_refl)))))).
Defined.

(** C2, the code on the input of the scenario: the archive ends on day D,
    the store holds the one record of day D+1, and [now] is within day
    D+1.  The record of the store is in the series, no day is missing,
    and the source is [CSV_ONLY]: the store has one record and the
    archive has one, and the code compares these two lengths. *)
Theorem fetchCombinedData_cached_day_source :
  let result := fst (fetchCombinedData (secondDay silentApi) false cachedState) in
  data result = [archiveDay; storeDay] /\
  In storeDay (data result) /\
  ~ In (timestamp storeDay) (map timestamp [archiveDay]) /\
  missingDays result = 0 /\
  error result = None /\
  source result = CSV_ONLY.
Proof.
  vm_compute. repeat split; auto.
  intros [H|[]]; discriminate H.
Qed.

Lemma mergeCached_canonical_witness :
  let csvData := [archiveDay] in
  let puts := [storeDay; archiveDay; storeDay] in
  csvData <> [] /\
  NoDup (map timestamp csvData) /\
  ascending (mergeCached csvData (store_of puts)) /\
  mergeCached csvData (store_of puts) = [archiveDay; storeDay].
Proof.
  intros csvData puts.
  assert (Hne : csvData <> []) by discriminate.
  assert (Hnd : NoDup (map timestamp csvData))
    by (repeat constructor; simpl; tauto).
  exact (conj Hne (conj Hnd
           (conj (proj1 (@mergeCached_canonical _ _ puts Hne Hnd)) eq_refl))).
Defined.

Lemma fetchCombinedData_missingDays_witness :
  let env := fourthDay silentApi in
  let st1 := mkState (Some [archiveDay]) (Some (Ok [archiveDay])) [storeDay] [] [] in
  let T := lastTimestampOf (last [] archiveDay) (db cachedState) in
  let result := fst (fetchCombinedData env false cachedState) in
  loadCSVData env cachedState = (Ok [archiveDay], st1) /\
  dbError env = None /\
  T = day2 /\
  source result <> LIVE_API /\
  missingDays result = (now env - T) / 86400000 /\
  missingDays result = 2.
Proof.
  intros env st1 T result.
  assert (Hsrc : source result <> LIVE_API) by (vm_compute; discriminate).
  exact (conj eq_refl (conj eq_refl (conj eq_refl (conj Hsrc
           (conj (proj1 (proj2 (@fetchCombinedData_missingDays _ env false cachedState _ _ _
                                  (eq_refl : loadCSVData env cachedState = (Ok [archiveDay], st1))
                                  eq_refl)) Hsrc)
                 eq_refl))))).
Defined.

(** C8, the claim as it is written fails: with an archive file without
    rows and an empty store, the call returns the empty series under the
    source [CSV_ONLY], not [ERROR]. *)
Lemma fetchCombinedData_no_data_counterexample :
  let result := fst (fetchCombinedData emptyArchive false freshState) in
  parseCSV [DataLine (mkRow None 0 0 0 0 0)] = [] /\
  db freshState = [] /\
  data result = [] /\
  missingDays result = 0 /\
  source result = CSV_ONLY /\
  source result <> ERROR.
Proof.
  vm_compute. repeat split; discriminate.
Qed.

Lemma fetchCombinedData_no_data_witness :
  let st1 := mkState (Some []) (Some (Ok [])) [] [] [] in
  loadCSVData emptyArchive freshState = (Ok [], st1) /\
  dbError emptyArchive = None /\
  db freshState = [] /\
  (let result := fst (fetchCombinedData emptyArchive false freshState) in
   let st' := snd (fetchCombinedData emptyArchive false freshState) in
   data result = [] /\
   source result = CSV_ONLY /\
   error result <> None /\
   missingDays result = 0 /\
   apiCalls st' = apiCalls freshState /\
   dbWrites st' = dbWrites freshState).
Proof.
  intros st1.
  exact (conj eq_refl (conj eq_refl (conj eq_refl
           (@fetchCombinedData_no_data _ emptyArchive false freshState _
              (eq_refl : loadCSVData emptyArchive freshState = (Ok [], st1))
              eq_refl eq_refl)))).
Defined.

End SampleRuns.

(* ================================================================== *)
(** ** The object store: upsert, statistics, clearing *)

Unset Implicit Arguments.

Lemma find_snoc (A : Type) (f : A -> bool) (l : list A) (a : A) :
  find f (l ++ [a]) =
  match find f l with
  | Some x => Some x
  | None => if f a then Some a else None
  end.
Proof.
  induction l as [|b l IH]; simpl; [reflexivity|].
  destruct (f b); [reflexivity | exact IH].
Qed.

Lemma recordAt_store_put (data : DailyRecord) (s : Store) (key : Z) :
  recordAt key (store_put data s) =
  if timestamp data =? key then Some data else recordAt key s.
Proof.
  unfold recordAt. induction s as [|r s IH]; simpl; [reflexivity|].
  destruct (Z.ltb_spec (timestamp data) (timestamp r)) as [Hlt|Hge];
    [reflexivity|].
  destruct (Z.eqb_spec (timestamp data) (timestamp r)) as [Heq|Hne]; simpl.
  - rewrite <- Heq. destruct (timestamp data =? key); reflexivity.
  - rewrite IH.
    destruct (Z.eqb_spec (timestamp r) key) as [Hr|Hr];
      destruct (Z.eqb_spec (timestamp data) key) as [Hd|Hd];
      try reflexivity; congruence.
Qed.

(** After a batch of [put]s a key holds the last record of the batch that
    has it, or what it held before. *)
Lemma recordAt_putAll (dataArray : list DailyRecord) (s : Store) (key : Z) :
  recordAt key (fold_left (fun s data => store_put data s) dataArray s) =
  match recordAt key (rev dataArray) with
  | Some r => Some r
  | None => recordAt key s
  end.
Proof.
  revert s. induction dataArray as [|data arr IH]; intros s;
    cbn [fold_left rev]; [reflexivity|].
  rewrite IH, recordAt_store_put. unfold recordAt. rewrite find_snoc.
  destruct (find (fun r => timestamp r =? key) (rev arr)); [reflexivity|].
  destruct (timestamp data =? key); reflexivity.
Qed.

Lemma putAll_ascending (dataArray : list DailyRecord) (s : Store) :
  ascending s ->
  ascending (fold_left (fun s data => store_put data s) dataArray s).
Proof.
  revert s. induction dataArray as [|data arr IH]; intros s Hs; simpl;
    [exact Hs|].
  apply IH, store_put_ascending, Hs.
Qed.

Lemma recordAt_In (series : list DailyRecord) (key : Z) (r : DailyRecord) :
  ascending series ->
  (recordAt key series = Some r <-> In r series /\ timestamp r = key).
Proof.
  intros Hasc. unfold recordAt. split.
  - intros H. apply find_some in H. destruct H as [Hin Hk].
    split; [exact Hin | apply Z.eqb_eq, Hk].
  - intros [Hin Hk].
    destruct (find (fun r0 => timestamp r0 =? key) series) as [r'|] eqn:E.
    + apply find_some in E. destruct E as [Hin' Hk'].
      apply Z.eqb_eq in Hk'. f_equal.
      apply (@ascending_unique series r' r Hasc Hin' Hin). congruence.
    + apply (find_none _ _ E) in Hin. apply Z.eqb_neq in Hin. contradiction.
Qed.

Lemma recordAt_timestamps (series : list DailyRecord) (key : Z) :
  recordAt key series <> None <-> In key (map timestamp series).
Proof.
  unfold recordAt. induction series as [|r series IH]; simpl; [tauto|].
  destruct (Z.eqb_spec (timestamp r) key) as [Hr|Hr].
  - split; [auto | discriminate].
  - rewrite IH. intuition.
Qed.

(** X1: a successful [saveBulkDailyPrices] is an upsert by timestamp: the
    store stays in strictly ascending order of key; a key of the batch
    holds the last record of the batch that has this key; any other key
    holds what it held; the batch is one write. *)
Theorem saveBulkDailyPrices_upsert (env : Env) (dataArray : list DailyRecord)
    (st : State) :
  dbError env = None ->
  ascending (db st) ->
  let st' := snd (saveBulkDailyPrices env dataArray st) in
  fst (saveBulkDailyPrices env dataArray st) = Ok tt /\
  ascending (db st') /\
  (forall key,
     recordAt key (db st') =
     match recordAt key (rev dataArray) with
     | Some r => Some r
     | None => recordAt key (db st)
     end) /\
  (forall r, In r (db st') ->
     In r dataArray \/
     (In r (db st) /\ ~ In (timestamp r) (map timestamp dataArray))) /\
  dbWrites st' = dbWrites st ++ [dataArray].
Proof.
  intros Hdb Hasc st'. unfold st', saveBulkDailyPrices. rewrite Hdb.
  cbn [fst snd db dbWrites].
  assert (Hasc' : ascending
            (fold_left (fun s data => store_put data s) dataArray (db st)))
    by (apply putAll_ascending, Hasc).
  split; [reflexivity|]. split; [exact Hasc'|].
  split; [apply recordAt_putAll|]. split; [|reflexivity].
  intros r Hr.
  assert (Hat : recordAt (timestamp r)
                  (fold_left (fun s data => store_put data s) dataArray (db st))
                = Some r) by (apply recordAt_In; auto).
  rewrite recordAt_putAll in Hat.
  destruct (recordAt (timestamp r) (rev dataArray)) as [r'|] eqn:E.
  - injection Hat as ->. left.
    unfold recordAt in E. apply find_some in E. apply in_rev, E.
  - right. split; [apply (recordAt_In _ (timestamp r) r Hasc), Hat|].
    intros Hin. rewrite in_rev, <- map_rev in Hin.
    apply recordAt_timestamps in Hin. contradiction.
Qed.

Lemma sorted_bounds (l : list DailyRecord) (d r : DailyRecord) :
  StronglySorted byTimestamp l -> In r l ->
  timestamp (hd d l) <= timestamp r <= timestamp (last l d).
Proof.
  induction 1 as [|a l Hs IH Ha]; [intros []|].
  intros Hin. rewrite last_cons. cbn [hd].
  rewrite Forall_forall in Ha. unfold byTimestamp in Ha.
  destruct l as [|b l'].
  - destruct Hin as [<-|[]]. cbn. lia.
  - assert (Hlast : timestamp a <= timestamp (last (b :: l') a)).
    { destruct (@exists_last _ (b :: l')) as [l0 [z Hz]]; [discriminate|].
      rewrite Hz, last_last. apply Ha. rewrite Hz. apply in_or_app.
      right; left; reflexivity. }
    destruct Hin as [<-|Hin]; [lia|].
    specialize (IH Hin). cbn [hd] in IH.
    rewrite last_cons in IH.
    assert (Hsame : last (b :: l') a = last l' b) by apply last_cons.
    rewrite Hsame. split; [apply Ha; exact Hin | lia].
Qed.

(** X2: [getDataStats] on a readable store changes nothing and returns
    the number of records with, when there is one, the least and the
    greatest of their timestamps; on an empty store the two dates are
    [null]. *)
Theorem getDataStats_bounds (env : Env) (st : State) :
  dbError env = None ->
  let stats := statsOf (db st) in
  getDataStats env st = (Ok stats, st) /\
  count stats = length (db st) /\
  (db st = [] -> firstDate stats = None /\ lastDate stats = None) /\
  (db st <> [] ->
   exists lo hi,
     firstDate stats = Some lo /\ lastDate stats = Some hi /\
     In lo (map timestamp (db st)) /\ In hi (map timestamp (db st)) /\
     forall r, In r (db st) -> lo <= timestamp r <= hi).
Proof.
  intros Hdb stats.
  split.
  { unfold getDataStats, bind, getAllDailyPrices, ret. rewrite Hdb. reflexivity. }
  unfold stats, statsOf. destruct (db st) as [|d ds] eqn:E.
  - cbn. repeat split; auto. intros H; contradiction.
  - cbn [count firstDate lastDate]. split; [reflexivity|].
    split; [discriminate|]. intros _.
    set (sorted := sortByTimestamp (d :: ds)).
    assert (Hperm : Permutation sorted (d :: ds)) by apply sortByTimestamp_perm.
    assert (Hne : sorted <> []).
    { intros H0. rewrite H0 in Hperm. apply Permutation_nil in Hperm.
      discriminate. }
    exists (timestamp (hd d sorted)), (timestamp (last sorted d)).
    split; [reflexivity|]. split; [reflexivity|].
    split; [|split].
    + apply in_map. apply (Permutation_in _ Hperm).
      destruct sorted; [contradiction | left; reflexivity].
    + apply in_map. apply (Permutation_in _ Hperm).
      destruct (@exists_last _ sorted Hne) as [l0 [z Hz]].
      rewrite Hz, last_last. apply in_or_app. right; left; reflexivity.
    + intros r Hr. apply sorted_bounds.
      * apply sortByTimestamp_sorted.
      * apply (Permutation_in _ (Permutation_sym Hperm)), Hr.
Qed.

Lemma putAll_timestamps (dataArray : list DailyRecord) (s : Store) (key : Z) :
  In key (map timestamp (fold_left (fun s data => store_put data s) dataArray s))
  <-> In key (map timestamp dataArray) \/ In key (map timestamp s).
Proof.
  rewrite (in_rev (map timestamp dataArray)), <- map_rev.
  rewrite <- !recordAt_timestamps, recordAt_putAll.
  destruct (recordAt key (rev dataArray)); intuition congruence.
Qed.

(** X3: after [clearAllData] the store is empty whatever it held, and a
    batch saved next leaves one record for each timestamp of the batch:
    [getDataStats] then counts the distinct timestamps of the batch. *)
Theorem clear_then_save_count (env : Env) (dataArray : list DailyRecord)
    (st : State) :
  dbError env = None ->
  let cleared := snd (clearAllData env st) in
  let saved := snd (saveBulkDailyPrices env dataArray cleared) in
  db cleared = [] /\
  fst (getAllDailyPrices env cleared) = Ok [] /\
  fst (getDataStats env cleared) = Ok (mkDataStats 0 None None) /\
  db saved = store_of dataArray /\
  (exists stats,
     fst (getDataStats env saved) = Ok stats /\
     count stats = length (nodup Z.eq_dec (map timestamp dataArray))).
Proof.
  intros Hdb cleared saved.
  unfold saved, cleared, clearAllData, saveBulkDailyPrices, getDataStats,
    getAllDailyPrices, bind, ret.
  repeat (rewrite ?Hdb; cbn [fst snd db]).
  repeat split.
  exists (statsOf (store_of dataArray)). split; [reflexivity|].
  assert (Hcount : forall l, count (statsOf l) = length l)
    by (intros [|x l]; reflexivity).
  rewrite Hcount, <- (length_map timestamp).
  apply Permutation_length, NoDup_Permutation.
  - apply ascending_NoDup, store_of_ascending.
  - apply NoDup_nodup.
  - intros key. rewrite nodup_In. unfold store_of.
    rewrite putAll_timestamps. simpl. tauto.
Qed.

(* ================================================================== *)
(** ** More about the roll-ups *)

Lemma fold_Math_max_bounds (l : list Q) (a : Q) :
  (a <= fold_left Math_max l a)%Q /\
  Forall (fun x => (x <= fold_left Math_max l a)%Q) l.
Proof.
  revert a. induction l as [|x l IH]; intros a; simpl.
  - split; [apply Qle_refl | constructor].
  - destruct (IH (Math_max a x)) as [H1 H2]. unfold Math_max in *.
    split; [apply Qle_trans with (Qmax a x); [apply Q.le_max_l | exact H1]|].
    constructor; [|exact H2].
    apply Qle_trans with (Qmax a x); [apply Q.le_max_r | exact H1].
Qed.

Lemma fold_Math_min_bounds (l : list Q) (a : Q) :
  (fold_left Math_min l a <= a)%Q /\
  Forall (fun x => (fold_left Math_min l a <= x)%Q) l.
Proof.
  revert a. induction l as [|x l IH]; intros a; simpl.
  - split; [apply Qle_refl | constructor].
  - destruct (IH (Math_min a x)) as [H1 H2]. unfold Math_min in *.
    split; [apply Qle_trans with (Qmin a x); [exact H1 | apply Q.le_min_l]|].
    constructor; [|exact H2].
    apply Qle_trans with (Qmin a x); [exact H1 | apply Q.le_min_r].
Qed.

Lemma Map_set_length (V : Type) (m : JsMap V) (key : Z) (v : V) :
  (length (Map_set key v m) <= S (length m))%nat.
Proof.
  induction m as [|[k g] m IH]; simpl; [lia|].
  destruct (k =? key); simpl; lia.
Qed.

(** A grouping loop has no more entries than elements. *)
Section GroupedLength.
Variable X : Type.
Variable keyOf : X -> Z.
Variable create : Z -> X -> DailyRecord.
Variable update : DailyRecord -> X -> DailyRecord.

Lemma grouped_length (xs : list X) :
  (length (groupAll keyOf create update xs) <= length xs)%nat.
Proof.
  unfold groupAll. induction xs as [|x xs IH] using rev_ind; [simpl; lia|].
  rewrite fold_left_app, length_app. cbn [fold_left length].
  set (m := fold_left (groupInto keyOf create update) xs []) in *.
  unfold groupInto, Map_has.
  destruct (Map_get (keyOf x) m) as [g|] eqn:E; cbn [negb];
    match goal with |- (length (Map_set ?k ?v m) <= _)%nat =>
      pose proof (Map_set_length _ m k v) end; lia.
Qed.
End GroupedLength.

(** An ascending series whose timestamps are the keys of a list of elements
    has one record for each distinct key. *)
Lemma keyed_count (X : Type) (keyOf : X -> Z) (xs : list X)
    (out : list DailyRecord) :
  ascending out ->
  (forall key, In key (map timestamp out) <-> In key (map keyOf xs)) ->
  length out = length (nodup Z.eq_dec (map keyOf xs)) /\
  (length out <= length xs)%nat /\
  (out = [] <-> xs = []).
Proof.
  intros Hasc Hkeys. split; [|split].
  - rewrite <- (length_map timestamp out). apply Permutation_length.
    apply NoDup_Permutation.
    + apply ascending_NoDup, Hasc.
    + apply NoDup_nodup.
    + intros key. rewrite nodup_In. apply Hkeys.
  - rewrite <- (length_map timestamp out), <- (length_map keyOf xs).
    apply NoDup_incl_length; [apply ascending_NoDup, Hasc|].
    intros key. apply Hkeys.
  - split.
    + intros ->. destruct xs as [|x xs]; [reflexivity|].
      destruct (proj2 (Hkeys (keyOf x)) (or_introl eq_refl)).
    + intros ->. destruct out as [|g out]; [reflexivity|].
      destruct (proj1 (Hkeys (timestamp g)) (or_introl eq_refl)).
Qed.

Section AggregatorMore.
Context {date : DateEnv}.

Lemma fold_mergePoint (rest : list DailyRecord) (group : DailyRecord) :
  fold_left mergePoint rest group =
  {| timestamp := timestamp group;
     open := open group;
     high := fold_left Math_max (map high rest) (high group);
     low := fold_left Math_min (map low rest) (low group);
     close := last (map close rest) (close group);
     volume := fold_left Qplus (map volume rest) (volume group) |}.
Proof.
  revert group. induction rest as [|point rest IH]; intros group.
  - destruct group; reflexivity.
  - cbn [fold_left map]. rewrite IH, last_cons. reflexivity.
Qed.

(** What [aggregateData] makes of the points of a bucket. *)
Lemma aggregateData_record (points : list DailyRecord) (intervalType : Interval)
    (g : DailyRecord) :
  In g (aggregateData (Some points) intervalType) ->
  exists first rest,
    bucket (pointKey intervalType) (timestamp g) points = first :: rest /\
    g = fold_left mergePoint rest (withTimestamp first (timestamp g)).
Proof.
  rewrite aggregateData_grouped. intros Hin.
  apply (groupedSeries_In (pointKey intervalType)
           (fun key point => withTimestamp point key) mergePoint) in Hin;
    [|reflexivity|reflexivity].
  unfold rollup in Hin.
  destruct (bucket (pointKey intervalType) (timestamp g) points) as [|first rest];
    [discriminate|].
  exists first, rest. split; [reflexivity|]. congruence.
Qed.

(** X4: each record of the output of [aggregateData] rolls up the points of
    its bucket in their order: [open] of the first point, [close] of the
    last, [high] the greatest high, [low] the least low, [volume] the
    volumes added up from the first. *)
Theorem aggregateData_rollup (points : list DailyRecord) (intervalType : Interval)
    (g : DailyRecord) :
  In g (aggregateData (Some points) intervalType) ->
  exists first rest,
    bucket (pointKey intervalType) (timestamp g) points = first :: rest /\
    open g = open first /\
    high g = fold_left Math_max (map high rest) (high first) /\
    low g = fold_left Math_min (map low rest) (low first) /\
    close g = last (map close rest) (close first) /\
    volume g = fold_left Qplus (map volume rest) (volume first).
Proof.
  intros Hin. destruct (aggregateData_record _ _ _ Hin) as [first [rest [Hb Hg]]].
  exists first, rest. split; [exact Hb|].
  rewrite fold_mergePoint in Hg. rewrite Hg at 1 2 3 4 5. cbn.
  repeat split; reflexivity.
Qed.

(** X5: every input point is inside the record of its bucket: the output
    has a record at the key of the point, whose [high] is at least the high
    of the point and whose [low] is at most its low. *)
Theorem aggregateData_envelope (points : list DailyRecord)
    (intervalType : Interval) (point : DailyRecord) :
  In point points ->
  exists g,
    In g (aggregateData (Some points) intervalType) /\
    timestamp g = pointKey intervalType point /\
    (high point <= high g)%Q /\ (low g <= low point)%Q.
Proof.
  intros Hp.
  assert (Hkey : In (pointKey intervalType point)
                    (map timestamp (aggregateData (Some points) intervalType))).
  { apply aggregateData_timestamps. apply in_map, Hp. }
  apply in_map_iff in Hkey. destruct Hkey as [g [Hts Hin]].
  exists g. split; [exact Hin|]. split; [exact Hts|].
  destruct (aggregateData_record _ _ _ Hin) as [first [rest [Hb Hg]]].
  rewrite fold_mergePoint in Hg.
  assert (Hpb : In point (first :: rest)).
  { rewrite <- Hb. unfold bucket. apply filter_In. split; [exact Hp|].
    apply Z.eqb_eq. symmetry. exact Hts. }
  destruct (fold_Math_max_bounds (map high rest) (high first)) as [Hmax1 Hmax2].
  destruct (fold_Math_min_bounds (map low rest) (low first)) as [Hmin1 Hmin2].
  rewrite Forall_map, Forall_forall in Hmax2, Hmin2.
  rewrite Hg. cbn [high low withTimestamp].
  destruct Hpb as [<-|Hrest]; split; auto.
Qed.

(** X6: [aggregateData] yields one record for each distinct key of the
    points, hence no more records than it was given points, and yields none
    only for no point. *)
Theorem aggregateData_count (points : list DailyRecord) (intervalType : Interval) :
  let out := aggregateData (Some points) intervalType in
  length out =
    length (nodup Z.eq_dec (map (pointKey intervalType) points)) /\
  (length out <= length points)%nat /\
  (out = [] <-> points = []).
Proof.
  intros out. apply keyed_count.
  - apply aggregateData_ascending.
  - apply aggregateData_timestamps.
Qed.

(** X7: [aggregateData] keeps the order of the four prices: when every
    point has its open and its close between its low and its high, so has
    every record of the output. *)
Theorem aggregateData_consistent (points : list DailyRecord)
    (intervalType : Interval) :
  Forall (fun r => (low r <= open r <= high r)%Q /\
                   (low r <= close r <= high r)%Q) points ->
  Forall (fun r => (low r <= open r <= high r)%Q /\
                   (low r <= close r <= high r)%Q)
         (aggregateData (Some points) intervalType).
Proof.
  intros Hpoints. apply Forall_forall. intros g Hin.
  rewrite aggregateData_grouped in Hin.
  apply (groupedSeries_In (pointKey intervalType)
           (fun key point => withTimestamp point key) mergePoint) in Hin;
    [|reflexivity|reflexivity].
  revert Hin.
  apply rollup_invariant
    with (P := fun r => (low r <= open r <= high r)%Q /\
                        (low r <= close r <= high r)%Q)
         (Q := fun r => (low r <= open r <= high r)%Q /\
                        (low r <= close r <= high r)%Q).
  - intros x Hx. exact Hx.
  - intros g0 x [[Ho1 Ho2] _] [_ [Hc1 Hc2]]. cbn. unfold Math_min, Math_max.
    pose proof (Q.le_min_l (low g0) (low x)).
    pose proof (Q.le_min_r (low g0) (low x)).
    pose proof (Q.le_max_l (high g0) (high x)).
    pose proof (Q.le_max_r (high g0) (high x)).
    repeat split; lra.
  - exact Hpoints.
Qed.

(** X8: the archive has one record for each distinct day key of the rows
    with a numeric timestamp, hence no more days than such rows, and is
    empty exactly when the file has no such row. *)
Theorem parseCSV_count (header : CsvLine) (body : list CsvLine) :
  let rows := numericRows body in
  let out := parseCSV (header :: body) in
  length out = length (nodup Z.eq_dec (map rowDayKey rows)) /\
  (length out <= length rows)%nat /\
  (out = [] <-> rows = []).
Proof.
  intros rows out. unfold out, rows. rewrite parseCSV_grouped.
  apply keyed_count.
  - apply groupedSeries_ascending; reflexivity.
  - intros key. apply groupedSeries_timestamps; reflexivity.
Qed.

(** X9: every daily record that the fetcher makes has its open and its
    close between its low and its high, and the price of every sample lies
    between the low and the high of the record of its day. *)
Theorem dailyFromPrices_consistent (prices : list (Z * Q)) :
  Forall (fun r => (low r <= open r <= high r)%Q /\
                   (low r <= close r <= high r)%Q)
         (dailyFromPrices prices) /\
  (forall sample, In sample prices ->
     exists g, In g (dailyFromPrices prices) /\
               timestamp g = sampleDayKey sample /\
               (low g <= snd sample <= high g)%Q).
Proof.
  split.
  - apply Forall_forall. intros g Hin.
    rewrite dailyFromPrices_grouped in Hin.
    apply (groupedSeries_In sampleDayKey priceRecord mergePrice) in Hin;
      [|reflexivity|reflexivity].
    revert Hin.
    apply rollup_invariant
      with (P := fun r => (low r <= open r <= high r)%Q /\
                          (low r <= close r <= high r)%Q)
           (Q := fun _ : Z * Q => True).
    + intros x _. cbn. repeat split; apply Qle_refl.
    + intros g0 x [[Ho1 Ho2] _] _. cbn. unfold Math_min, Math_max.
      pose proof (Q.le_min_l (low g0) (snd x)).
      pose proof (Q.le_min_r (low g0) (snd x)).
      pose proof (Q.le_max_l (high g0) (snd x)).
      pose proof (Q.le_max_r (high g0) (snd x)).
      repeat split; lra.
    + apply Forall_forall. auto.
  - intros sample Hs.
    assert (Hkey : In (sampleDayKey sample)
                      (map timestamp (dailyFromPrices prices))).
    { rewrite dailyFromPrices_grouped.
      apply groupedSeries_timestamps; [reflexivity | reflexivity|].
      apply in_map, Hs. }
    apply in_map_iff in Hkey. destruct Hkey as [g [Hts Hin]].
    exists g. split; [exact Hin|]. split; [exact Hts|].
    rewrite dailyFromPrices_grouped in Hin.
    apply (groupedSeries_In sampleDayKey priceRecord mergePrice) in Hin;
      [|reflexivity|reflexivity].
    unfold rollup in Hin.
    destruct (bucket sampleDayKey (timestamp g) prices) as [|first rest] eqn:Hb;
      [discriminate|].
    injection Hin as Hg. rewrite fold_mergePrice in Hg.
    assert (Hsb : In sample (first :: rest)).
    { rewrite <- Hb. unfold bucket. apply filter_In. split; [exact Hs|].
      apply Z.eqb_eq. symmetry. exact Hts. }
    destruct (fold_Math_max_bounds (map snd rest) (snd first)) as [Hmax1 Hmax2].
    destruct (fold_Math_min_bounds (map snd rest) (snd first)) as [Hmin1 Hmin2].
    rewrite Forall_map, Forall_forall in Hmax2, Hmin2.
    rewrite <- Hg. cbn [high low priceRecord].
    destruct Hsb as [<-|Hrest]; split; auto.
Qed.

End AggregatorMore.

(* ================================================================== *)
(** ** The calendar of a zone with a constant offset *)

Ltac euclid := Z.to_euclidean_division_equations; lia.

Section CivilCalendar.
Import FixedOffsetDate.

(** The day number of a date is recovered from its year, month and day of
    the month. *)
Lemma civil_roundtrip (z : Z) :
  daysFromCivil (fst (fst (civilFromDays z))) (snd (fst (civilFromDays z)))
    + snd (civilFromDays z) - 1 = z /\
  0 <= snd (fst (civilFromDays z)) <= 11 /\
  1 <= snd (civilFromDays z) <= 31.
Proof.
  unfold civilFromDays, daysFromCivil.
  set (z' := z + 719468).
  set (era := z' / 146097).
  set (doe := z' - era * 146097).
  assert (Hdoe : 0 <= doe < 146097) by (unfold doe, era; euclid).
  set (yoe := (doe - doe / 1460 + doe / 36524 - doe / 146096) / 365).
  assert (Hyoe : 0 <= yoe <= 399) by (unfold yoe; euclid).
  set (doy := doe - (365 * yoe + yoe / 4 - yoe / 100)).
  assert (Hdoy : 0 <= doy <= 365) by (unfold doy, yoe; euclid).
  set (mp := (5 * doy + 2) / 153).
  assert (Hmp : 0 <= mp <= 11) by (unfold mp; euclid).
  set (d := doy - (153 * mp + 2) / 5 + 1).
  assert (Hd : 1 <= d <= 31) by (unfold d, mp; euclid).
  cbn [fst snd].
  assert (Hera : (yoe + era * 400) / 400 = era) by euclid.
  destruct (Z.ltb_spec mp 10) as [Hlt|Hge].
  - destruct (Z.leb_spec (mp + 2) 1); [lia|].
    destruct (Z.ltb_spec 1 (mp + 2)); [|lia].
    replace (yoe + era * 400 + 0) with (yoe + era * 400) by lia.
    replace (mp + 2 - 2) with mp by lia.
    rewrite Hera.
    replace (yoe + era * 400 - era * 400) with yoe by lia.
    split; [|lia]. unfold d, doy, doe, z'. lia.
  - destruct (Z.leb_spec (mp - 10) 1); [|lia].
    destruct (Z.ltb_spec 1 (mp - 10)); [lia|].
    replace (yoe + era * 400 + 1 - 1) with (yoe + era * 400) by lia.
    replace (mp - 10 + 10) with mp by lia.
    rewrite Hera.
    replace (yoe + era * 400 - era * 400) with yoe by lia.
    split; [|lia]. unfold d, doy, doe, z'. lia.
Qed.

Lemma civil_year_after_epoch (z : Z) :
  0 <= z -> 100 <= fst (fst (civilFromDays z)).
Proof.
  intros Hz. unfold civilFromDays.
  set (z' := z + 719468).
  set (era := z' / 146097).
  set (doe := z' - era * 146097).
  assert (Hera : 4 <= era) by (unfold era, z'; euclid).
  assert (Hdoe : 0 <= doe < 146097) by (unfold doe, era; euclid).
  set (yoe := (doe - doe / 1460 + doe / 36524 - doe / 146096) / 365).
  assert (Hyoe : 0 <= yoe <= 399) by (unfold yoe; euclid).
  cbn [fst snd].
  destruct (_ <=? 1); lia.
Qed.

(** [MakeDay] on the year and the month of a day and any day of the
    month. *)
Lemma MakeDay_of_day (z dt : Z) :
  MakeDay (fst (fst (civilFromDays z))) (snd (fst (civilFromDays z))) dt =
  z - snd (civilFromDays z) + dt.
Proof.
  destruct (civil_roundtrip z) as [Hz [Hm Hd]]. unfold MakeDay.
  replace (snd (fst (civilFromDays z)) / 12) with 0 by euclid.
  replace (snd (fst (civilFromDays z)) mod 12)
    with (snd (fst (civilFromDays z))) by euclid.
  rewrite Z.add_0_r. lia.
Qed.

(** The first day of the month of a day has the year and the month of
    that day. *)
Lemma civil_first_of_month (z : Z) :
  civilFromDays (z - snd (civilFromDays z) + 1) =
  (fst (fst (civilFromDays z)), snd (fst (civilFromDays z)), 1).
Proof.
  unfold civilFromDays at 2 3 4. cbn [fst snd].
  set (z' := z + 719468).
  set (era := z' / 146097).
  set (doe := z' - era * 146097).
  assert (Hdoe : 0 <= doe < 146097) by (unfold doe, era; euclid).
  set (yoe := (doe - doe / 1460 + doe / 36524 - doe / 146096) / 365).
  assert (Hyoe : 0 <= yoe <= 399) by (unfold yoe; euclid).
  set (doy := doe - (365 * yoe + yoe / 4 - yoe / 100)).
  assert (Hdoy : 0 <= doy <= 365) by (unfold doy, yoe; euclid).
  set (mp := (5 * doy + 2) / 153).
  assert (Hmp : 0 <= mp <= 11) by (unfold mp; euclid).
  set (doy1 := (153 * mp + 2) / 5).
  assert (Hdoy1 : 0 <= doy1 <= doy /\ doy1 <= 337) by (unfold doy1, mp; euclid).
  replace (z - (doy - doy1 + 1) + 1)
    with (era * 146097 + (365 * yoe + yoe / 4 - yoe / 100 + doy1) - 719468)
    by (unfold doy, doe, z'; lia).
  unfold civilFromDays.
  set (doe1 := 365 * yoe + yoe / 4 - yoe / 100 + doy1).
  assert (Hdoe1 : 0 <= doe1 <= doe) by (unfold doe1, doy in *; euclid).
  replace (era * 146097 + doe1 - 719468 + 719468) with (doe1 + era * 146097) by lia.
  replace ((doe1 + era * 146097) / 146097) with era by euclid.
  replace (doe1 + era * 146097 - era * 146097) with doe1 by lia.
  assert (Hy1 : (doe1 - doe1 / 1460 + doe1 / 36524 - doe1 / 146096) / 365 = yoe)
    by (unfold doe1; euclid).
  rewrite Hy1.
  replace (doe1 - (365 * yoe + yoe / 4 - yoe / 100)) with doy1 by (unfold doe1; lia).
  assert (Hmp1 : (5 * doy1 + 2) / 153 = mp) by (unfold doy1; euclid).
  rewrite Hmp1. fold doy1.
  replace (doy1 - doy1 + 1) with 1 by lia. reflexivity.
Qed.

End CivilCalendar.

Section FixedZoneCalendar.
Variable LocalTZA : Z.

(** In such a zone the day key of the two daily roll-ups is the start of
    the local day, for a local time at or after the epoch. *)
Lemma fixed_zone_dayKeyOf (t : Z) :
  0 <= t + LocalTZA ->
  @dayKeyOf (FixedOffsetDate.zone LocalTZA) t = (t + LocalTZA) / 86400000 * 86400000 - LocalTZA.
Proof.
  intros Ht. unfold dayKeyOf. cbn [newDate getFullYear getMonth getDate FixedOffsetDate.zone].
  unfold FixedOffsetDate.YearFromTime, FixedOffsetDate.MonthFromTime, FixedOffsetDate.DateFromTime, FixedOffsetDate.LocalTime, FixedOffsetDate.UTC, FixedOffsetDate.MakeDate.
  set (z := FixedOffsetDate.Day (t + LocalTZA)).
  assert (Hz : 0 <= z) by (unfold z, FixedOffsetDate.Day, FixedOffsetDate.msPerDay; euclid).
  pose proof (civil_year_after_epoch z Hz) as Hy.
  destruct (Z.leb_spec 0 (fst (fst (FixedOffsetDate.civilFromDays z)))); [|lia].
  destruct (Z.leb_spec (fst (fst (FixedOffsetDate.civilFromDays z))) 99); [lia|].
  cbn [andb]. rewrite MakeDay_of_day.
  unfold z, FixedOffsetDate.Day, FixedOffsetDate.msPerDay. lia.
Qed.

(** X10: in a zone with a constant offset, the rows of the archive and the
    samples of the API whose local time is at or after the epoch are
    grouped by local calendar day: the key is the start of the local day,
    and two instants have one key exactly when they are in one local
    day. *)
Theorem fixed_zone_day_grouping (t1 t2 : Z) :
  0 <= t1 + LocalTZA -> 0 <= t2 + LocalTZA ->
  @dayKeyOf (FixedOffsetDate.zone LocalTZA) t1 <= t1 < @dayKeyOf (FixedOffsetDate.zone LocalTZA) t1 + 86400000 /\
  @dayKeyOf (FixedOffsetDate.zone LocalTZA) t1 = @setHours (FixedOffsetDate.zone LocalTZA) t1 0 0 0 0 /\
  (@dayKeyOf (FixedOffsetDate.zone LocalTZA) t1 = @dayKeyOf (FixedOffsetDate.zone LocalTZA) t2 <->
   (t1 + LocalTZA) / 86400000 = (t2 + LocalTZA) / 86400000).
Proof.
  intros H1 H2. rewrite !fixed_zone_dayKeyOf by assumption.
  rewrite fixed_zone_setHours.
  split; [euclid|]. split; [reflexivity|]. split; intros H; [|rewrite H; reflexivity].
  lia.
Qed.

Lemma fixed_zone_week (t : Z) :
  @bucketKey (FixedOffsetDate.zone LocalTZA) Week t =
  ((t + LocalTZA) / 86400000 - ((t + LocalTZA) / 86400000 + 3) mod 7) * 86400000
  - LocalTZA.
Proof.
  unfold bucketKey. rewrite fixed_zone_setHours.
  cbn [setDate getDay getDate FixedOffsetDate.zone].
  unfold FixedOffsetDate.YearFromTime, FixedOffsetDate.MonthFromTime, FixedOffsetDate.DateFromTime, FixedOffsetDate.WeekDay, FixedOffsetDate.LocalTime, FixedOffsetDate.UTC,
    FixedOffsetDate.MakeDate, FixedOffsetDate.TimeWithinDay.
  set (lt := t + LocalTZA).
  rewrite MakeDay_of_day.
  set (dd := snd (FixedOffsetDate.civilFromDays (FixedOffsetDate.Day lt))).
  unfold FixedOffsetDate.Day, FixedOffsetDate.msPerDay in *.
  set (z := lt / 86400000).
  destruct (Z.eqb_spec ((z + 4) mod 7) 0) as [Hsun|Hsun].
  - replace ((z - dd + (dd - (z + 4) mod 7 + -6)) * 86400000 + lt mod 86400000
             - LocalTZA + LocalTZA)
      with ((z - 6) * 86400000 + lt mod 86400000) by lia.
    replace (((z - 6) * 86400000 + lt mod 86400000) / 86400000) with (z - 6)
      by euclid.
    replace ((z + 3) mod 7) with 6 by euclid. reflexivity.
  - replace ((z - dd + (dd - (z + 4) mod 7 + 1)) * 86400000 + lt mod 86400000
             - LocalTZA + LocalTZA)
      with ((z - (z + 4) mod 7 + 1) * 86400000 + lt mod 86400000) by lia.
    replace (((z - (z + 4) mod 7 + 1) * 86400000 + lt mod 86400000) / 86400000)
      with (z - (z + 4) mod 7 + 1) by euclid.
    replace ((z + 3) mod 7) with ((z + 4) mod 7 - 1) by euclid. f_equal. lia.
Qed.

(** X11: in a zone with a constant offset, the key of a point under each
    interval type is the start of the hour, of the local day, of the week
    or of the month of the point: it is at most the timestamp, which is
    less than an hour, a day, seven days or 31 days after it; the start of
    a week is the midnight that begins a Monday. *)
Theorem fixed_zone_bucket_bounds (t : Z) :
  (@bucketKey (FixedOffsetDate.zone LocalTZA) Hour t <= t
     < @bucketKey (FixedOffsetDate.zone LocalTZA) Hour t + 3600000) /\
  (@bucketKey (FixedOffsetDate.zone LocalTZA) Day t <= t
     < @bucketKey (FixedOffsetDate.zone LocalTZA) Day t + 86400000) /\
  (@bucketKey (FixedOffsetDate.zone LocalTZA) Week t <= t
     < @bucketKey (FixedOffsetDate.zone LocalTZA) Week t + 7 * 86400000) /\
  @getDay (FixedOffsetDate.zone LocalTZA) (@bucketKey (FixedOffsetDate.zone LocalTZA) Week t) = 1 /\
  @setHours (FixedOffsetDate.zone LocalTZA) (@bucketKey (FixedOffsetDate.zone LocalTZA) Week t) 0 0 0 0 =
    @bucketKey (FixedOffsetDate.zone LocalTZA) Week t /\
  (0 <= t + LocalTZA ->
   @bucketKey (FixedOffsetDate.zone LocalTZA) Month t <= t
     < @bucketKey (FixedOffsetDate.zone LocalTZA) Month t + 31 * 86400000).
Proof.
  split; [|split; [|split; [|split; [|split]]]].
  - unfold bucketKey. cbn [setMinutes FixedOffsetDate.zone].
    unfold FixedOffsetDate.UTC, FixedOffsetDate.MakeDate, FixedOffsetDate.MakeTime, FixedOffsetDate.HourFromTime, FixedOffsetDate.Day, FixedOffsetDate.LocalTime, FixedOffsetDate.msPerDay,
      FixedOffsetDate.msPerHour, FixedOffsetDate.msPerMinute, FixedOffsetDate.msPerSecond.
    euclid.
  - unfold bucketKey. rewrite fixed_zone_setHours. euclid.
  - rewrite fixed_zone_week. euclid.
  - rewrite fixed_zone_week. cbn [getDay FixedOffsetDate.zone].
    unfold FixedOffsetDate.WeekDay, FixedOffsetDate.Day, FixedOffsetDate.LocalTime, FixedOffsetDate.msPerDay.
    set (z := (t + LocalTZA) / 86400000).
    replace ((z - (z + 3) mod 7) * 86400000 - LocalTZA + LocalTZA)
      with ((z - (z + 3) mod 7) * 86400000) by lia.
    rewrite Z.div_mul by lia. euclid.
  - rewrite fixed_zone_week, fixed_zone_setHours.
    set (z := (t + LocalTZA) / 86400000).
    replace ((z - (z + 3) mod 7) * 86400000 - LocalTZA + LocalTZA)
      with ((z - (z + 3) mod 7) * 86400000) by lia.
    rewrite Z.div_mul by lia. reflexivity.
  - intros Ht. unfold bucketKey. cbn [newDate getFullYear getMonth FixedOffsetDate.zone].
    unfold FixedOffsetDate.YearFromTime, FixedOffsetDate.MonthFromTime, FixedOffsetDate.LocalTime, FixedOffsetDate.UTC, FixedOffsetDate.MakeDate.
    set (z := FixedOffsetDate.Day (t + LocalTZA)).
    assert (Hz : 0 <= z) by (unfold z, FixedOffsetDate.Day, FixedOffsetDate.msPerDay; euclid).
    pose proof (civil_year_after_epoch z Hz) as Hy.
    destruct (civil_roundtrip z) as [_ [_ Hd]].
    destruct (Z.leb_spec 0 (fst (fst (FixedOffsetDate.civilFromDays z)))); [|lia].
    destruct (Z.leb_spec (fst (fst (FixedOffsetDate.civilFromDays z))) 99); [lia|].
    cbn [andb]. rewrite MakeDay_of_day.
    unfold z, FixedOffsetDate.Day, FixedOffsetDate.msPerDay in *. euclid.
Qed.

End FixedZoneCalendar.

(* ================================================================== *)
(** ** More about the reconciliation *)

Section ReconcileMore.
Context {date : DateEnv}.

(** A failed load of the archive is what every later load returns. *)
Lemma loadCSVData_failed_again (env env' : Env) (st st1 : State) (e : Message) :
  loadCSVData env st = (Err e, st1) ->
  loadCSVData env' st1 = (Err e, st1).
Proof.
  unfold loadCSVData.
  destruct (static_csvData st) as [d|] eqn:Ed; [discriminate|].
  destruct (static_loadingPromise st) as [p|] eqn:Ep.
  - intros [= -> <-]. rewrite Ed, Ep. reflexivity.
  - destruct (csvResponse env); [discriminate|].
    intros [= <- <-]. reflexivity.
Qed.

(** The result of a call when the archive cannot be loaded, when the store
    cannot be read, and when the archive is empty. *)
Lemma fetchCombinedData_load_failed (env : Env) (forceFetch : bool)
    (st st1 : State) (e : Message) :
  loadCSVData env st = (Err e, st1) ->
  fetchCombinedData env forceFetch st =
  ({| data := []; source := ERROR; error := Some e; missingDays := 0 |}, st1).
Proof.
  intros Hload.
  unfold fetchCombinedData, fetchCombinedTry, bind, withMissingDays.
  rewrite Hload. rewrite (loadCSVData_failed_again env env st st1 e Hload).
  reflexivity.
Qed.

Lemma fetchCombinedData_store_failed (env : Env) (forceFetch : bool)
    (st st1 : State) (csvData : list DailyRecord) (e : Message) :
  loadCSVData env st = (Ok csvData, st1) ->
  dbError env = Some e ->
  fetchCombinedData env forceFetch st =
  ({| data := csvData; source := CSV_ONLY; error := Some e; missingDays := 0 |},
   st1).
Proof.
  intros Hload Hdb.
  assert (Hagain : loadCSVData env st1 = (Ok csvData, st1))
    by (eapply loadCSVData_again; [exact Hload | reflexivity | reflexivity]).
  unfold fetchCombinedData, fetchCombinedTry, bind, withMissingDays.
  rewrite Hload. unfold getAllDailyPrices. rewrite Hdb. rewrite Hagain.
  reflexivity.
Qed.

Lemma fetchCombinedData_archive_empty (env : Env) (forceFetch : bool)
    (st st1 : State) :
  loadCSVData env st = (Ok [], st1) ->
  dbError env = None ->
  fetchCombinedData env forceFetch st =
  ({| data := []; source := CSV_ONLY; error := Some UndefinedTimestampMessage;
      missingDays := 0 |}, st1).
Proof.
  intros Hload Hdb.
  assert (Hagain : loadCSVData env st1 = (Ok [], st1))
    by (eapply loadCSVData_again; [exact Hload | reflexivity | reflexivity]).
  unfold fetchCombinedData, fetchCombinedTry, bind, withMissingDays.
  rewrite Hload. unfold getAllDailyPrices. rewrite Hdb.
  cbn [lastRecord throw]. rewrite Hagain. reflexivity.
Qed.

(** The four ways a call can go. *)
Lemma call_shape (env : Env) (st : State) :
  (exists e st1, loadCSVData env st = (Err e, st1)) \/
  (exists csvData st1 e,
     loadCSVData env st = (Ok csvData, st1) /\ dbError env = Some e) \/
  (exists st1, loadCSVData env st = (Ok [], st1) /\ dbError env = None) \/
  (exists first rest st1,
     loadCSVData env st = (Ok (first :: rest), st1) /\ dbError env = None).
Proof.
  destruct (loadCSVData env st) as [[csvData|e] st1] eqn:Hload.
  - destruct (dbError env) as [e|] eqn:Hdb.
    + right; left. exists csvData, st1, e. auto.
    + destruct csvData as [|first rest].
      * right; right; left. exists st1. auto.
      * right; right; right. exists first, rest, st1. auto.
  - left. exists e, st1. reflexivity.
Qed.

(** Case analysis on the way a call goes, the call rewritten in each
    case. *)
Ltac by_shape env forceFetch st :=
  let e := fresh "e" in
  let st1 := fresh "st1" in
  let csvData := fresh "csvData" in
  let first := fresh "first" in
  let rest := fresh "rest" in
  let Hload := fresh "Hload" in
  let Hdb := fresh "Hdb" in
  destruct (call_shape env st)
    as [[e [st1 Hload]]
       |[[csvData [st1 [e [Hload Hdb]]]]
        |[[st1 [Hload Hdb]]
         |[first [rest [st1 [Hload Hdb]]]]]]];
  [ rewrite (fetchCombinedData_load_failed env forceFetch st st1 e Hload)
  | rewrite (fetchCombinedData_store_failed env forceFetch st st1 csvData e Hload Hdb)
  | rewrite (fetchCombinedData_archive_empty env forceFetch st st1 Hload Hdb)
  | let Hrun := fresh "Hrun" in
    pose proof (fetchCombinedData_loaded env forceFetch st Hload Hdb) as Hrun;
    cbv zeta in Hrun; rewrite Hrun; clear Hrun ].

(** X12: a call never reports the source [ERROR] with data, the sources
    [LIVE_API], [FETCHING] or [CSV_AND_CACHE] with an error, [LIVE_API]
    with missing days or without data, or [CSV_AND_CACHE] with missing
    days; it reports [ERROR] exactly when the archive cannot be loaded. *)
Theorem fetchCombinedData_status (env : Env) (forceFetch : bool) (st : State) :
  let result := fst (fetchCombinedData env forceFetch st) in
  (source result = ERROR ->
   data result = [] /\ missingDays result = 0 /\ error result <> None) /\
  (source result = LIVE_API ->
   error result = None /\ missingDays result = 0 /\ data result <> []) /\
  (source result = FETCHING -> error result = None) /\
  (source result = CSV_AND_CACHE ->
   error result = None /\ missingDays result <= 0 /\ forceFetch = false) /\
  (error result <> None -> source result = CSV_ONLY \/ source result = ERROR) /\
  (source result = ERROR <->
   exists e, fst (loadCSVData env st) = Err e).
Proof.
  intros result. unfold result. by_shape env forceFetch st.
  - cbn. rewrite Hload. cbn.
    repeat split; try discriminate; try congruence; eauto.
  - cbn. rewrite Hload. cbn.
    repeat split; try discriminate; try congruence; auto.
    intros [e' He']. discriminate He'.
  - cbn. rewrite Hload. cbn.
    repeat split; try discriminate; try congruence; auto.
    intros [e' He']. discriminate He'.
  - rewrite Hload. cbn [fst].
    set (T := lastTimestampOf (last rest first) (db st1)).
    destruct (0 <? daysSince (now env) T) eqn:Hd; cbn [orb].
    + destruct (api env _ _) as [e|status prices].
      * cbn. repeat split; try discriminate; try congruence; auto.
        intros [e' He']. discriminate He'.
      * destruct (response_ok status).
        -- destruct (0 <? length (dailyFromPrices prices))%nat eqn:Hn;
             cbn [fst data source error missingDays].
           ++ repeat split; try discriminate; try congruence; auto.
              ** intros Hnil.
                 assert (Hin : In first (mergeNew (mergeCached (first :: rest) (db st1))
                                           (dailyFromPrices prices))).
                 { unfold mergeNew. apply merge_In. left.
                   unfold mergeCached. apply merge_In. left. left. reflexivity. }
                 rewrite Hnil in Hin. destruct Hin.
              ** intros [e' He']. discriminate He'.
           ++ repeat split; try discriminate; try congruence; auto.
              intros [e' He']. discriminate He'.
        -- cbn. repeat split; try discriminate; try congruence; auto.
           intros [e' He']. discriminate He'.
    + destruct forceFetch.
      * destruct (api env _ _) as [e|status prices].
        -- cbn. repeat split; try discriminate; try congruence; auto.
           intros [e' He']. discriminate He'.
        -- destruct (response_ok status).
           ++ destruct (0 <? length (dailyFromPrices prices))%nat eqn:Hn;
                cbn [fst data source error missingDays].
              ** repeat split; try discriminate; try congruence; auto.
                 --- intros Hnil.
                     assert (Hin : In first (mergeNew (mergeCached (first :: rest) (db st1))
                                               (dailyFromPrices prices))).
                     { unfold mergeNew. apply merge_In. left.
                       unfold mergeCached. apply merge_In. left. left. reflexivity. }
                     rewrite Hnil in Hin. destruct Hin.
                 --- intros [e' He']. discriminate He'.
              ** repeat split; try discriminate; try congruence; auto.
                 intros [e' He']. discriminate He'.
           ++ cbn. repeat split; try discriminate; try congruence; auto.
              intros [e' He']. discriminate He'.
      * apply Z.ltb_ge in Hd.
        cbn [fst data source error missingDays].
        destruct (length (first :: rest) <? length (db st1))%nat;
          repeat split; try discriminate; try congruence; auto;
          intros [e' He']; discriminate He'.
Qed.

(** X13: the outcome of the first load of the archive, a series or an
    error, is the outcome of every later load, whatever the file then
    holds, and a later load changes nothing. *)
Theorem loadCSVData_once (env env' : Env) (st st1 : State)
    (outcome : Result Message (list DailyRecord)) :
  static_csvData st = None ->
  static_loadingPromise st = None ->
  loadCSVData env st = (outcome, st1) ->
  loadCSVData env' st1 = (outcome, st1) /\
  outcome = match csvResponse env with
            | Ok lines => Ok (parseCSV lines)
            | Err e => Err e
            end.
Proof.
  intros Hc Hp Hload. destruct outcome as [csvData|e].
  - split; [eapply loadCSVData_again; [exact Hload | reflexivity | reflexivity]|].
    unfold loadCSVData in Hload. rewrite Hc, Hp in Hload.
    destruct (csvResponse env); congruence.
  - split; [apply (loadCSVData_failed_again env env' st st1 e Hload)|].
    unfold loadCSVData in Hload. rewrite Hc, Hp in Hload.
    destruct (csvResponse env); congruence.
Qed.

(** X14: when the first load of the archive fails, the call returns the
    empty series under the source [ERROR] with the message of the failure,
    without a request to the API or a write, and so does every later call,
    even when the file can then be fetched. *)
Theorem fetchCombinedData_load_failure_sticky (env : Env) (forceFetch : bool)
    (st : State) (e : Message) :
  static_csvData st = None ->
  static_loadingPromise st = None ->
  csvResponse env = Err e ->
  let failed := {| data := []; source := ERROR; error := Some e;
                   missingDays := 0 |} in
  let st1 := snd (fetchCombinedData env forceFetch st) in
  fst (fetchCombinedData env forceFetch st) = failed /\
  apiCalls st1 = apiCalls st /\ db st1 = db st /\ dbWrites st1 = dbWrites st /\
  (forall env' forceFetch',
     fetchCombinedData env' forceFetch' st1 = (failed, st1)).
Proof.
  intros Hc Hp Hresp failed st1.
  assert (Hload : loadCSVData env st =
                  (Err e, mkState None (Some (Err e)) (db st) (dbWrites st)
                                  (apiCalls st))).
  { unfold loadCSVData. rewrite Hc, Hp, Hresp. reflexivity. }
  unfold st1. rewrite (fetchCombinedData_load_failed env forceFetch st _ e Hload).
  cbn [fst snd apiCalls db dbWrites].
  split; [reflexivity|]. split; [reflexivity|]. split; [reflexivity|].
  split; [reflexivity|].
  intros env' forceFetch'.
  apply fetchCombinedData_load_failed.
  apply (loadCSVData_failed_again env env' st _ e Hload).
Qed.

(** X15: when the archive loads and the store cannot be read, the call
    returns the archive alone under the source [CSV_ONLY] with the error of
    the store and 0 missing days; it sends no request, even when the fetch
    is forced. *)
Theorem fetchCombinedData_store_unreadable (env : Env) (forceFetch : bool)
    (st st1 : State) (csvData : list DailyRecord) (e : Message) :
  loadCSVData env st = (Ok csvData, st1) ->
  dbError env = Some e ->
  let result := fst (fetchCombinedData env forceFetch st) in
  let st' := snd (fetchCombinedData env forceFetch st) in
  data result = csvData /\ source result = CSV_ONLY /\
  error result = Some e /\ missingDays result = 0 /\
  apiCalls st' = apiCalls st /\ db st' = db st /\ dbWrites st' = dbWrites st.
Proof.
  intros Hload Hdb result st'. unfold result, st'.
  rewrite (fetchCombinedData_store_failed env forceFetch st st1 csvData e Hload Hdb).
  destruct (loadCSVData_logs _ _ Hload) as [H1 [H2 H3]].
  cbn. repeat split; auto.
Qed.


Lemma loadCSVData_memo_kept (env : Env) (st st1 : State)
    (outcome : Result Message (list DailyRecord)) (d : list DailyRecord) :
  static_csvData st = Some d ->
  loadCSVData env st = (outcome, st1) ->
  static_csvData st1 = Some d.
Proof.
  unfold loadCSVData. intros Hd. rewrite Hd. intros [= _ <-]. exact Hd.
Qed.

Lemma snoc_differs (A : Type) (l : list A) (a : A) : l ++ [a] <> l.
Proof.
  intros H. apply (f_equal (@length A)) in H.
  rewrite length_app in H. simpl in H. lia.
Qed.

Lemma recordAt_rev_ascending (series : list DailyRecord) (r : DailyRecord) :
  ascending series -> In r series ->
  recordAt (timestamp r) (rev series) = Some r.
Proof.
  intros Hasc Hin. unfold recordAt.
  destruct (find (fun r0 => timestamp r0 =? timestamp r) (rev series))
    as [r'|] eqn:E.
  - apply find_some in E. destruct E as [Hin' Hk]. apply Z.eqb_eq in Hk.
    apply in_rev in Hin'. f_equal.
    exact (@ascending_unique series r' r Hasc Hin' Hin Hk).
  - apply in_rev in Hin. apply (find_none _ _ E) in Hin.
    rewrite Z.eqb_refl in Hin. discriminate.
Qed.

(** X17: a fetch logs its request and either fails without touching the
    store, or returns the daily records of the response after writing them
    in one batch, each of them then being the record of its timestamp in
    the store.  It fails when the request is rejected, when the status is
    not a success, and when the store cannot be opened. *)
Theorem fetchMissingDataFromAPI_atomic (env : Env) (fromTimestamp toTimestamp : Z)
    (st : State) :
  let run := fetchMissingDataFromAPI env fromTimestamp toTimestamp st in
  apiCalls (snd run) = apiCalls st ++ [(fromTimestamp / 1000, toTimestamp / 1000)] /\
  match fst run with
  | Ok result =>
      dbError env = None /\
      (exists status prices,
         api env (fromTimestamp / 1000) (toTimestamp / 1000)
           = ApiResponse status prices /\
         response_ok status = true /\
         result = dailyFromPrices prices) /\
      dbWrites (snd run) = dbWrites st ++ [result] /\
      (forall r, In r result ->
         recordAt (timestamp r) (db (snd run)) = Some r)
  | Err _ => db (snd run) = db st /\ dbWrites (snd run) = dbWrites st
  end.
Proof.
  intros run. unfold run, fetchMissingDataFromAPI, bind, fetchApi.
  destruct (api env (fromTimestamp / 1000) (toTimestamp / 1000))
    as [e|status prices] eqn:Hapi.
  - cbn. auto.
  - destruct (response_ok status) eqn:Hok; cbn [negb]; [|cbn; auto].
    unfold saveBulkDailyPrices, ret.
    destruct (dbError env) as [e|] eqn:Hdb; [cbn; auto|].
    cbn [fst snd apiCalls db dbWrites].
    split; [reflexivity|]. split; [reflexivity|].
    split; [exists status, prices; auto|]. split; [reflexivity|].
    intros r Hr. rewrite recordAt_putAll.
    rewrite (recordAt_rev_ascending _ r (dailyFromPrices_ascending prices) Hr).
    reflexivity.
Qed.

(** X18: a call never removes a key from the store and keeps its keys in
    strictly ascending order; it writes at most one batch, and without a
    batch the store is as before; it keeps the archive that is loaded. *)
Theorem fetchCombinedData_keeps_store (env : Env) (forceFetch : bool) (st : State) :
  ascending (db st) ->
  let st' := snd (fetchCombinedData env forceFetch st) in
  ascending (db st') /\
  (forall key, In key (map timestamp (db st)) -> In key (map timestamp (db st'))) /\
  (dbWrites st' = dbWrites st \/
   exists batch, dbWrites st' = dbWrites st ++ [batch]) /\
  (dbWrites st' = dbWrites st -> db st' = db st) /\
  (forall d, static_csvData st = Some d -> static_csvData st' = Some d).
Proof.
  intros Hasc st'. unfold st'. by_shape env forceFetch st;
    destruct (loadCSVData_logs _ _ Hload) as [H1 [H2 H3]];
    pose proof (fun d Hd => loadCSVData_memo_kept env st _ _ d Hd Hload) as Hmemo.
  1-3: cbn [snd]; rewrite H1, H2; repeat split; auto.
  destruct (_ || forceFetch).
  - destruct (api env _ _) as [e|status prices].
    + cbn. rewrite H1, H2. repeat split; auto.
    + destruct (response_ok status).
      * cbn [snd db dbWrites static_csvData]. rewrite H1, H2.
        split; [apply putAll_ascending, Hasc|].
        split; [intros key Hk; apply putAll_timestamps; right; exact Hk|].
        split; [right; eexists; reflexivity|].
        split; [intros H; apply snoc_differs in H; destruct H | exact Hmemo].
      * cbn. rewrite H1, H2. repeat split; auto.
  - cbn [snd]. rewrite H1, H2. repeat split; auto.
Qed.

(** X19: when the fetch is attempted and the API answers with samples, the
    call reports [LIVE_API] with no missing day and no error; its series is
    the merged series with the fetched daily records of the timestamps that
    the merged series lacks; every fetched record is written to the store,
    in one batch, and is then the record of its timestamp there. *)
Theorem fetchCombinedData_live (env : Env) (forceFetch : bool) (st st1 : State)
    (first : DailyRecord) (rest : list DailyRecord)
    (status : Z) (prices : list (Z * Q)) :
  loadCSVData env st = (Ok (first :: rest), st1) ->
  dbError env = None ->
  let T := lastTimestampOf (last rest first) (db st) in
  0 < daysSince (now env) T \/ forceFetch = true ->
  api env ((T + oneDayMs) / 1000) (now env / 1000) = ApiResponse status prices ->
  response_ok status = true ->
  prices <> [] ->
  let merged := mergeCached (first :: rest) (db st) in
  let newData := dailyFromPrices prices in
  let result := fst (fetchCombinedData env forceFetch st) in
  let st' := snd (fetchCombinedData env forceFetch st) in
  source result = LIVE_API /\ error result = None /\ missingDays result = 0 /\
  (forall r, In r (data result) <->
     In r merged \/
     (In r newData /\ ~ In (timestamp r) (map timestamp merged))) /\
  (forall r, In r newData -> recordAt (timestamp r) (db st') = Some r) /\
  dbWrites st' = dbWrites st ++ [newData].
Proof.
  intros Hload Hdb T Hfetch Hapi Hok Hprices merged newData result st'.
  destruct (loadCSVData_logs _ _ Hload) as [H1 [H2 H3]].
  unfold result, st'.
  pose proof (fetchCombinedData_loaded env forceFetch st Hload Hdb) as Hrun.
  cbv zeta in Hrun. rewrite Hrun. clear Hrun.
  rewrite H1, H2. fold T.
  assert (Hcond : (0 <? daysSince (now env) T) || forceFetch = true).
  { destruct Hfetch as [Hd| ->]; [|apply orb_true_r].
    apply orb_true_iff; left. apply Z.ltb_lt, Hd. }
  rewrite Hcond, Hapi, Hok. fold newData merged.
  assert (Hnew : (0 <? length newData)%nat = true).
  { apply Nat.ltb_lt. destruct prices as [|sample prices']; [contradiction|].
    assert (Hkey : In (sampleDayKey sample) (map timestamp newData)).
    { unfold newData. rewrite dailyFromPrices_grouped.
      apply groupedSeries_timestamps; [reflexivity | reflexivity|].
      left; reflexivity. }
    destruct newData; [destruct Hkey | simpl; lia]. }
  rewrite Hnew. cbn [fst snd source error missingDays data db dbWrites].
  split; [reflexivity|]. split; [reflexivity|]. split; [reflexivity|].
  split; [intros r; unfold mergeNew; apply merge_In|].
  split; [|reflexivity].
  intros r Hr. unfold newData in *. rewrite recordAt_putAll.
  rewrite (recordAt_rev_ascending _ r (dailyFromPrices_ascending prices) Hr).
  reflexivity.
Qed.

Lemma status_core (env : Env) (forceFetch : bool) (st : State) :
  let result := fst (fetchCombinedData env forceFetch st) in
  (source result = LIVE_API -> missingDays result = 0 /\ error result = None) /\
  (source result = CSV_AND_CACHE -> missingDays result <= 0) /\
  (source result = ERROR -> missingDays result = 0 /\ data result = []).
Proof.
  intros result. unfold result. by_shape env forceFetch st.
  1-3: cbn; repeat split; intros; try discriminate; auto.
  set (T := lastTimestampOf (last rest first) (db st1)).
  destruct ((0 <? daysSince (now env) T) || forceFetch) eqn:Hcond.
  - destruct (api env _ _) as [e|status prices];
      [cbn; repeat split; intros; discriminate|].
    destruct (response_ok status);
      [|cbn; repeat split; intros; discriminate].
    destruct (0 <? length (dailyFromPrices prices))%nat;
      cbn [fst source missingDays error data];
      repeat split; intros; try discriminate; auto.
  - apply orb_false_iff in Hcond. destruct Hcond as [Hd _].
    apply Z.ltb_ge in Hd.
    cbn [fst source missingDays error data].
    destruct (length (first :: rest) <? length (db st1))%nat;
      repeat split; intros; try discriminate; auto.
Qed.

Lemma badge_and_button (result : FetchResult) (current : DailyRecord)
    (view : CardView) :
  (source result = LIVE_API -> missingDays result = 0 /\ error result = None) ->
  (source result = CSV_AND_CACHE -> missingDays result <= 0) ->
  PriceCard (Some current) false (statusOf result) = Some view ->
  (card_button view = Some false <->
   card_badge view = BehindBadge (missingDays result)) /\
  (card_badge view = UpToDateBadge ->
   error result = None /\ card_button view = None) /\
  (card_badge view = CurrentBadge -> card_button view = None).
Proof.
  intros Hlive Hcache Hview. injection Hview as <-.
  unfold statusOf, StatusBadge.
  cbn [status_source status_error status_missingDays card_badge card_button].
  destruct (source result) eqn:Hs.
  - destruct (0 <? missingDays result);
      repeat split; intros; try discriminate; auto.
  - specialize (Hcache eq_refl). apply Z.ltb_ge in Hcache. rewrite Hcache.
    repeat split; intros; try discriminate; auto.
  - destruct (Hlive eq_refl) as [-> ->].
    repeat split; intros; try discriminate; auto.
  - destruct (0 <? missingDays result);
      repeat split; intros; try discriminate; auto.
  - destruct (0 <? missingDays result);
      repeat split; intros; try discriminate; auto.
Qed.

(** X20: after [loadData], the price card is rendered exactly when the
    series is not empty; a call that could not load the archive (source
    [ERROR]) leaves an empty series, so that no card, hence neither the
    badge nor the button, is rendered; on a rendered card the button
    "Update Missing N Days" is rendered and enabled exactly when the badge
    is "N d Behind", the badges "Up to Date" and "Current" come without the
    button, and "Up to Date" without an error. *)
Theorem loadData_price_card (env : Env) (forceFetch : bool) (st : State) :
  let allData := fst (fst (loadData env forceFetch st)) in
  let fetchStatus := snd (fst (loadData env forceFetch st)) in
  let card := PriceCard (currentData allData) false fetchStatus in
  (card = None <-> allData = []) /\
  (status_source fetchStatus = Some ERROR -> card = None) /\
  (forall view, card = Some view ->
     (card_button view = Some false <->
      card_badge view = BehindBadge (status_missingDays fetchStatus)) /\
     (card_badge view = UpToDateBadge ->
      status_error fetchStatus = None /\ card_button view = None) /\
     (card_badge view = CurrentBadge -> card_button view = None)).
Proof.
  intros allData fetchStatus card.
  pose proof (status_core env forceFetch st) as Hcore. cbv zeta in Hcore.
  unfold card, allData, fetchStatus, loadData.
  destruct (fetchCombinedData env forceFetch st) as [result st'].
  cbn [fst snd] in *.
  destruct Hcore as [Hlive [Hcache Herr]].
  split; [|split].
  - destruct (data result) as [|first rest]; cbn [currentData PriceCard];
      split; intros H; try reflexivity; discriminate H.
  - intros Hs. cbn in Hs.
    assert (He : source result = ERROR) by congruence.
    destruct (Herr He) as [_ ->]. reflexivity.
  - intros view Hview.
    destruct (currentData (data result)) as [current|]; [|discriminate Hview].
    exact (badge_and_button result current view Hlive Hcache Hview).
Qed.

End ReconcileMore.

(* ================================================================== *)
(** ** The views *)

Lemma StronglySorted_snoc (A : Type) (R : A -> A -> Prop) (l : list A) (a : A) :
  StronglySorted R l -> Forall (fun x => R x a) l -> StronglySorted R (l ++ [a]).
Proof.
  induction 1 as [|b l Hs IH Hb]; intros Ha; simpl.
  - constructor; constructor.
  - inversion Ha as [|? ? Hba Ha']; subst.
    constructor; [apply IH, Ha'|].
    apply Forall_app. split; [exact Hb | constructor; [exact Hba | constructor]].
Qed.

Lemma StronglySorted_rev (A : Type) (R : A -> A -> Prop) (l : list A) :
  StronglySorted R l -> StronglySorted (fun a b => R b a) (rev l).
Proof.
  induction 1 as [|a l Hs IH Ha]; simpl; [constructor|].
  apply StronglySorted_snoc; [exact IH|].
  apply Forall_forall. intros x Hx. apply in_rev in Hx.
  rewrite Forall_forall in Ha. apply Ha, Hx.
Qed.

Lemma StronglySorted_filter (A : Type) (R : A -> A -> Prop) (f : A -> bool)
    (l : list A) :
  StronglySorted R l -> StronglySorted R (filter f l).
Proof.
  induction 1 as [|a l Hs IH Ha]; simpl; [constructor|].
  destruct (f a); [|exact IH].
  constructor; [exact IH|].
  apply Forall_forall. intros x Hx. apply filter_In in Hx.
  rewrite Forall_forall in Ha. apply Ha, Hx.
Qed.

Lemma last_In (A : Type) (first : A) (rest : list A) :
  In (last rest first) (first :: rest).
Proof.
  destruct rest as [|b rest']; [left; reflexivity|].
  destruct (@exists_last _ (b :: rest')) as [l0 [z Hz]]; [discriminate|].
  rewrite Hz, last_last. right. apply in_or_app.
  right; left; reflexivity.
Qed.

Lemma rev_starts_with_last (A : Type) (first : A) (rest : list A) :
  exists l, rev (first :: rest) = last rest first :: l.
Proof.
  destruct rest as [|b rest']; [exists []; reflexivity|].
  destruct (@exists_last _ (b :: rest')) as [l0 [z Hz]]; [discriminate|].
  rewrite Hz, last_last.
  change (first :: l0 ++ [z]) with ((first :: l0) ++ [z]).
  rewrite rev_app_distr. simpl. eexists. reflexivity.
Qed.

Lemma find_first (A : Type) (f : A -> bool) (l : list A) (p : A) :
  find f l = Some p ->
  exists l1 l2, l = l1 ++ p :: l2 /\ forall x, In x l1 -> f x = false.
Proof.
  induction l as [|a l IH]; simpl; [discriminate|].
  destruct (f a) eqn:Ha.
  - intros [= ->]. exists [], l. split; [reflexivity | intros x []].
  - intros H. destruct (IH H) as [l1 [l2 [-> Hl1]]].
    exists (a :: l1), l2. split; [reflexivity|].
    intros x [<-|Hx]; auto.
Qed.

(** X21: for a series in ascending order and a duration of
    [LOG_DURATIONS], the log shows, newest first, the records that are at
    most the duration older than the newest record, which is always
    shown; for an identifier that is not in [LOG_DURATIONS] it shows
    nothing. *)
Theorem filteredData_window (first : DailyRecord) (rest : list DailyRecord)
    (duration : LogDuration) :
  ascending (first :: rest) ->
  In duration LOG_DURATIONS ->
  let newest := last rest first in
  let out := filteredData (Some (first :: rest)) (duration_id duration) in
  StronglySorted (fun a b => timestamp b < timestamp a) out /\
  hd_error out = Some newest /\
  (forall r, In r out <->
     In r (first :: rest) /\
     timestamp newest - duration_ms duration <= timestamp r) /\
  (forall durationId,
     (forall d, In d LOG_DURATIONS -> duration_id d <> durationId) ->
     filteredData (Some (first :: rest)) durationId = []).
Proof.
  intros Hasc Hdur newest out.
  assert (Hfind : find (fun d => String.eqb (duration_id d) (duration_id duration))
                       LOG_DURATIONS = Some duration /\ 0 < duration_ms duration).
  { destruct Hdur as [<-|[<-|[<-|[]]]]; split; reflexivity. }
  destruct Hfind as [Hfind Hms].
  unfold out, filteredData. rewrite Hfind. fold newest.
  set (cutoff := timestamp newest - duration_ms duration).
  split; [|split; [|split]].
  - apply (StronglySorted_rev _ (fun a b => timestamp a < timestamp b)).
    apply StronglySorted_filter. exact Hasc.
  - rewrite <- filter_rev.
    destruct (rev_starts_with_last _ first rest) as [l Hl].
    rewrite Hl. fold newest. cbn [filter].
    replace (cutoff <=? timestamp newest) with true; [reflexivity|].
    symmetry. apply Z.leb_le. unfold cutoff. lia.
  - intros r. rewrite <- in_rev, filter_In, Z.leb_le. tauto.
  - intros durationId Hnone.
    destruct (find (fun d => String.eqb (duration_id d) durationId) LOG_DURATIONS)
      as [d|] eqn:E; [|reflexivity].
    apply find_some in E. destruct E as [Hin Heq].
    apply String.eqb_eq in Heq. exfalso. exact (Hnone d Hin Heq).
Qed.

(** X22: for a series in ascending order, the previous record of the price
    card is the earliest record that is at most one day older than the
    current, newest, record: it always exists, and is the current record
    itself when no other record is that recent. *)
Theorem previousData_earliest (first : DailyRecord) (rest : list DailyRecord) :
  ascending (first :: rest) ->
  let allData := first :: rest in
  let current := last rest first in
  currentData allData = Some current /\
  exists previous,
    previousData allData = Some previous /\
    In previous allData /\
    timestamp current - 86400000 <= timestamp previous <= timestamp current /\
    (forall r, In r allData ->
       timestamp current - 86400000 <= timestamp r ->
       timestamp previous <= timestamp r) /\
    ((forall r, In r allData -> r <> current ->
        timestamp r < timestamp current - 86400000) ->
     previous = current).
Proof.
  intros Hasc allData current. split; [reflexivity|].
  unfold previousData, allData. cbn [currentData]. fold current.
  set (f := fun d => timestamp current - 24 * 60 * 60 * 1000 <=? timestamp d).
  assert (Hcur : In current (first :: rest)) by apply last_In.
  assert (Hmax : forall r, In r (first :: rest) -> timestamp r <= timestamp current).
  { intros r Hr.
    apply (sorted_bounds (first :: rest) first r (ascending_sorted Hasc)) in Hr.
    rewrite last_cons in Hr. apply Hr. }
  destruct (find f (first :: rest)) as [p|] eqn:E.
  - exists p. split; [reflexivity|].
    pose proof (find_some _ _ E) as [Hin Hp]. unfold f in Hp.
    apply Z.leb_le in Hp.
    split; [exact Hin|]. split; [split; [lia | apply Hmax, Hin]|].
    destruct (find_first _ f _ p E) as [l1 [l2 [Hl Hl1]]].
    assert (Hlater : forall r, In r l2 -> timestamp p < timestamp r).
    { intros r Hr. unfold ascending in Hasc. rewrite Hl in Hasc.
      clear -Hasc Hr. induction l1 as [|a l1 IH]; simpl in Hasc.
      - inversion Hasc as [|? ? _ Hall]; subst.
        rewrite Forall_forall in Hall. apply Hall, Hr.
      - inversion Hasc; subst. auto. }
    split.
    + intros r Hr Hrecent. rewrite Hl in Hr. apply in_app_or in Hr.
      destruct Hr as [Hr|[<-|Hr]].
      * apply Hl1 in Hr. unfold f in Hr. apply Z.leb_gt in Hr. lia.
      * lia.
      * specialize (Hlater r Hr). lia.
    + intros Hold.
      destruct (Z.eq_dec (timestamp p) (timestamp current)) as [Heq|Hne].
      * exact (@ascending_unique (first :: rest) p current Hasc Hin Hcur Heq).
      * assert (Hpc : p <> current) by congruence.
        specialize (Hold p Hin Hpc). lia.
  - exfalso. apply (find_none _ _ E) in Hcur. unfold f in Hcur.
    apply Z.leb_gt in Hcur. lia.
Qed.

Section ChartFacts.
Context {date : DateEnv}.

(** X23: the chart of a series that is not empty is not empty and is in
    strictly ascending order; its window ends at the newest record of the
    series, not at the clock: it has a point at a key exactly when some
    record at most the days of the range older than the newest record has
    this key under the interval type of the range. *)
Theorem chartData_window (first : DailyRecord) (rest : list DailyRecord)
    (range : TimeRange) :
  let series := first :: rest in
  let newest := last rest first in
  let config := TIME_RANGES range in
  let cutoff := timestamp newest - range_days config * 86400000 in
  let out := chartData (Some series) range in
  ascending out /\
  out <> [] /\
  (forall key,
     In key (map timestamp out) <->
     exists r, In r series /\ cutoff <= timestamp r /\
               pointKey (range_interval config) r = key) /\
  In (pointKey (range_interval config) newest) (map timestamp out) /\
  (length out <= length series)%nat.
Proof.
  intros series newest config cutoff out.
  assert (Hout : out =
            aggregateData
              (Some (filter (fun d => cutoff <=? timestamp d) series))
              (range_interval config)).
  { unfold out, chartData, series. fold newest. fold config.
    replace (timestamp newest - range_days config * 24 * 60 * 60 * 1000)
      with cutoff by (unfold cutoff; lia).
    reflexivity. }
  assert (Hkeys : forall key,
     In key (map timestamp out) <->
     exists r, In r series /\ cutoff <= timestamp r /\
               pointKey (range_interval config) r = key).
  { intros key. rewrite Hout, aggregateData_timestamps, in_map_iff.
    split.
    - intros [r [Hk Hr]]. apply filter_In in Hr. destruct Hr as [Hr Hc].
      apply Z.leb_le in Hc. exists r. auto.
    - intros [r [Hr [Hc Hk]]]. exists r. split; [exact Hk|].
      apply filter_In. split; [exact Hr | apply Z.leb_le, Hc]. }
  assert (Hnewest : In (pointKey (range_interval config) newest)
                       (map timestamp out)).
  { apply Hkeys. exists newest. split; [apply last_In|].
    split; [|reflexivity].
    assert (0 < range_days config) by (destruct range; reflexivity).
    unfold cutoff. lia. }
  split; [rewrite Hout; apply aggregateData_ascending|].
  split; [intros Hnil; rewrite Hnil in Hnewest; destruct Hnewest|].
  split; [exact Hkeys|]. split; [exact Hnewest|].
  rewrite Hout, aggregateData_grouped.
  rewrite (Permutation_length (sortByTimestamp_perm _)).
  unfold Map_values. rewrite length_map.
  eapply Nat.le_trans; [apply grouped_length | apply filter_length_le].
Qed.

End ChartFacts.

(* ================================================================== *)
(** ** The history of the price hook *)

(** X24: the history of the price hook ends with the new point, never has
    more than [MAX_HISTORY_POINTS] points, and drops points only from its
    old end, and only when it is full. *)
Theorem updateHistory_window (A : Type) (prev : list A) (newPoint : A) :
  let updated := updateHistory prev newPoint in
  length updated = Nat.min MAX_HISTORY_POINTS (S (length prev)) /\
  (forall d, last updated d = newPoint) /\
  (exists dropped,
     prev ++ [newPoint] = dropped ++ updated /\
     length dropped = (S (length prev) - MAX_HISTORY_POINTS)%nat) /\
  ((length prev < MAX_HISTORY_POINTS)%nat -> updated = prev ++ [newPoint]).
Proof.
  intros updated. unfold updated, updateHistory, slice_last, MAX_HISTORY_POINTS.
  set (all := prev ++ [newPoint]).
  assert (Hlen : length all = S (length prev))
    by (unfold all; rewrite length_app; simpl; lia).
  split; [rewrite length_skipn; lia|]. split; [|split].
  - intros d.
    assert (Hsplit : all = firstn (length all - 20) all ++ skipn (length all - 20) all)
      by (symmetry; apply firstn_skipn).
    assert (Hne : skipn (length all - 20) all <> []).
    { intros H0. apply (f_equal (@length A)) in H0.
      rewrite length_skipn in H0. simpl in H0. lia. }
    destruct (@exists_last _ _ Hne) as [l0 [z Hz]].
    rewrite Hz, last_last. rewrite Hz in Hsplit.
    unfold all in Hsplit at 1. rewrite app_assoc in Hsplit.
    apply app_inj_tail in Hsplit. symmetry. apply Hsplit.
  - exists (firstn (length all - 20) all).
    split; [symmetry; apply firstn_skipn|].
    rewrite length_firstn. lia.
  - intros Hfew. replace (length all - 20)%nat with 0%nat by lia. reflexivity.
Qed.

(* ================================================================== *)
(** ** Idempotence of the aggregation in a zone with a constant offset *)

Section KeyedSeries.
Context {date : DateEnv}.

(** A series in ascending order whose timestamps are their own keys is its
    own aggregation. *)
Lemma aggregateData_of_keyed (series : list DailyRecord) (intervalType : Interval) :
  Forall (fun r => pointKey intervalType r = timestamp r) series ->
  ascending series ->
  aggregateData (Some series) intervalType = series.
Proof.
  intros Hkeyed Hasc. rewrite aggregateData_grouped.
  rewrite Forall_forall in Hkeyed.
  assert (Hkeys : map (pointKey intervalType) series = map timestamp series)
    by (apply map_ext_in; exact Hkeyed).
  rewrite groupAll_distinct by (rewrite Hkeys; apply ascending_NoDup, Hasc).
  unfold Map_values. rewrite map_map; simpl.
  rewrite map_ext_in with (g := fun r => r).
  - rewrite map_id. apply sortByTimestamp_fixed, ascending_sorted, Hasc.
  - intros r Hr. rewrite (Hkeyed r Hr). apply withTimestamp_same.
Qed.

End KeyedSeries.

Section FixedZoneIdempotence.
Variable LocalTZA : Z.

Lemma fixed_zone_hour (t : Z) :
  @bucketKey (FixedOffsetDate.zone LocalTZA) Hour t =
  (t + LocalTZA) / 3600000 * 3600000 - LocalTZA.
Proof.
  unfold bucketKey. cbn [setMinutes FixedOffsetDate.zone].
  unfold FixedOffsetDate.UTC, FixedOffsetDate.MakeDate, FixedOffsetDate.MakeTime,
    FixedOffsetDate.HourFromTime, FixedOffsetDate.Day, FixedOffsetDate.LocalTime,
    FixedOffsetDate.msPerDay, FixedOffsetDate.msPerHour,
    FixedOffsetDate.msPerMinute, FixedOffsetDate.msPerSecond.
  euclid.
Qed.

Lemma fixed_zone_key_idempotent (intervalType : Interval) (t : Z) :
  intervalType <> Month ->
  @bucketKey (FixedOffsetDate.zone LocalTZA) intervalType
    (@bucketKey (FixedOffsetDate.zone LocalTZA) intervalType t) =
  @bucketKey (FixedOffsetDate.zone LocalTZA) intervalType t.
Proof.
  intros Hm. destruct intervalType; [| | |contradiction].
  - rewrite !fixed_zone_hour.
    replace ((t + LocalTZA) / 3600000 * 3600000 - LocalTZA + LocalTZA)
      with ((t + LocalTZA) / 3600000 * 3600000) by lia.
    rewrite Z.div_mul by lia. reflexivity.
  - apply fixed_zone_setHours_idempotent.
  - rewrite !fixed_zone_week.
    set (z := (t + LocalTZA) / 86400000).
    replace ((z - (z + 3) mod 7) * 86400000 - LocalTZA + LocalTZA)
      with ((z - (z + 3) mod 7) * 86400000) by lia.
    rewrite Z.div_mul by lia.
    replace ((z - (z + 3) mod 7 + 3) mod 7) with 0 by euclid.
    rewrite Z.sub_0_r. reflexivity.
Qed.

(** X25: in a zone with a constant offset, aggregating any series by hour,
    by day or by week a second time changes nothing. *)
Theorem fixed_zone_aggregate_idempotent (series : list DailyRecord)
    (intervalType : Interval) :
  intervalType <> Month ->
  @aggregateData (FixedOffsetDate.zone LocalTZA)
    (Some (@aggregateData (FixedOffsetDate.zone LocalTZA) (Some series)
             intervalType)) intervalType =
  @aggregateData (FixedOffsetDate.zone LocalTZA) (Some series) intervalType.
Proof.
  intros Hm.
  apply aggregateData_of_keyed; [|apply aggregateData_ascending].
  apply Forall_forall. intros g Hg.
  apply (in_map timestamp) in Hg. apply aggregateData_timestamps in Hg.
  apply in_map_iff in Hg. destruct Hg as [point [Hkey _]].
  unfold pointKey at 1. rewrite <- Hkey. unfold pointKey.
  apply fixed_zone_key_idempotent, Hm.
Qed.

End FixedZoneIdempotence.

(* ================================================================== *)
(** ** The roll-ups and the calendar *)

(** In a zone with a constant offset, the keys that the service forms with
    the methods of [Date] are the starts of the calendar buckets. *)
Section CalendarKeys.
Variable LocalTZA : Z.

(** The calendar buckets are what their names say, at every instant: the
    start of a bucket is at or before the instant, which is less than an
    hour, a day, seven days or 31 days after it; it is a full hour, or a
    midnight, of the local clock; the start of a week is a Monday, and the
    start of a month is day 1 of the month and the year of the instant. *)
Lemma bucketStart_calendar (t : Z) :
  (bucketStart LocalTZA Hour t <= t < bucketStart LocalTZA Hour t + 3600000 /\
   (bucketStart LocalTZA Hour t + LocalTZA) mod 3600000 = 0) /\
  (bucketStart LocalTZA Day t <= t < bucketStart LocalTZA Day t + 86400000 /\
   (bucketStart LocalTZA Day t + LocalTZA) mod 86400000 = 0) /\
  (bucketStart LocalTZA Week t <= t
     < bucketStart LocalTZA Week t + 7 * 86400000 /\
   (bucketStart LocalTZA Week t + LocalTZA) mod 86400000 = 0 /\
   daysSinceMonday LocalTZA (bucketStart LocalTZA Week t) = 0) /\
  (bucketStart LocalTZA Month t <= t
     < bucketStart LocalTZA Month t + 31 * 86400000 /\
   (bucketStart LocalTZA Month t + LocalTZA) mod 86400000 = 0 /\
   dayOfMonth LocalTZA (bucketStart LocalTZA Month t) = 1 /\
   fst (FixedOffsetDate.civilFromDays
          (localCalendarDay LocalTZA (bucketStart LocalTZA Month t))) =
   fst (FixedOffsetDate.civilFromDays (localCalendarDay LocalTZA t))).
Proof.
  unfold bucketStart, dayOfMonth, daysSinceMonday, startOfDay, localCalendarDay.
  set (z := (t + LocalTZA) / 86400000).
  destruct (civil_roundtrip z) as [_ [_ Hd]].
  pose proof (civil_first_of_month z) as Hfirst.
  set (dd := snd (FixedOffsetDate.civilFromDays z)) in *.
  assert (Hmonth : (z * 86400000 - LocalTZA - (dd - 1) * 86400000 + LocalTZA)
                     / 86400000 = z - dd + 1).
  { replace (z * 86400000 - LocalTZA - (dd - 1) * 86400000 + LocalTZA)
      with ((z - dd + 1) * 86400000) by lia.
    apply Z.div_mul. lia. }
  repeat split; try (unfold z; euclid).
  - rewrite Hmonth, Hfirst. reflexivity.
  - rewrite Hmonth, Hfirst. reflexivity.
Qed.

Lemma fixed_zone_month (t : Z) :
  0 <= t + LocalTZA ->
  @bucketKey (FixedOffsetDate.zone LocalTZA) Month t =
  startOfDay LocalTZA t - (dayOfMonth LocalTZA t - 1) * 86400000.
Proof.
  intros Ht. unfold bucketKey, startOfDay, dayOfMonth, localCalendarDay.
  cbn [newDate getFullYear getMonth FixedOffsetDate.zone].
  unfold FixedOffsetDate.YearFromTime, FixedOffsetDate.MonthFromTime,
    FixedOffsetDate.LocalTime, FixedOffsetDate.UTC, FixedOffsetDate.MakeDate.
  unfold FixedOffsetDate.Day, FixedOffsetDate.msPerDay.
  set (z := (t + LocalTZA) / 86400000).
  assert (Hz : 0 <= z) by (unfold z; euclid).
  pose proof (civil_year_after_epoch z Hz) as Hy.
  destruct (Z.leb_spec 0 (fst (fst (FixedOffsetDate.civilFromDays z)))); [|lia].
  destruct (Z.leb_spec (fst (fst (FixedOffsetDate.civilFromDays z))) 99); [lia|].
  cbn [andb]. rewrite MakeDay_of_day. lia.
Qed.

Lemma fixed_zone_bucketKey (intervalType : Interval) (t : Z) :
  (intervalType = Month -> 0 <= t + LocalTZA) ->
  @bucketKey (FixedOffsetDate.zone LocalTZA) intervalType t =
  bucketStart LocalTZA intervalType t.
Proof.
  intros Ht. destruct intervalType; unfold bucketStart.
  - apply fixed_zone_hour.
  - unfold bucketKey. apply fixed_zone_setHours.
  - rewrite fixed_zone_week.
    unfold startOfDay, daysSinceMonday, localCalendarDay. lia.
  - apply fixed_zone_month, Ht. reflexivity.
Qed.

Lemma fixed_zone_sampleDayKey (sample : Z * Q) :
  0 <= fst sample + LocalTZA ->
  @sampleDayKey (FixedOffsetDate.zone LocalTZA) sample =
  startOfDay LocalTZA (fst sample).
Proof. intros Ht. unfold sampleDayKey. apply fixed_zone_dayKeyOf, Ht. Qed.

Lemma fixed_zone_rowDayKey (row : CsvRow) :
  row_timestamp row <> None ->
  0 <= rowTime row + LocalTZA ->
  @rowDayKey (FixedOffsetDate.zone LocalTZA) row =
  startOfDay LocalTZA (rowTime row).
Proof.
  unfold rowDayKey, rowTime. destruct (row_timestamp row) as [ts|].
  - intros _ Ht. apply fixed_zone_dayKeyOf, Ht.
  - intros H. destruct H. reflexivity.
Qed.

End CalendarKeys.

(** A bucket of the grouping loop, when the keys of the elements are known
    to be those of another key function. *)
Lemma bucket_ext (X : Type) (keyOf keyOf' : X -> Z) (key : Z) (xs : list X) :
  (forall x, In x xs -> keyOf x = keyOf' x) ->
  bucket keyOf key xs = filter (fun x => keyOf' x =? key) xs.
Proof.
  intros Hkeys. unfold bucket. apply filter_ext_in.
  intros x Hx. rewrite (Hkeys x Hx). reflexivity.
Qed.

(** C6: on a series whose records have [low <= high], for each of the four
    interval types: whatever the zone, the timestamps of the output of
    [aggregateData] increase strictly, the output has one record, and only
    one, for each key of an input record, no other record, and every
    output record has [low <= high]; in a zone with a constant offset the
    keys are the starts of the calendar buckets (of the hour, of the local
    day, of the Monday of the week, of day 1 of the month), so that every
    point has the one record of its bucket, at the start of the bucket, and
    every record is that of the bucket of a point.  For the month the
    points are taken at or after the epoch in local time. *)
Theorem aggregateData_buckets (points : list DailyRecord) (intervalType : Interval) :
  Forall (fun r => (low r <= high r)%Q) points ->
  (forall date : DateEnv,
     let out := @aggregateData date (Some points) intervalType in
     ascending out /\
     (forall key, In key (map (@pointKey date intervalType) points) ->
        exists g, In g out /\ timestamp g = key /\
                  forall g', In g' out -> timestamp g' = key -> g' = g) /\
     (forall g, In g out ->
        In (timestamp g) (map (@pointKey date intervalType) points)) /\
     Forall (fun r => (low r <= high r)%Q) out) /\
  (forall LocalTZA : Z,
     (intervalType = Month ->
      Forall (fun r => 0 <= timestamp r + LocalTZA) points) ->
     let out :=
       @aggregateData (FixedOffsetDate.zone LocalTZA) (Some points) intervalType in
     (forall point, In point points ->
        exists g,
          In g out /\
          timestamp g = bucketStart LocalTZA intervalType (timestamp point) /\
          forall g', In g' out -> timestamp g' = timestamp g -> g' = g) /\
     (forall g, In g out ->
        exists point,
          In point points /\
          timestamp g = bucketStart LocalTZA intervalType (timestamp point))).
Proof.
  intros Hrange. split.
  - intros date. exact (@aggregateData_keys date points intervalType Hrange).
  - intros LocalTZA Hepoch out.
    assert (Hkey : forall point, In point points ->
              @pointKey (FixedOffsetDate.zone LocalTZA) intervalType point =
              bucketStart LocalTZA intervalType (timestamp point)).
    { intros point Hp. unfold pointKey. apply fixed_zone_bucketKey.
      intros Hmonth. specialize (Hepoch Hmonth).
      rewrite Forall_forall in Hepoch. exact (Hepoch point Hp). }
    destruct (@aggregateData_keys (FixedOffsetDate.zone LocalTZA) points
                intervalType Hrange) as [_ [Hone [Honly _]]].
    fold out in Hone, Honly. split.
    + intros point Hp.
      destruct (Hone _ (in_map _ _ _ Hp)) as [g [Hg [Hts Huniq]]].
      exists g. split; [exact Hg|]. split.
      * rewrite Hts. apply Hkey, Hp.
      * intros g' Hg' Hsame. apply Huniq; [exact Hg' | congruence].
    + intros g Hg. specialize (Honly g Hg).
      apply in_map_iff in Honly. destruct Honly as [point [Hk Hp]].
      exists point. split; [exact Hp|]. rewrite <- Hk. apply Hkey, Hp.
Qed.

(** C9: the archive loader skips the rows whose timestamp is not a number
    and rolls the others up by the local calendar day of their timestamp
    in seconds.  Whatever the zone, the output is in ascending order of
    day key, with one record for each day key of a row, whose [open] is
    that of the first row of the key, [high] the running maximum of the
    highs, [low] the running minimum of the lows, [close] that of the last
    row and [volume] the sum of the volumes, added up from the first; it is
    what the first load returns.  In a zone with a constant offset, for
    rows at or after the epoch in local time, the day key is the start of
    the local calendar day: the output has a record at the start of each
    day that has a row, and it rolls up the rows of that day. *)
Theorem loadCSVData_daily_rollup (header : CsvLine) (body : list CsvLine) :
  (forall date : DateEnv,
     let rows := numericRows body in
     let out := @parseCSV date (header :: body) in
     (forall row, In row rows <->
                  In (DataLine row) body /\ row_timestamp row <> None) /\
     ascending out /\
     (forall key, In key (map timestamp out) <->
                  In key (map (@rowDayKey date) rows)) /\
     (forall g, In g out ->
        exists first rest,
          bucket (@rowDayKey date) (timestamp g) rows = first :: rest /\
          open g = row_open first /\
          high g = fold_left Math_max (map row_high rest) (row_high first) /\
          low g = fold_left Math_min (map row_low rest) (row_low first) /\
          close g = last (map row_close rest) (row_close first) /\
          volume g = fold_left Qplus (map row_volume rest) (row_volume first)) /\
     (forall env st,
        static_csvData st = None -> static_loadingPromise st = None ->
        csvResponse env = Ok (header :: body) ->
        fst (@loadCSVData date env st) = Ok out)) /\
  (forall LocalTZA : Z,
     Forall (fun row => 0 <= rowTime row + LocalTZA) (numericRows body) ->
     let rows := numericRows body in
     let out := @parseCSV (FixedOffsetDate.zone LocalTZA) (header :: body) in
     (forall key,
        In key (map timestamp out) <->
        In key (map (fun row => startOfDay LocalTZA (rowTime row)) rows)) /\
     (forall g, In g out ->
        exists first rest,
          filter (fun row => startOfDay LocalTZA (rowTime row) =? timestamp g)
                 rows = first :: rest /\
          open g = row_open first /\
          high g = fold_left Math_max (map row_high rest) (row_high first) /\
          low g = fold_left Math_min (map row_low rest) (row_low first) /\
          close g = last (map row_close rest) (row_close first) /\
          volume g = fold_left Qplus (map row_volume rest) (row_volume first))).
Proof.
  split.
  - intros date. exact (@parseCSV_rollup date header body).
  - intros LocalTZA Hepoch rows out.
    assert (Hkey : forall row, In row rows ->
              @rowDayKey (FixedOffsetDate.zone LocalTZA) row =
              startOfDay LocalTZA (rowTime row)).
    { intros row Hrow. apply fixed_zone_rowDayKey.
      - apply numericRows_In in Hrow. exact (proj2 Hrow).
      - rewrite Forall_forall in Hepoch. exact (Hepoch row Hrow). }
    destruct (@parseCSV_rollup (FixedOffsetDate.zone LocalTZA) header body)
      as [_ [_ [Hkeys [Hrec _]]]].
    fold rows out in Hkeys, Hrec. split.
    + intros key. rewrite Hkeys.
      rewrite (map_ext_in _ _ rows Hkey). reflexivity.
    + intros g Hg. destruct (Hrec g Hg) as [first [rest [Hb Hfields]]].
      exists first, rest. split; [|exact Hfields].
      rewrite <- Hb. symmetry. apply bucket_ext, Hkey.
Qed.

(** C5: the fetcher rolls the samples of the API up by calendar day.
    Whatever the zone, the output is in ascending order of day key, with
    one record for each day key of a sample, whose [open] is the price of
    the first sample of the key, [close] the price of the last, [high] the
    running maximum, [low] the running minimum and [volume] 0; it is what
    a successful fetch returns.  In a zone with a constant offset, for
    samples at or after the epoch in local time, the day key is the start
    of the local calendar day: the output has a record at the start of
    each day that has a sample, and it rolls up the samples of that day;
    two samples of one calendar day, of prices 100 and 110, give the one
    record open 100, high 110, low 100, close 110, volume 0. *)
Theorem fetch_daily_rollup (prices : list (Z * Q)) :
  (forall date : DateEnv,
     let out := @dailyFromPrices date prices in
     ascending out /\
     (forall key, In key (map timestamp out) <->
                  In key (map (@sampleDayKey date) prices)) /\
     (forall g, In g out ->
        exists first rest,
          bucket (@sampleDayKey date) (timestamp g) prices = first :: rest /\
          open g = snd first /\
          high g = fold_left Math_max (map snd rest) (snd first) /\
          low g = fold_left Math_min (map snd rest) (snd first) /\
          close g = last (map snd rest) (snd first) /\
          volume g = 0%Q) /\
     (forall env st fromTimestamp toTimestamp status,
        api env (fromTimestamp / 1000) (toTimestamp / 1000) =
          ApiResponse status prices ->
        response_ok status = true -> dbError env = None ->
        fst (@fetchMissingDataFromAPI date env fromTimestamp toTimestamp st) =
          Ok out)) /\
  (forall LocalTZA : Z,
     Forall (fun sample => 0 <= fst sample + LocalTZA) prices ->
     let out := @dailyFromPrices (FixedOffsetDate.zone LocalTZA) prices in
     (forall key,
        In key (map timestamp out) <->
        In key (map (fun sample => startOfDay LocalTZA (fst sample)) prices)) /\
     (forall g, In g out ->
        exists first rest,
          filter (fun sample => startOfDay LocalTZA (fst sample) =? timestamp g)
                 prices = first :: rest /\
          open g = snd first /\
          high g = fold_left Math_max (map snd rest) (snd first) /\
          low g = fold_left Math_min (map snd rest) (snd first) /\
          close g = last (map snd rest) (snd first) /\
          volume g = 0%Q)) /\
  (forall LocalTZA t1 t2 : Z,
     0 <= t1 + LocalTZA -> 0 <= t2 + LocalTZA ->
     localCalendarDay LocalTZA t1 = localCalendarDay LocalTZA t2 ->
     @dailyFromPrices (FixedOffsetDate.zone LocalTZA)
       [(t1, 100%Q); (t2, 110%Q)] =
     [ {| timestamp := startOfDay LocalTZA t1; open := 100; high := 110;
          low := 100; close := 110; volume := 0 |} ]).
Proof.
  split; [|split].
  - intros date.
    destruct (@dailyFromPrices_rollup date prices) as [H1 [H2 [H3 [H4 _]]]].
    repeat split; assumption || apply H2.
  - intros LocalTZA Hepoch out.
    assert (Hkey : forall sample, In sample prices ->
              @sampleDayKey (FixedOffsetDate.zone LocalTZA) sample =
              startOfDay LocalTZA (fst sample)).
    { intros sample Hs. apply fixed_zone_sampleDayKey.
      rewrite Forall_forall in Hepoch. exact (Hepoch sample Hs). }
    destruct (@dailyFromPrices_rollup (FixedOffsetDate.zone LocalTZA) prices)
      as [_ [Hkeys [Hrec _]]].
    fold out in Hkeys, Hrec. split.
    + intros key. rewrite Hkeys.
      rewrite (map_ext_in _ _ prices Hkey). reflexivity.
    + intros g Hg. destruct (Hrec g Hg) as [first [rest [Hb Hfields]]].
      exists first, rest. split; [|exact Hfields].
      rewrite <- Hb. symmetry. apply bucket_ext, Hkey.
  - intros LocalTZA t1 t2 H1 H2 Hday.
    destruct (@dailyFromPrices_rollup (FixedOffsetDate.zone LocalTZA) [])
      as [_ [_ [_ [_ Hpair]]]].
    rewrite (Hpair t1 t2).
    + rewrite fixed_zone_dayKeyOf by exact H1. reflexivity.
    + rewrite !fixed_zone_dayKeyOf by assumption.
      unfold localCalendarDay in Hday. rewrite Hday. reflexivity.
Qed.

(* ================================================================== *)
(** ** The further properties on the sample inputs *)

Section MoreSampleRuns.
Import Samples MoreSamples.
#[local] Existing Instance FixedOffsetDate.utc.

Lemma sample_store_ascending : ascending (db cachedState).
Proof. repeat constructor. Defined.

Lemma saveBulkDailyPrices_upsert_witness :
  let st' := snd (saveBulkDailyPrices (secondDay silentApi)
                    [fetchedDay; storeDay] cachedState) in
  dbError (secondDay silentApi) = None /\
  ascending (db cachedState) /\
  ascending (db st') /\
  db st' = [storeDay; fetchedDay].
Proof.
  exact (conj eq_refl (conj sample_store_ascending
           (conj (proj1 (proj2
                    (saveBulkDailyPrices_upsert (secondDay silentApi)
                       [fetchedDay; storeDay] cachedState eq_refl
                       sample_store_ascending)))
                 eq_refl))).
Defined.

Lemma getDataStats_bounds_witness :
  dbError (secondDay silentApi) = None /\
  getDataStats (secondDay silentApi) cachedState =
    (Ok (statsOf (db cachedState)), cachedState) /\
  statsOf (db cachedState) = mkDataStats 1 (Some day2) (Some day2).
Proof.
  exact (conj eq_refl
           (conj (proj1 (getDataStats_bounds (secondDay silentApi) cachedState
                           eq_refl))
                 eq_refl)).
Defined.

Lemma clear_then_save_count_witness :
  dbError (secondDay silentApi) = None /\
  db (snd (clearAllData (secondDay silentApi) cachedState)) = [].
Proof.
  exact (conj eq_refl
           (proj1 (clear_then_save_count (secondDay silentApi)
                     [fetchedDay; fetchedDay] cachedState eq_refl))).
Defined.

Lemma sample_week_record :
  In (mkRecord day1 95 105 94 105 5)
     (aggregateData (Some [archiveDay; storeDay]) Week).
Proof. vm_compute. left. reflexivity. Defined.

Lemma aggregateData_rollup_witness :
  In (mkRecord day1 95 105 94 105 5)
     (aggregateData (Some [archiveDay; storeDay]) Week) /\
  exists first rest,
    bucket (pointKey Week) day1 [archiveDay; storeDay] = first :: rest /\
    95%Q = open first /\
    105%Q = fold_left Math_max (map high rest) (high first) /\
    94%Q = fold_left Math_min (map low rest) (low first) /\
    105%Q = last (map close rest) (close first) /\
    5%Q = fold_left Qplus (map volume rest) (volume first).
Proof.
  exact (conj sample_week_record
           (aggregateData_rollup [archiveDay; storeDay] Week _
              sample_week_record)).
Defined.

Lemma aggregateData_envelope_witness :
  In storeDay [archiveDay; storeDay] /\
  exists g,
    In g (aggregateData (Some [archiveDay; storeDay]) Month) /\
    timestamp g = pointKey Month storeDay /\
    (high storeDay <= high g)%Q /\ (low g <= low storeDay)%Q.
Proof.
  exact (conj (or_intror (or_introl eq_refl))
           (aggregateData_envelope [archiveDay; storeDay] Month storeDay
              (or_intror (or_introl eq_refl)))).
Defined.

Lemma sample_consistent :
  Forall (fun r => (low r <= open r <= high r)%Q /\
                   (low r <= close r <= high r)%Q) [archiveDay; storeDay].
Proof. repeat constructor; unfold Qle; simpl; lia. Defined.

Lemma aggregateData_consistent_witness :
  Forall (fun r => (low r <= open r <= high r)%Q /\
                   (low r <= close r <= high r)%Q) [archiveDay; storeDay] /\
  Forall (fun r => (low r <= open r <= high r)%Q /\
                   (low r <= close r <= high r)%Q)
         (aggregateData (Some [archiveDay; storeDay]) Week).
Proof.
  exact (conj sample_consistent
           (aggregateData_consistent [archiveDay; storeDay] Week
              sample_consistent)).
Defined.

Lemma sample_after_epoch (t : Z) (H : (0 <=? t + 36000000) = true) :
  0 <= t + 36000000.
Proof. apply Z.leb_le, H. Defined.

Lemma fixed_zone_day_grouping_witness :
  0 <= day1 + 36000000 /\ 0 <= day1 + 3600000 + 36000000 /\
  @dayKeyOf (FixedOffsetDate.zone 36000000) day1 =
  @setHours (FixedOffsetDate.zone 36000000) day1 0 0 0 0.
Proof.
  exact (conj (sample_after_epoch day1 eq_refl)
           (conj (sample_after_epoch (day1 + 3600000) eq_refl)
              (proj1 (proj2
                 (fixed_zone_day_grouping 36000000 day1 (day1 + 3600000)
                    (sample_after_epoch day1 eq_refl)
                    (sample_after_epoch (day1 + 3600000) eq_refl)))))).
Defined.

Lemma fixed_zone_bucket_bounds_witness :
  0 <= day1 + 36000000 /\
  @bucketKey (FixedOffsetDate.zone 36000000) Month day1 <= day1
    < @bucketKey (FixedOffsetDate.zone 36000000) Month day1 + 31 * 86400000.
Proof.
  exact (conj (sample_after_epoch day1 eq_refl)
           (proj2 (proj2 (proj2 (proj2 (proj2
              (fixed_zone_bucket_bounds 36000000 day1)))))
              (sample_after_epoch day1 eq_refl))).
Defined.

Lemma loadCSVData_once_witness :
  static_csvData freshState = None /\
  static_loadingPromise freshState = None /\
  loadCSVData missingFile freshState =
    (Err (RuntimeMessage "Failed to fetch"),
     mkState None (Some (Err (RuntimeMessage "Failed to fetch"))) [] [] []) /\
  loadCSVData (secondDay silentApi)
    (mkState None (Some (Err (RuntimeMessage "Failed to fetch"))) [] [] []) =
    (Err (RuntimeMessage "Failed to fetch"),
     mkState None (Some (Err (RuntimeMessage "Failed to fetch"))) [] [] []).
Proof.
  exact (conj eq_refl (conj eq_refl (conj eq_refl
           (proj1 (loadCSVData_once missingFile (secondDay silentApi)
                     freshState _ _ eq_refl eq_refl eq_refl))))).
Defined.

Lemma fetchCombinedData_load_failure_sticky_witness :
  static_csvData freshState = None /\
  static_loadingPromise freshState = None /\
  csvResponse missingFile = Err (RuntimeMessage "Failed to fetch") /\
  fst (fetchCombinedData missingFile false freshState) =
    {| data := []; source := ERROR;
       error := Some (RuntimeMessage "Failed to fetch"); missingDays := 0 |}.
Proof.
  exact (conj eq_refl (conj eq_refl (conj eq_refl
           (proj1 (fetchCombinedData_load_failure_sticky missingFile false
                     freshState _ eq_refl eq_refl eq_refl))))).
Defined.

Lemma fetchCombinedData_store_unreadable_witness :
  loadCSVData brokenStore cachedState =
    (Ok [archiveDay],
     mkState (Some [archiveDay]) (Some (Ok [archiveDay])) [storeDay] [] []) /\
  dbError brokenStore = Some (RuntimeMessage "blocked") /\
  data (fst (fetchCombinedData brokenStore true cachedState)) = [archiveDay].
Proof.
  exact (conj eq_refl (conj eq_refl
           (proj1 (fetchCombinedData_store_unreadable brokenStore true
                     cachedState _ _ _ eq_refl eq_refl)))).
Defined.


Lemma fetchCombinedData_keeps_store_witness :
  ascending (db cachedState) /\
  ascending (db (snd (fetchCombinedData (fourthDay liveApi) false cachedState))).
Proof.
  exact (conj sample_store_ascending
           (proj1 (fetchCombinedData_keeps_store (fourthDay liveApi) false
                     cachedState sample_store_ascending))).
Defined.

Lemma sample_live_gap :
  0 < daysSince (now (fourthDay liveApi))
        (lastTimestampOf (last [] archiveDay) (db cachedState)) \/
  false = true.
Proof. left. reflexivity. Defined.

Lemma sample_prices :
  [(day3 + 60000, 107%Q); (day3 + 120000, 109%Q)] <> [].
Proof. discriminate. Defined.

Lemma fetchCombinedData_live_witness :
  loadCSVData (fourthDay liveApi) cachedState =
    (Ok [archiveDay],
     mkState (Some [archiveDay]) (Some (Ok [archiveDay])) [storeDay] [] []) /\
  dbError (fourthDay liveApi) = None /\
  response_ok 200 = true /\
  source (fst (fetchCombinedData (fourthDay liveApi) false cachedState)) = LIVE_API /\
  data (fst (fetchCombinedData (fourthDay liveApi) false cachedState)) =
    [archiveDay; storeDay; fetchedDay] /\
  db (snd (fetchCombinedData (fourthDay liveApi) false cachedState)) =
    [storeDay; fetchedDay].
Proof.
  exact (conj eq_refl (conj eq_refl (conj eq_refl
           (conj (proj1 (fetchCombinedData_live (fourthDay liveApi) false
                           cachedState _ archiveDay [] 200 _
                           eq_refl eq_refl sample_live_gap eq_refl eq_refl
                           sample_prices))
                 (conj eq_refl eq_refl))))).
Defined.

Lemma sample_series_ascending : ascending [archiveDay; storeDay; fetchedDay].
Proof. repeat constructor. Defined.

Lemma filteredData_window_witness :
  ascending [archiveDay; storeDay; fetchedDay] /\
  In oneDay LOG_DURATIONS /\
  hd_error (filteredData (Some [archiveDay; storeDay; fetchedDay]) "1D") =
    Some fetchedDay /\
  filteredData (Some [archiveDay; storeDay; fetchedDay]) "1D" =
    [fetchedDay; storeDay].
Proof.
  exact (conj sample_series_ascending (conj (or_introl eq_refl)
           (conj (proj1 (proj2
                    (filteredData_window archiveDay [storeDay; fetchedDay] oneDay
                       sample_series_ascending (or_introl eq_refl))))
                 eq_refl))).
Defined.

Lemma previousData_earliest_witness :
  ascending [archiveDay; storeDay; fetchedDay] /\
  currentData [archiveDay; storeDay; fetchedDay] = Some fetchedDay /\
  previousData [archiveDay; storeDay; fetchedDay] = Some storeDay.
Proof.
  exact (conj sample_series_ascending
           (conj (proj1 (previousData_earliest archiveDay [storeDay; fetchedDay]
                           sample_series_ascending))
                 eq_refl)).
Defined.

Lemma sample_not_month : Week <> Month.
Proof. discriminate. Defined.

Lemma fixed_zone_aggregate_idempotent_witness :
  Week <> Month /\
  @aggregateData (FixedOffsetDate.zone 36000000)
    (Some (@aggregateData (FixedOffsetDate.zone 36000000)
             (Some [archiveDay; storeDay]) Week)) Week =
  @aggregateData (FixedOffsetDate.zone 36000000) (Some [archiveDay; storeDay]) Week.
Proof.
  exact (conj sample_not_month
           (fixed_zone_aggregate_idempotent 36000000 [archiveDay; storeDay] Week
              sample_not_month)).
Defined.

Example calendar_bucket_starts :
  let t := day1 + 37 * oneDayMs + 13 * 3600000 + 125 in
  bucketStart 0 Hour t = day1 + 37 * oneDayMs + 13 * 3600000 /\
  bucketStart 0 Day t = day1 + 37 * oneDayMs /\
  bucketStart 0 Week t = day1 + 35 * oneDayMs /\
  bucketStart 0 Month t = day1 + 31 * oneDayMs /\
  bucketStart 36000000 Day t = day1 + 37 * oneDayMs - 36000000 /\
  bucketStart 36000000 Month t = day1 + 31 * oneDayMs - 36000000.
Proof. repeat split. Qed.

Lemma sample_points_after_epoch :
  Forall (fun r => 0 <= timestamp r + 36000000) [archiveDay; storeDay].
Proof.
  repeat (constructor; [apply sample_after_epoch; reflexivity|]). constructor.
Defined.

Lemma aggregateData_buckets_witness :
  let points := [archiveDay; storeDay] in
  let out := @aggregateData (FixedOffsetDate.zone 36000000) (Some points) Month in
  Forall (fun r => (low r <= high r)%Q) points /\
  Forall (fun r => 0 <= timestamp r + 36000000) points /\
  exists g,
    In g out /\
    timestamp g = bucketStart 36000000 Month (timestamp storeDay) /\
    forall g', In g' out -> timestamp g' = timestamp g -> g' = g.
Proof.
  exact (conj sample_range
           (conj sample_points_after_epoch
              (proj1
                 (proj2 (aggregateData_buckets [archiveDay; storeDay] Month
                           sample_range)
                    36000000 (fun _ => sample_points_after_epoch))
                 storeDay (or_intror (or_introl eq_refl))))).
Defined.

Lemma sample_rows_after_epoch :
  Forall (fun row => 0 <= rowTime row + 36000000) (numericRows (tl csvLines)).
Proof.
  repeat (constructor; [apply sample_after_epoch; reflexivity|]). constructor.
Defined.

Lemma loadCSVData_daily_rollup_witness :
  static_csvData freshState = None /\
  static_loadingPromise freshState = None /\
  csvResponse (secondDay silentApi) = Ok csvLines /\
  fst (loadCSVData (secondDay silentApi) freshState) = Ok (parseCSV csvLines) /\
  parseCSV csvLines = [archiveDay] /\
  Forall (fun row => 0 <= rowTime row + 36000000) (numericRows (tl csvLines)) /\
  (forall key,
     In key (map timestamp (@parseCSV (FixedOffsetDate.zone 36000000) csvLines)) <->
     In key (map (fun row => startOfDay 36000000 (rowTime row))
               (numericRows (tl csvLines)))).
Proof.
  exact (conj eq_refl (conj eq_refl (conj eq_refl (conj
           (proj2 (proj2 (proj2 (proj2
              (proj1 (loadCSVData_daily_rollup
                        (DataLine (mkRow None 0 0 0 0 0)) (tl csvLines))
                 FixedOffsetDate.utc))))
              (secondDay silentApi) freshState eq_refl eq_refl eq_refl)
           (conj eq_refl (conj sample_rows_after_epoch
              (proj1
                 (proj2 (loadCSVData_daily_rollup
                           (DataLine (mkRow None 0 0 0 0 0)) (tl csvLines))
                    36000000 sample_rows_after_epoch)))))))).
Defined.

Lemma fetch_daily_rollup_witness :
  0 <= day1 + 5 + 36000000 /\
  0 <= day1 + 3600000 + 36000000 /\
  localCalendarDay 36000000 (day1 + 5) =
    localCalendarDay 36000000 (day1 + 3600000) /\
  @dailyFromPrices (FixedOffsetDate.zone 36000000)
    [(day1 + 5, 100%Q); (day1 + 3600000, 110%Q)] =
  [ {| timestamp := startOfDay 36000000 (day1 + 5); open := 100; high := 110;
       low := 100; close := 110; volume := 0 |} ].
Proof.
  exact (conj (sample_after_epoch (day1 + 5) eq_refl)
           (conj (sample_after_epoch (day1 + 3600000) eq_refl)
              (conj eq_refl
                 (proj2 (proj2 (fetch_daily_rollup []))
                    36000000 (day1 + 5) (day1 + 3600000)
                    (sample_after_epoch (day1 + 5) eq_refl)
                    (sample_after_epoch (day1 + 3600000) eq_refl)
                    eq_refl)))).
Defined.

Example sample_price_cards :
  (let r := loadData (fourthDay failingApi) false cachedState in
   PriceCard (currentData (fst (fst r))) false (snd (fst r)) =
   Some {| card_badge := BehindBadge 2; card_button := Some false |}) /\
  (let r := loadData missingFile false freshState in
   fst (fst r) = [] /\
   status_source (snd (fst r)) = Some ERROR /\
   PriceCard (currentData (fst (fst r))) false (snd (fst r)) = None).
Proof. vm_compute. repeat split. Qed.

End MoreSampleRuns.
